(** * UVPCB: countdown timer for a UV exposure chamber (UVPCB.ino)

    A shallow embedding of the sketch's control logic: the global
    variables become one record, [loop()] becomes a function from the
    values the hardware hands to one pass (encoder edges, button level,
    [millis()] readings) to the next record, and the two busy-wait loops
    of [countdownFinished()] and [abortCountdown()] become control
    locations that are polled one [isButtonPressed()] call at a time.
    A state of the machine is what the globals and RELAY_PIN hold between
    two passes of [loop()] or between two polls of a busy-wait.

    Target: Arduino Uno (ATmega328P).  [int] is 16 bits, [unsigned long]
    is 32 bits.  Signed overflow is taken as two's-complement wrap-around,
    which is what avr-gcc emits for these operations. *)

From Stdlib Require Import ZArith List Bool Lia.
From Stdlib Require String Ascii DecimalString Permutation.
Import ListNotations.
Local Open Scope Z_scope.

(** ** Machine integers *)

Module Int16.

Definition modulus : Z := 65536.
Definition min_signed : Z := -32768.
Definition max_signed : Z := 32767.

(** Two's-complement reading of the low 16 bits. *)
Definition wrap (z : Z) : Z := (z + 32768) mod modulus - 32768.

Definition add (a b : Z) : Z := wrap (a + b).
Definition sub (a b : Z) : Z := wrap (a - b).
Definition mul (a b : Z) : Z := wrap (a * b).

Definition in_range (z : Z) : Prop := min_signed <= z <= max_signed.

End Int16.

Module ULong.

Definition modulus : Z := 4294967296.

Definition wrap (z : Z) : Z := z mod modulus.

(** [a - b] on [unsigned long]. *)
Definition sub (a b : Z) : Z := wrap (a - b).

End ULong.

(** ** Constants of the sketch *)

Definition SCREEN_WIDTH : Z := 128.
Definition DEBOUNCE_DELAY : Z := 300.
Definition FAST_THRESHOLD : Z := 60.
Definition MIN_TIME : Z := 1.
Definition MAX_TIME : Z := 1800.
Definition EEPROM_ADDRESS : Z := 0.

(** Pin levels. *)
Definition LOW : bool := false.
Definition HIGH : bool := true.

(** ** Arduino core helpers used by the sketch *)

(** [constrain(amt, low, high)]:
    [((amt)<(low)?(low):((amt)>(high)?(high):(amt)))]. *)
Definition constrain (amt low high : Z) : Z :=
  if amt <? low then low else if high <? amt then high else amt.

(** [map(x, in_min, in_max, out_min, out_max)]:
    [(x - in_min) * (out_max - out_min) / (in_max - in_min) + out_min].
    The quotient does not exist when [in_max = in_min]. *)
Definition arduino_map (x in_min in_max out_min out_max : Z) : option Z :=
  if in_max - in_min =? 0 then None
  else Some (Z.quot ((x - in_min) * (out_max - out_min)) (in_max - in_min) + out_min).

(** ** EEPROM: a byte per address *)

Module EEPROM.

Definition t : Type := Z -> Z.

Definition write (a v : Z) (m : t) : t :=
  fun a' => if a' =? a then v mod 256 else m a'.

(** [EEPROM.put(addr, int)]: the two bytes of the [int], low byte first. *)
Definition put (a v : Z) (m : t) : t :=
  write (a + 1) (Z.shiftr (v mod 65536) 8) (write a (v mod 65536) m).

(** [EEPROM.get(addr, int&)]: reassembles the [int] from its two bytes. *)
Definition get (a : Z) (m : t) : Z :=
  Int16.wrap (m a mod 256 + Z.shiftl (m (a + 1) mod 256) 8).

(** A factory-fresh (erased) EEPROM reads [0xFF] everywhere. *)
Definition erased : t := fun _ => 255.

(** An EEPROM whose cell at [a] holds the [int] [v]. *)
Definition holding (a v : Z) : t := put a v erased.

End EEPROM.

(** ** What the sketch drives: relay, screen, buzzer *)

Inductive Screen :=
| ScrSplash
| ScrFinished     (* "Tempo Acabou!" / "Pressione: Reiniciar" *)
| ScrCancelled.   (* "Cancelado!"    / "Pressione: Reiniciar" *)

Inductive Melody := MelStartup | MelAlarm | MelCancel.

Inductive Event :=
| EvRelay (level : bool)
    (* digitalWrite(RELAY_PIN, level) *)
| EvRender (started : bool) (mins secs in_max : Z) (progress : option Z)
    (* updateDisplay(): status, mm:ss, the [in_max] handed to map() and
       the bar width it computed *)
| EvScreen (scr : Screen)
| EvTone (m : Melody)
| EvSave (total : Z).
    (* EEPROM.put(EEPROM_ADDRESS, total) *)

(** ** Control locations

    [AtLoop]: between two passes of [loop()].
    [WaitFinished] / [WaitAborted]: inside the [while (!isButtonPressed())]
    of [countdownFinished()] / [abortCountdown()].
    [Halted]: inside the [for(;;);] of [setup()]. *)
Inductive PC := Halted | AtLoop | WaitFinished | WaitAborted.

(** ** Global variables *)

Record State := mkState {
  encoderPos : Z;
  lastReportedPos : Z;
  rotating : bool;
  seconds : Z;
  minutes : Z;
  initialTotalSeconds : Z;
  countdownStarted : bool;
  lastCountdownUpdate : Z;
  lastButtonPress : Z;
  lastEncoderChange : Z;
  relay : bool;
  eeprom : EEPROM.t;
  out : list Event;
  pc : PC
}.

Definition set_encoderPos (v : Z) (s : State) : State :=
  mkState v (lastReportedPos s) (rotating s) (seconds s) (minutes s)
    (initialTotalSeconds s) (countdownStarted s) (lastCountdownUpdate s)
    (lastButtonPress s) (lastEncoderChange s) (relay s) (eeprom s) (out s) (pc s).

Definition set_lastReportedPos (v : Z) (s : State) : State :=
  mkState (encoderPos s) v (rotating s) (seconds s) (minutes s)
    (initialTotalSeconds s) (countdownStarted s) (lastCountdownUpdate s)
    (lastButtonPress s) (lastEncoderChange s) (relay s) (eeprom s) (out s) (pc s).

Definition set_rotating (v : bool) (s : State) : State :=
  mkState (encoderPos s) (lastReportedPos s) v (seconds s) (minutes s)
    (initialTotalSeconds s) (countdownStarted s) (lastCountdownUpdate s)
    (lastButtonPress s) (lastEncoderChange s) (relay s) (eeprom s) (out s) (pc s).

Definition set_seconds (v : Z) (s : State) : State :=
  mkState (encoderPos s) (lastReportedPos s) (rotating s) v (minutes s)
    (initialTotalSeconds s) (countdownStarted s) (lastCountdownUpdate s)
    (lastButtonPress s) (lastEncoderChange s) (relay s) (eeprom s) (out s) (pc s).

Definition set_minutes (v : Z) (s : State) : State :=
  mkState (encoderPos s) (lastReportedPos s) (rotating s) (seconds s) v
    (initialTotalSeconds s) (countdownStarted s) (lastCountdownUpdate s)
    (lastButtonPress s) (lastEncoderChange s) (relay s) (eeprom s) (out s) (pc s).

Definition set_initialTotalSeconds (v : Z) (s : State) : State :=
  mkState (encoderPos s) (lastReportedPos s) (rotating s) (seconds s) (minutes s)
    v (countdownStarted s) (lastCountdownUpdate s)
    (lastButtonPress s) (lastEncoderChange s) (relay s) (eeprom s) (out s) (pc s).

Definition set_countdownStarted (v : bool) (s : State) : State :=
  mkState (encoderPos s) (lastReportedPos s) (rotating s) (seconds s) (minutes s)
    (initialTotalSeconds s) v (lastCountdownUpdate s)
    (lastButtonPress s) (lastEncoderChange s) (relay s) (eeprom s) (out s) (pc s).

Definition set_lastCountdownUpdate (v : Z) (s : State) : State :=
  mkState (encoderPos s) (lastReportedPos s) (rotating s) (seconds s) (minutes s)
    (initialTotalSeconds s) (countdownStarted s) v
    (lastButtonPress s) (lastEncoderChange s) (relay s) (eeprom s) (out s) (pc s).

Definition set_lastButtonPress (v : Z) (s : State) : State :=
  mkState (encoderPos s) (lastReportedPos s) (rotating s) (seconds s) (minutes s)
    (initialTotalSeconds s) (countdownStarted s) (lastCountdownUpdate s)
    v (lastEncoderChange s) (relay s) (eeprom s) (out s) (pc s).

Definition set_lastEncoderChange (v : Z) (s : State) : State :=
  mkState (encoderPos s) (lastReportedPos s) (rotating s) (seconds s) (minutes s)
    (initialTotalSeconds s) (countdownStarted s) (lastCountdownUpdate s)
    (lastButtonPress s) v (relay s) (eeprom s) (out s) (pc s).

Definition set_relay (v : bool) (s : State) : State :=
  mkState (encoderPos s) (lastReportedPos s) (rotating s) (seconds s) (minutes s)
    (initialTotalSeconds s) (countdownStarted s) (lastCountdownUpdate s)
    (lastButtonPress s) (lastEncoderChange s) v (eeprom s) (out s) (pc s).

Definition set_eeprom (v : EEPROM.t) (s : State) : State :=
  mkState (encoderPos s) (lastReportedPos s) (rotating s) (seconds s) (minutes s)
    (initialTotalSeconds s) (countdownStarted s) (lastCountdownUpdate s)
    (lastButtonPress s) (lastEncoderChange s) (relay s) v (out s) (pc s).

Definition set_pc (v : PC) (s : State) : State :=
  mkState (encoderPos s) (lastReportedPos s) (rotating s) (seconds s) (minutes s)
    (initialTotalSeconds s) (countdownStarted s) (lastCountdownUpdate s)
    (lastButtonPress s) (lastEncoderChange s) (relay s) (eeprom s) (out s) v.

(** Appends one event to the output log. *)
Definition emit (ev : Event) (s : State) : State :=
  mkState (encoderPos s) (lastReportedPos s) (rotating s) (seconds s) (minutes s)
    (initialTotalSeconds s) (countdownStarted s) (lastCountdownUpdate s)
    (lastButtonPress s) (lastEncoderChange s) (relay s) (eeprom s)
    (out s ++ [ev]) (pc s).

(** [digitalWrite(RELAY_PIN, level)]. *)
Definition digitalWrite_RELAY (level : bool) (s : State) : State :=
  emit (EvRelay level) (set_relay level s).

(** [millis()] hands back an [unsigned long]. *)
Definition millis (clock : Z) : Z := ULong.wrap clock.

(** ** What the hardware hands to one pass

    Every read of the outside world in one pass of [loop()] (or in one
    poll of a busy-wait) takes its value from this record.  The encoder
    interrupt may fire between any two statements; the three [irq_*]
    lists are the edges served before each of the three reads of the
    volatile [encoderPos] (lines 165, 176 and 185).  On a path that skips
    a read, the edges of that list are served all the same, they are
    only seen later.  Edges that arrive after line 185 are the [irq_top]
    of the next pass or poll. *)
Record Env := mkEnv {
  irq_top : list (bool * bool);   (* (CLK, DT) at each edge served before line 165 *)
  irq_calc : list (bool * bool);  (* ... between line 165 and line 176 *)
  irq_draw : list (bool * bool);  (* ... between line 176 and line 185 *)
  t_enc : Z;                      (* millis() on line 169 *)
  sw : bool;                      (* digitalRead(ENCODER_SW) on line 413 *)
  t_btn : Z;                      (* millis() on line 414 *)
  t_btn_stamp : Z;                (* millis() on line 415 *)
  t_start : Z;                    (* millis() on line 195 *)
  t_tick : Z;                     (* millis() on line 204 *)
  t_tick_stamp : Z                (* millis() on line 205 *)
}.

(** ** The functions of the sketch *)

(** [doEncoder()], the CHANGE interrupt on ENCODER_CLK. *)
Definition doEncoder (clk dt : bool) (s : State) : State :=
  if Bool.eqb clk dt
  then set_encoderPos (Int16.add (encoderPos s) 1) s
  else set_encoderPos (Int16.sub (encoderPos s) 1) s.

(** A burst of encoder edges, served in order. *)
Definition interrupts (edges : list (bool * bool)) (s : State) : State :=
  fold_left (fun st e => doEncoder (fst e) (snd e) st) edges s.

(** [updateDisplay()]: only what it computes from the globals. *)
Definition updateDisplay (s : State) : State :=
  let totalSeconds := Int16.add (Int16.mul (minutes s) 60) (seconds s) in
  let in_max := if countdownStarted s then initialTotalSeconds s else MAX_TIME in
  emit (EvRender (countdownStarted s) (minutes s) (seconds s) in_max
          (arduino_map totalSeconds 0 in_max 0 SCREEN_WIDTH)) s.

(** [isButtonPressed()]. *)
Definition isButtonPressed (level : bool) (t_test t_stamp : Z) (s : State)
  : bool * State :=
  if Bool.eqb level LOW then
    if DEBOUNCE_DELAY <? ULong.sub (millis t_test) (lastButtonPress s) then
      (true, set_lastButtonPress (millis t_stamp) s)
    else (false, s)
  else (false, s).

(** [saveLastConfiguration()]. *)
Definition saveLastConfiguration (s : State) : State :=
  let totalSeconds := Int16.add (Int16.mul (minutes s) 60) (seconds s) in
  emit (EvSave totalSeconds)
    (set_eeprom (EEPROM.put EEPROM_ADDRESS totalSeconds (eeprom s)) s).

(** [loadLastConfiguration()]. *)
Definition loadLastConfiguration (s : State) : State :=
  let totalSeconds := EEPROM.get EEPROM_ADDRESS (eeprom s) in
  if (MIN_TIME <=? totalSeconds) && (totalSeconds <=? MAX_TIME) then
    set_seconds (Z.rem totalSeconds 60) (set_minutes (Z.quot totalSeconds 60) s)
  else
    set_seconds 0 (set_minutes 5 s).

(** [resetTimer()]. *)
Definition resetTimer (s : State) : State :=
  let s := set_countdownStarted false s in
  let s := set_encoderPos (lastReportedPos s) s in
  updateDisplay s.

(** [countdownFinished()] up to its busy-wait. *)
Definition countdownFinished (s : State) : State :=
  let s := digitalWrite_RELAY LOW s in
  let s := emit (EvScreen ScrFinished) s in
  let s := emit (EvTone MelAlarm) s in
  set_pc WaitFinished s.

(** [abortCountdown()] up to its busy-wait. *)
Definition abortCountdown (s : State) : State :=
  let s := digitalWrite_RELAY LOW s in
  let s := emit (EvScreen ScrCancelled) s in
  let s := emit (EvTone MelCancel) s in
  set_pc WaitAborted s.

(** Lines 165-186 of [loop()].  [encoderPos] is read three times, and
    may have moved in between. *)
Definition loop_encoder (e : Env) (s : State) : State :=
  if negb (lastReportedPos s =? encoderPos s) then
    let s :=
      if negb (countdownStarted s) then
        let currentTime := millis (t_enc e) in
        let increment :=
          if ULong.sub currentTime (lastEncoderChange s) <? FAST_THRESHOLD
          then 10 else 1 in
        let s := set_lastEncoderChange currentTime s in
        let s := interrupts (irq_calc e) s in
        let totalSeconds :=
          Int16.add (Int16.add (Int16.mul (minutes s) 60) (seconds s))
                    (Int16.mul (Int16.sub (encoderPos s) (lastReportedPos s))
                               increment) in
        let totalSeconds := constrain totalSeconds MIN_TIME MAX_TIME in
        let s := set_minutes (Z.quot totalSeconds 60) s in
        let s := set_seconds (Z.rem totalSeconds 60) s in
        let s := updateDisplay s in
        saveLastConfiguration s
      else interrupts (irq_calc e) s in
    let s := interrupts (irq_draw e) s in
    set_lastReportedPos (encoderPos s) s
  else
    interrupts (irq_draw e) (interrupts (irq_calc e) s).

(** Lines 189-200 of [loop()]. *)
Definition loop_button (e : Env) (s : State) : State :=
  let (pressed, s) := isButtonPressed (sw e) (t_btn e) (t_btn_stamp e) s in
  if pressed then
    if negb (countdownStarted s) then
      let s := set_countdownStarted true s in
      let s := set_initialTotalSeconds
                 (Int16.add (Int16.mul (minutes s) 60) (seconds s)) s in
      let s := digitalWrite_RELAY HIGH s in
      set_lastCountdownUpdate (millis (t_start e)) s
    else abortCountdown s
  else s.

(** Lines 203-218 of [loop()]. *)
Definition loop_countdown (e : Env) (s : State) : State :=
  if countdownStarted s then
    if 1000 <=? ULong.sub (millis (t_tick e)) (lastCountdownUpdate s) then
      let s := set_lastCountdownUpdate (millis (t_tick_stamp e)) s in
      if (0 <? seconds s) || (0 <? minutes s) then
        let s :=
          if seconds s =? 0
          then set_seconds 59 (set_minutes (Int16.sub (minutes s) 1) s)
          else set_seconds (Int16.sub (seconds s) 1) s in
        updateDisplay s
      else countdownFinished s
    else s
  else s.

(** One pass of [loop()], up to its end or to the busy-wait it enters. *)
Definition loop (e : Env) (s : State) : State :=
  let s := set_rotating true s in
  let s := interrupts (irq_top e) s in
  let s := loop_encoder e s in
  let s := loop_button e s in
  match pc s with
  | AtLoop => loop_countdown e s
  | _ => s
  end.

(** One iteration of the [while (!isButtonPressed())] of
    [countdownFinished()]; on acceptance, [resetTimer()] and the return
    to the end of [loop()]. *)
Definition countdownFinished_poll (e : Env) (s : State) : State :=
  let s := interrupts (irq_top e) s in
  let (pressed, s) := isButtonPressed (sw e) (t_btn e) (t_btn_stamp e) s in
  if pressed then set_pc AtLoop (resetTimer s) else s.

(** One iteration of the [while (!isButtonPressed())] of
    [abortCountdown()]; on acceptance, [resetTimer()], the return to
    line 200 of [loop()] and the rest of that pass. *)
Definition abortCountdown_poll (e : Env) (s : State) : State :=
  let s := interrupts (irq_top e) s in
  let (pressed, s) := isButtonPressed (sw e) (t_btn e) (t_btn_stamp e) s in
  if pressed then loop_countdown e (set_pc AtLoop (resetTimer s)) else s.

(** The globals as the C++ initialisers leave them; RELAY_PIN is low
    after reset. *)
Definition power_on (rom : EEPROM.t) : State :=
  mkState 0 0 false 0 0 0 false 0 0 0 LOW rom [] Halted.

(** [setup()]; [display_ok] is what [display.begin()] returns. *)
Definition setup (display_ok : bool) (rom : EEPROM.t) : State :=
  let s := power_on rom in
  if negb display_ok then set_pc Halted s
  else
    let s := loadLastConfiguration s in
    let s := emit (EvScreen ScrSplash) s in
    let s := emit (EvTone MelStartup) s in
    set_pc AtLoop s.

(** ** The machine *)

Definition step (e : Env) (s : State) : State :=
  match pc s with
  | Halted => interrupts (irq_top e) s
  | AtLoop => loop e s
  | WaitFinished => countdownFinished_poll e s
  | WaitAborted => abortCountdown_poll e s
  end.

Definition run (es : list Env) (s : State) : State :=
  fold_left (fun st e => step e st) es s.

Inductive reachable : State -> Prop :=
| reach_setup : forall display_ok rom, reachable (setup display_ok rom)
| reach_step : forall e s, reachable s -> reachable (step e s).

(** The four states of the timer, read off the control location and
    the [countdownStarted] flag. *)
Inductive TimerState := Configuring | Counting | Finished | Aborted.

Definition timer_state (s : State) : option TimerState :=
  match pc s with
  | Halted => None
  | AtLoop => Some (if countdownStarted s then Counting else Configuring)
  | WaitFinished => Some Finished
  | WaitAborted => Some Aborted
  end.

(** Duration while configuring, RemainingDuration while counting. *)
Definition total_seconds (s : State) : Z := minutes s * 60 + seconds s.

(** What one edge adds to the counter, and the net rotation of a burst. *)
Definition notch (e : bool * bool) : Z :=
  if Bool.eqb (fst e) (snd e) then 1 else -1.

Definition net (edges : list (bool * bool)) : Z :=
  fold_right (fun e n => notch e + n) 0 edges.

(** ** Ready-made inputs for concrete runs *)

Definition cw : bool * bool := (true, true).    (* CLK = DT: one step up *)
Definition ccw : bool * bool := (true, false).  (* CLK <> DT: one step down *)

(** A pass at time [t] with the button released and the encoder still. *)
Definition idle (t : Z) : Env := mkEnv [] [] [] t HIGH t t t t t.

(** A pass at time [t] with the button held down. *)
Definition press (t : Z) : Env := mkEnv [] [] [] t LOW t t t t t.

(** A pass at time [t] that first serves the edges [es]. *)
Definition turn (es : list (bool * bool)) (t : Z) : Env :=
  mkEnv es [] [] t HIGH t t t t t.

(** ** Vocabulary of the statements *)

(** The debounce test of a pass, as [isButtonPressed()] evaluates it. *)
Definition accepted (e : Env) (s : State) : bool :=
  Bool.eqb (sw e) LOW
  && (DEBOUNCE_DELAY <? ULong.sub (millis (t_btn e)) (lastButtonPress s)).

(** The state in which line 165 finds the globals. *)
Definition at_line165 (e : Env) (s : State) : State :=
  interrupts (irq_top e) (set_rotating true s).

(** The increment chosen on lines 168-172. *)
Definition increment (e : Env) (s : State) : Z :=
  if ULong.sub (millis (t_enc e)) (lastEncoderChange s) <? FAST_THRESHOLD
  then 10 else 1.

(** The position delta that line 176 reads. *)
Definition delta (e : Env) (s : State) : Z :=
  encoderPos (interrupts (irq_calc e) (at_line165 e s)) - lastReportedPos s.

(** Whether line 165 sees a changed position. *)
Definition moved (e : Env) (s : State) : bool :=
  negb (lastReportedPos s =? encoderPos (at_line165 e s)).

(** Lines 189-218: the button and countdown parts of a pass. *)
Definition loop_tail (e : Env) (s : State) : State :=
  let s := loop_button e s in
  match pc s with
  | AtLoop => loop_countdown e s
  | _ => s
  end.

(** The decrement of lines 207-212. *)
Definition decremented (s : State) : Z * Z :=
  if seconds s =? 0 then (Int16.sub (minutes s) 1, 59)
  else (minutes s, Int16.sub (seconds s) 1).

(** ** The invariant of the machine *)

Record inv (s : State) : Prop := mkInv {
  inv_relay : relay s = true <-> (pc s = AtLoop /\ countdownStarted s = true);
  inv_secs : 0 <= seconds s <= 59;
  inv_mins : 0 <= minutes s <= 30;
  inv_cap : total_seconds s <= MAX_TIME;
  inv_init : countdownStarted s = true ->
             total_seconds s <= initialTotalSeconds s <= MAX_TIME;
  inv_enc : Int16.in_range (encoderPos s);
  inv_last : Int16.in_range (lastReportedPos s);
  inv_render : forall m sec d p,
      In (EvRender true m sec d p) (out s) -> 1 <= d /\ p <> None
}.

(** A countdown of 0:05 that has just been started. *)
Definition just_started : State :=
  run [press 1000] (setup true (EEPROM.holding EEPROM_ADDRESS 5)).

(** A 0:01 countdown run to its end and acknowledged. *)
Definition after_full_countdown : State :=
  run [press 1000; idle 2000; idle 3000; press 4000]
      (setup true (EEPROM.holding EEPROM_ADDRESS 1)).

(** A pass with the button released. *)
Definition released (e : Env) : Prop := sw e = HIGH.

(** Configuring at 0:06, one slow notch after loading 0:05. *)
Definition at_0_06 : State :=
  run [turn [cw] 1000] (setup true (EEPROM.holding EEPROM_ADDRESS 5)).

(** Configuring at 29:55, one slow notch after loading 29:54. *)
Definition at_29_55 : State :=
  run [turn [cw] 5000] (setup true (EEPROM.holding EEPROM_ADDRESS 1794)).

(** A countdown started from 0:15 with 0:10 left. *)
Definition counting_at_0_10 : State :=
  run [press 1000; idle 2000; idle 3000; idle 4000; idle 5000; idle 6000]
      (setup true (EEPROM.holding EEPROM_ADDRESS 15)).

(** A countdown started from 0:01, before its first tick. *)
Definition counting_at_0_01 : State :=
  run [press 1000] (setup true (EEPROM.holding EEPROM_ADDRESS 1)).

(** A sequence of polls of the button, each given by the level of the
    pin and the clock: the answers of [isButtonPressed()] and the state
    they leave. *)
Fixpoint poll_all (ps : list (bool * Z)) (s : State) : list bool * State :=
  match ps with
  | [] => ([], s)
  | (level, t) :: ps' =>
      let (pressed, s1) := isButtonPressed level t t s in
      let (answers, s2) := poll_all ps' s1 in
      (pressed :: answers, s2)
  end.

(** The same pass with the encoder standing still. *)
Definition quiet (e : Env) : Env :=
  mkEnv [] [] [] (t_enc e) (sw e) (t_btn e) (t_btn_stamp e)
        (t_start e) (t_tick e) (t_tick_stamp e).

(** ** Further vocabulary *)

(** The same pass with the button released. *)
Definition unpressed (e : Env) : Env :=
  mkEnv (irq_top e) (irq_calc e) (irq_draw e) (t_enc e) HIGH (t_btn e)
        (t_btn_stamp e) (t_start e) (t_tick e) (t_tick_stamp e).

(** The edge that undoes an edge: same CLK, opposite DT. *)
Definition mirror (e : bool * bool) : bool * bool := (fst e, negb (snd e)).

(** Passes with the button not accepted, each one coming at least
    1000 ms (on the [unsigned long] clock) after the last tick. *)
Fixpoint ticking (es : list Env) (s : State) : Prop :=
  match es with
  | [] => True
  | e :: es' =>
      accepted e s = false
      /\ 1000 <= ULong.sub (millis (t_tick e)) (lastCountdownUpdate s)
      /\ ticking es' (step e s)
  end.

(** What a display update must satisfy for its bar to fit the screen:
    the time shown is between 0 and the [in_max] handed to map(), which
    is MAX_TIME while Configuring, and the width is their ratio scaled to
    SCREEN_WIDTH. *)
Definition bar_ok (ev : Event) : Prop :=
  match ev with
  | EvRender started m sec d p =>
      0 <= m * 60 + sec <= d /\ 1 <= d <= MAX_TIME
      /\ (started = false -> d = MAX_TIME)
      /\ p = Some ((m * 60 + sec) * SCREEN_WIDTH / d)
  | _ => True
  end.

(** ** The time shown on the display (lines 249-250 of [updateDisplay()]) *)

(** The characters ['0'], [':'] and ['-']. *)
Definition char_zero : Ascii.ascii := Ascii.ascii_of_nat 48.
Definition char_colon : Ascii.ascii := Ascii.ascii_of_nat 58.
Definition char_minus : Ascii.ascii := Ascii.ascii_of_nat 45.

(** The decimal digits of a number, as printf writes them. *)
Definition decimal (n : N) : String.string :=
  DecimalString.NilZero.string_of_uint (N.to_uint n).

Fixpoint zeros (n : nat) : String.string :=
  match n with
  | O => String.EmptyString
  | S k => String.String char_zero (zeros k)
  end.

(** printf's [%02d]: the sign if any, then the digits, padded with zeros
    on the left up to a field of two characters. *)
Definition printf_02d (n : Z) : String.string :=
  let digits := decimal (Z.to_N (Z.abs n)) in
  if n <? 0
  then String.String char_minus
         (String.append (zeros (1 - String.length digits)) digits)
  else String.append (zeros (2 - String.length digits)) digits.

(** [snprintf(timeStr, size, "%02d:%02d", minutes, seconds)]: what
    printf would write, cut after [size - 1] characters. *)
Definition snprintf_time (size : nat) (m sec : Z) : String.string :=
  String.substring 0 (size - 1)
    (String.append (printf_02d m) (String.String char_colon (printf_02d sec))).

(** [char timeStr[6]] as [updateDisplay()] fills it. *)
Definition timeStr (s : State) : String.string :=
  snprintf_time 6 (minutes s) (seconds s).

(** Reading a time back from the five characters [MM:SS]. *)
Definition digit_of (c : Ascii.ascii) : option Z :=
  let n := Z.of_nat (Ascii.nat_of_ascii c) in
  if (48 <=? n) && (n <=? 57) then Some (n - 48) else None.

Definition read_time (str : String.string) : option (Z * Z) :=
  match str with
  | String.String a (String.String b (String.String c
      (String.String d (String.String e String.EmptyString)))) =>
      match digit_of a, digit_of b, digit_of d, digit_of e with
      | Some a', Some b', Some d', Some e' =>
          if Ascii.eqb c char_colon
          then Some (10 * a' + b', 10 * d' + e') else None
      | _, _, _, _ => None
      end
  | _ => None
  end.

(** The check that one time is shown whole and reads back. *)
Definition shown_whole (m sec : Z) : bool :=
  String.eqb (snprintf_time 6 m sec)
             (String.append (printf_02d m) (String.String char_colon (printf_02d sec)))
  && Nat.eqb (String.length (snprintf_time 6 m sec)) 5
  && match read_time (snprintf_time 6 m sec) with
     | Some (m', sec') => (m' =? m) && (sec' =? sec)
     | None => false
     end.

(** ** The buzzer *)

Inductive BuzzerCmd :=
| Tone (frequency duration : Z)   (* tone(BUZZER_PIN, frequency, duration) *)
| Delay (ms : Z)                  (* delay(ms) *)
| NoTone.                         (* noTone(BUZZER_PIN) *)

(** [playStartupSound()]. *)
Definition playStartupSound : list BuzzerCmd :=
  let melody := [262; 330; 392; 523] in
  let durations := [100; 100; 100; 300] in
  flat_map (fun i => [Tone (nth i melody 0) (nth i durations 0);
                      Delay (nth i durations 0 + 50)])
           (seq 0 4)
  ++ [NoTone].

(** [playAlarm()]. *)
Definition playAlarm : list BuzzerCmd :=
  flat_map (fun _ => [Tone 1000 500; Delay 600; Tone 800 500; Delay 600])
           (seq 0 3)
  ++ [NoTone].

(** [playCancel()]. *)
Definition playCancel : list BuzzerCmd :=
  [Tone 200 500; Delay 600; Tone 100 500; Delay 600; NoTone].

(** The commands behind each [EvTone]. *)
Definition play (m : Melody) : list BuzzerCmd :=
  match m with
  | MelStartup => playStartupSound
  | MelAlarm => playAlarm
  | MelCancel => playCancel
  end.

(** How long a melody keeps the sketch inside delay(). *)
Fixpoint blocking_time (cmds : list BuzzerCmd) : Z :=
  match cmds with
  | [] => 0
  | Delay ms :: rest => ms + blocking_time rest
  | _ :: rest => blocking_time rest
  end.

(** Every tone is followed by a delay at least as long as the tone, so
    that no tone is cut short by the next command. *)
Fixpoint tones_complete (cmds : list BuzzerCmd) : bool :=
  match cmds with
  | [] => true
  | Tone _ duration :: rest =>
      match rest with
      | Delay ms :: _ => (duration <=? ms) && tones_complete rest
      | _ => false
      end
  | _ :: rest => tones_complete rest
  end.

(** ** Sequences of passes and polls *)

(** Passes or polls none of which has its press accepted: the button is
    up, or it is down inside the debounce window. *)
Fixpoint all_rejected (es : list Env) (s : State) : Prop :=
  match es with
  | [] => True
  | e :: es' => accepted e s = false /\ all_rejected es' (step e s)
  end.

(** Passes in which nothing is accepted and line 165 sees no change. *)
Fixpoint all_still (es : list Env) (s : State) : Prop :=
  match es with
  | [] => True
  | e :: es' =>
      accepted e s = false /\ moved e s = false /\ all_still es' (step e s)
  end.

(** A pass at 1030 ms that serves 3277 upward edges, button released. *)
Definition spin_3277 : Env := turn (repeat cw 3277) 1030.

(** * Properties *)

(** ** Machine arithmetic *)

Lemma Int16_wrap_small (z : Z) : Int16.in_range z -> Int16.wrap z = z.
Proof.
  unfold Int16.in_range, Int16.min_signed, Int16.max_signed, Int16.wrap, Int16.modulus.
  intros H. rewrite Z.mod_small by lia. lia.
Qed.

Lemma Int16_wrap_in_range (z : Z) : Int16.in_range (Int16.wrap z).
Proof.
  unfold Int16.in_range, Int16.min_signed, Int16.max_signed, Int16.wrap, Int16.modulus.
  pose proof (Z.mod_pos_bound (z + 32768) 65536 ltac:(lia)). lia.
Qed.

Lemma Int16_wrap_congr (z : Z) : exists k, Int16.wrap z = z + k * 65536.
Proof.
  exists (- ((z + 32768) / 65536)).
  unfold Int16.wrap, Int16.modulus.
  pose proof (Z.div_mod (z + 32768) 65536 ltac:(lia)). lia.
Qed.

Lemma Int16_wrap_shift (z k : Z) : Int16.wrap (z + k * 65536) = Int16.wrap z.
Proof.
  unfold Int16.wrap, Int16.modulus.
  replace (z + k * 65536 + 32768) with (z + 32768 + k * 65536) by lia.
  now rewrite Z.mod_add by lia.
Qed.

(** The expression on line 176 is the 16-bit reading of the exact sum. *)
Lemma Int16_line176 (m s e l inc : Z) :
  Int16.add (Int16.add (Int16.mul m 60) s) (Int16.mul (Int16.sub e l) inc)
  = Int16.wrap (m * 60 + s + (e - l) * inc).
Proof.
  unfold Int16.add, Int16.mul, Int16.sub.
  destruct (Int16_wrap_congr (m * 60)) as [k1 ->].
  destruct (Int16_wrap_congr (e - l)) as [k2 ->].
  destruct (Int16_wrap_congr ((e - l + k2 * 65536) * inc)) as [k3 ->].
  destruct (Int16_wrap_congr (m * 60 + k1 * 65536 + s)) as [k4 ->].
  replace (m * 60 + k1 * 65536 + s + k4 * 65536
           + ((e - l + k2 * 65536) * inc + k3 * 65536))
    with (m * 60 + s + (e - l) * inc + (k1 + k4 + k2 * inc + k3) * 65536) by ring.
  apply Int16_wrap_shift.
Qed.

Lemma Int16_total (m s : Z) :
  Int16.add (Int16.mul m 60) s = Int16.wrap (m * 60 + s).
Proof.
  unfold Int16.add, Int16.mul.
  destruct (Int16_wrap_congr (m * 60)) as [k ->].
  replace (m * 60 + k * 65536 + s) with (m * 60 + s + k * 65536) by ring.
  apply Int16_wrap_shift.
Qed.

Lemma constrain_bounds (x lo hi : Z) : lo <= hi -> lo <= constrain x lo hi <= hi.
Proof.
  intros H. unfold constrain.
  destruct (x <? lo) eqn:E1; [lia|].
  destruct (hi <? x) eqn:E2; lia.
Qed.


(** Splitting a valid duration into minutes and seconds. *)
Lemma split_duration (t : Z) :
  0 <= t <= MAX_TIME ->
  0 <= Z.quot t 60 <= 30 /\ 0 <= Z.rem t 60 <= 59
  /\ Z.quot t 60 * 60 + Z.rem t 60 = t.
Proof.
  unfold MAX_TIME. intros H.
  rewrite Z.quot_div_nonneg, Z.rem_mod_nonneg by lia.
  pose proof (Z.div_mod t 60 ltac:(lia)).
  pose proof (Z.mod_pos_bound t 60 ltac:(lia)).
  assert (t / 60 <= 30) by (apply Z.div_le_upper_bound; lia).
  assert (0 <= t / 60) by (apply Z.div_pos; lia).
  lia.
Qed.

(** ** Frame lemmas: who touches what *)

Lemma interrupts_frame (l : list (bool * bool)) (s : State) :
  interrupts l s = set_encoderPos (encoderPos (interrupts l s)) s.
Proof.
  revert s. induction l as [|[clk dt] l IH]; intros s.
  - destruct s; reflexivity.
  - unfold interrupts in *. simpl. rewrite IH.
    unfold doEncoder; simpl. destruct (Bool.eqb clk dt); reflexivity.
Qed.

(** The shared counter accumulates every edge, up to 16-bit wrap-around. *)
Lemma interrupts_encoderPos (l : list (bool * bool)) (s : State) :
  Int16.in_range (encoderPos s) ->
  encoderPos (interrupts l s) = Int16.wrap (encoderPos s + net l).
Proof.
  revert s. induction l as [|[clk dt] l IH]; intros s Hs.
  - simpl. rewrite Z.add_0_r. symmetry. now apply Int16_wrap_small.
  - unfold interrupts in *. simpl fold_left. rewrite IH.
    + unfold doEncoder, Int16.add, Int16.sub.
      change (net ((clk, dt) :: l)) with (notch (clk, dt) + net l).
      unfold notch. cbn [fst snd].
      destruct (Bool.eqb clk dt); cbn [encoderPos set_encoderPos];
        match goal with
        | |- Int16.wrap (Int16.wrap ?a + ?b) = _ =>
            destruct (Int16_wrap_congr a) as [k ->];
            replace (a + k * 65536 + b) with (a + b + k * 65536) by ring;
            rewrite Int16_wrap_shift; f_equal; lia
        end.
    + unfold doEncoder, Int16.add, Int16.sub.
      destruct (Bool.eqb clk dt); simpl; apply Int16_wrap_in_range.
Qed.

Lemma interrupts_in_range (l : list (bool * bool)) (s : State) :
  Int16.in_range (encoderPos s) -> Int16.in_range (encoderPos (interrupts l s)).
Proof.
  intros H. rewrite interrupts_encoderPos by assumption. apply Int16_wrap_in_range.
Qed.

(** Reduces projections of updated records, and nothing else. *)
Ltac fields :=
  cbn [encoderPos lastReportedPos rotating seconds minutes initialTotalSeconds
       countdownStarted lastCountdownUpdate lastButtonPress lastEncoderChange
       relay eeprom out pc
       set_encoderPos set_lastReportedPos set_rotating set_seconds set_minutes
       set_initialTotalSeconds set_countdownStarted set_lastCountdownUpdate
       set_lastButtonPress set_lastEncoderChange set_relay set_eeprom set_pc
       emit digitalWrite_RELAY] in *.

(** Replaces every burst of interrupts by the position it leaves behind. *)
Ltac frame_irq :=
  repeat match goal with
  | |- context [interrupts ?l ?s] =>
      lazymatch s with context [interrupts] => fail | _ => idtac end;
      let v := fresh "pos" in
      let H := fresh "Hframe" in
      let R := fresh "Hpos" in
      pose proof (interrupts_frame l s) as H;
      pose proof (interrupts_in_range l s) as R;
      set (v := encoderPos (interrupts l s)) in H, R;
      rewrite H; clearbody v; clear H
  end.

Lemma in_snoc {A : Type} (x y : A) (l : list A) :
  In x (l ++ [y]) -> In x l \/ x = y.
Proof.
  intros H. apply in_app_or in H. destruct H as [H|[H|[]]]; auto.
Qed.

Lemma inv_power_on (rom : EEPROM.t) : inv (power_on rom).
Proof.
  constructor; unfold power_on, total_seconds, MAX_TIME, Int16.in_range,
    Int16.min_signed, Int16.max_signed, LOW; simpl;
    first [ lia | discriminate
          | split; [discriminate | intros [H _]; discriminate]
          | intros ? ? ? ? [] ].
Qed.

Lemma loadLastConfiguration_range (s : State) :
  MIN_TIME <= total_seconds (loadLastConfiguration s) <= MAX_TIME
  /\ 0 <= seconds (loadLastConfiguration s) <= 59
  /\ 0 <= minutes (loadLastConfiguration s) <= 30.
Proof.
  unfold loadLastConfiguration, total_seconds.
  destruct (andb _ _) eqn:E; fields.
  - apply andb_true_iff in E. destruct E as [E1 E2].
    apply Z.leb_le in E1, E2.
    pose proof (split_duration (EEPROM.get EEPROM_ADDRESS (eeprom s))) as H.
    unfold MIN_TIME, MAX_TIME in *. lia.
  - unfold MIN_TIME, MAX_TIME. lia.
Qed.

Lemma loadLastConfiguration_frame (s : State) :
  loadLastConfiguration s
  = set_seconds (seconds (loadLastConfiguration s))
      (set_minutes (minutes (loadLastConfiguration s)) s).
Proof.
  unfold loadLastConfiguration. destruct (andb _ _); reflexivity.
Qed.

Lemma inv_setup (display_ok : bool) (rom : EEPROM.t) : inv (setup display_ok rom).
Proof.
  unfold setup. destruct display_ok; cbn [negb].
  - pose proof (loadLastConfiguration_range (power_on rom)) as (Ht & Hs & Hm).
    rewrite loadLastConfiguration_frame in *.
    set (m := minutes (loadLastConfiguration (power_on rom))) in *.
    set (sec := seconds (loadLastConfiguration (power_on rom))) in *.
    clearbody m sec. unfold total_seconds in Ht.
    constructor; unfold total_seconds, power_on, LOW in *; fields;
      unfold Int16.in_range, Int16.min_signed, Int16.max_signed;
      first [ lia | discriminate
            | split; [discriminate | intros [_ H]; discriminate]
            | intros ? ? ? ? H; simpl in H;
              destruct H as [H|[H|[]]]; discriminate ].
  - pose proof (inv_power_on rom) as [? ? ? ? ? ? ? ?].
    constructor; fields; auto.
Qed.

Lemma inv_interrupts (l : list (bool * bool)) (s : State) :
  inv s -> inv (interrupts l s).
Proof.
  intros [? ? ? ? ? ? ? ?].
  pose proof (interrupts_in_range l s inv_enc0).
  rewrite interrupts_frame.
  constructor; unfold total_seconds in *; fields; auto.
Qed.

(** The encoder part of [loop()] leaves the control state alone. *)
Lemma loop_encoder_control (e : Env) (s : State) :
  pc (loop_encoder e s) = pc s
  /\ countdownStarted (loop_encoder e s) = countdownStarted s
  /\ relay (loop_encoder e s) = relay s
  /\ lastButtonPress (loop_encoder e s) = lastButtonPress s
  /\ lastCountdownUpdate (loop_encoder e s) = lastCountdownUpdate s
  /\ initialTotalSeconds (loop_encoder e s) = initialTotalSeconds s.
Proof.
  unfold loop_encoder, saveLastConfiguration, updateDisplay.
  destruct (negb (lastReportedPos s =? encoderPos s));
    [destruct (negb (countdownStarted s))|]; frame_irq; fields; auto 10.
Qed.

Lemma inv_loop_encoder (e : Env) (s : State) :
  inv s -> inv (loop_encoder e s).
Proof.
  intros I. unfold loop_encoder.
  destruct (negb (lastReportedPos s =? encoderPos s)).
  2:{ now apply inv_interrupts, inv_interrupts. }
  destruct (negb (countdownStarted s)) eqn:Ec.
  2:{ pose proof (inv_interrupts (irq_draw e) _ (inv_interrupts (irq_calc e) _ I))
        as [? ? ? ? ? ? ? ?].
      constructor; unfold total_seconds in *; fields; auto. }
  apply negb_true_iff in Ec.
  unfold saveLastConfiguration, updateDisplay.
  destruct I as [? ? ? ? ? ? ? ?].
  frame_irq. fields.
  match goal with
  | |- context [constrain ?x MIN_TIME MAX_TIME] =>
      pose proof (constrain_bounds x MIN_TIME MAX_TIME ltac:(unfold MIN_TIME, MAX_TIME; lia)) as Hc;
      set (t := constrain x MIN_TIME MAX_TIME) in *; clearbody t
  end.
  pose proof (split_duration t ltac:(unfold MIN_TIME, MAX_TIME in *; lia)) as (Hq & Hr & Hqr).
  constructor; unfold total_seconds in *; fields; rewrite ?Ec in *; auto;
    try (unfold MAX_TIME in *; lia); try discriminate.
  intros m sec d p H.
  apply in_snoc in H. destruct H as [H|H]; [|discriminate].
  apply in_snoc in H. destruct H as [H|H]; [|discriminate].
  eauto.
Qed.

(** [isButtonPressed()] accepts exactly when the pin is low and the
    debounce window has passed, and then only stamps [lastButtonPress]. *)
Lemma isButtonPressed_spec (level : bool) (t_test t_stamp : Z) (s : State) :
  let accepted :=
    Bool.eqb level LOW
    && (DEBOUNCE_DELAY <? ULong.sub (millis t_test) (lastButtonPress s)) in
  isButtonPressed level t_test t_stamp s
  = (accepted, if accepted then set_lastButtonPress (millis t_stamp) s else s).
Proof.
  unfold isButtonPressed.
  destruct (Bool.eqb level LOW); cbn [andb]; [|reflexivity].
  destruct (DEBOUNCE_DELAY <? _); reflexivity.
Qed.

Lemma inv_set_lastButtonPress (v : Z) (s : State) :
  inv s -> inv (set_lastButtonPress v s).
Proof.
  intros [? ? ? ? ? ? ? ?].
  constructor; unfold total_seconds in *; fields; auto.
Qed.

Ltac relay_off I :=
  let H := fresh in
  destruct (relay _) eqn:H; [|reflexivity];
  apply I in H; destruct H as [H _]; congruence.

Lemma inv_loop_button (e : Env) (s : State) :
  inv s -> pc s = AtLoop -> inv (loop_button e s).
Proof.
  intros I Hpc. unfold loop_button. rewrite isButtonPressed_spec.
  destruct (andb _ _); [|assumption].
  apply (inv_set_lastButtonPress (millis (t_btn_stamp e))) in I.
  set (s1 := set_lastButtonPress _ s) in *.
  assert (Hpc1 : pc s1 = AtLoop) by exact Hpc. clearbody s1.
  destruct I as [? ? ? ? ? ? ? ?].
  destruct (negb (countdownStarted s1)) eqn:Ec.
  - fields. rewrite Int16_total.
    rewrite Int16_wrap_small
      by (unfold Int16.in_range, Int16.min_signed, Int16.max_signed,
            total_seconds, MAX_TIME in *; lia).
    constructor; unfold total_seconds, HIGH in *; fields; auto.
    + tauto.
    + intros _. lia.
    + intros m sec d p H. apply in_snoc in H.
      destruct H as [H|H]; [eauto|discriminate].
  - apply negb_false_iff in Ec. unfold abortCountdown.
    constructor; unfold total_seconds, LOW in *; fields; auto.
    + split; [discriminate|intros [H _]; discriminate].
    + intros m sec d p H.
      repeat (apply in_snoc in H; destruct H as [H|H]; [|discriminate]).
      eauto.
Qed.

Lemma inv_updateDisplay_idle (s : State) :
  inv s -> countdownStarted s = false -> inv (updateDisplay s).
Proof.
  intros [? ? ? ? ? ? ? ?] Hc. unfold updateDisplay.
  constructor; unfold total_seconds in *; fields; auto.
  intros m sec d p H. apply in_snoc in H.
  destruct H as [H|H]; [eauto|]. rewrite Hc in H. discriminate.
Qed.

Lemma arduino_map_defined (x in_max w : Z) :
  in_max <> 0 -> arduino_map x 0 in_max 0 w <> None.
Proof.
  intros H. unfold arduino_map. rewrite Z.sub_0_r.
  destruct (in_max =? 0) eqn:E; [apply Z.eqb_eq in E; contradiction|discriminate].
Qed.

Lemma inv_loop_countdown (e : Env) (s : State) :
  inv s -> pc s = AtLoop -> inv (loop_countdown e s).
Proof.
  intros I Hpc. unfold loop_countdown.
  destruct (countdownStarted s) eqn:Ec; [|assumption].
  destruct (1000 <=? _); [|assumption].
  destruct I as [? ? ? ? ? ? ? ?]. specialize (inv_init0 Ec).
  rewrite Ec in inv_relay0.
  unfold total_seconds in *. fields.
  destruct ((0 <? seconds s) || (0 <? minutes s)) eqn:Epos.
  - apply orb_true_iff in Epos.
    rewrite !Z.ltb_lt in Epos.
    unfold updateDisplay.
    destruct (seconds s =? 0) eqn:Ez; [apply Z.eqb_eq in Ez|apply Z.eqb_neq in Ez];
      unfold Int16.sub;
      rewrite Int16_wrap_small
        by (unfold Int16.in_range, Int16.min_signed, Int16.max_signed; lia);
      (constructor; unfold total_seconds in *; fields; rewrite ?Ec; auto;
       first
         [ lia
         | intros _; lia
         | intros m sec d p H; apply in_snoc in H;
           destruct H as [H|H]; [eauto|];
           injection H as _ _ Hd Hp; subst d p;
           split; [lia | apply arduino_map_defined; lia] ]).
  - unfold countdownFinished, LOW.
    constructor; unfold total_seconds in *; fields; auto.
    + split; [discriminate|intros [H _]; discriminate].
    + intros m sec d p H.
      repeat (apply in_snoc in H; destruct H as [H|H]; [|discriminate]).
      eauto.
Qed.

Lemma inv_resetTimer (s : State) :
  inv s -> pc s <> AtLoop -> inv (set_pc AtLoop (resetTimer s)).
Proof.
  intros I Hpc. unfold resetTimer.
  assert (Hr : relay s = false) by relay_off (inv_relay s I).
  destruct I as [? ? ? ? ? ? ? ?]. unfold updateDisplay.
  constructor; unfold total_seconds in *; fields; auto.
  - rewrite Hr. split; [discriminate|intros [_ H]; discriminate].
  - discriminate.
  - intros m sec d p H. apply in_snoc in H.
    destruct H as [H|H]; [eauto|discriminate].
Qed.

Lemma resetTimer_idle (s : State) :
  countdownStarted (set_pc AtLoop (resetTimer s)) = false.
Proof. reflexivity. Qed.

Lemma inv_wait_poll (e : Env) (s : State) :
  inv s -> pc s <> AtLoop ->
  inv (countdownFinished_poll e s) /\ inv (abortCountdown_poll e s).
Proof.
  intros I Hpc.
  unfold countdownFinished_poll, abortCountdown_poll.
  apply (inv_interrupts (irq_top e)) in I.
  assert (Hpc' : pc (interrupts (irq_top e) s) <> AtLoop)
    by (rewrite interrupts_frame; exact Hpc).
  set (s1 := interrupts (irq_top e) s) in *. clearbody s1.
  rewrite isButtonPressed_spec.
  destruct (andb _ _); [|split; assumption].
  apply (inv_set_lastButtonPress (millis (t_btn_stamp e))) in I.
  set (s2 := set_lastButtonPress _ s1) in *.
  assert (Hpc2 : pc s2 <> AtLoop) by exact Hpc'. clearbody s2.
  pose proof (inv_resetTimer s2 I Hpc2) as I2.
  split; [assumption|].
  unfold loop_countdown. rewrite resetTimer_idle. assumption.
Qed.

Lemma inv_loop (e : Env) (s : State) :
  inv s -> pc s = AtLoop -> inv (loop e s).
Proof.
  intros I Hpc. unfold loop.
  assert (I0 : inv (set_rotating true s)).
  { destruct I as [? ? ? ? ? ? ? ?].
    constructor; unfold total_seconds in *; fields; auto. }
  apply (inv_interrupts (irq_top e)) in I0.
  assert (Hpc0 : pc (interrupts (irq_top e) (set_rotating true s)) = AtLoop)
    by (rewrite interrupts_frame; exact Hpc).
  set (s0 := interrupts _ _) in *. clearbody s0.
  apply (inv_loop_encoder e) in I0.
  destruct (loop_encoder_control e s0) as (Hp & _ & _). rewrite Hpc0 in Hp.
  set (s1 := loop_encoder e s0) in *. clearbody s1.
  pose proof (inv_loop_button e s1 I0 Hp) as I1.
  destruct (pc (loop_button e s1)) eqn:Hp2; try assumption.
  now apply inv_loop_countdown.
Qed.

Lemma inv_step (e : Env) (s : State) : inv s -> inv (step e s).
Proof.
  intros I. unfold step. destruct (pc s) eqn:Hpc.
  - now apply inv_interrupts.
  - now apply inv_loop.
  - apply inv_wait_poll; [assumption|congruence].
  - apply inv_wait_poll; [assumption|congruence].
Qed.

Theorem reachable_inv (s : State) : reachable s -> inv s.
Proof.
  induction 1 as [ok rom|e s _ IH].
  - apply inv_setup.
  - now apply inv_step.
Qed.

Lemma reachable_run (es : list Env) (s : State) :
  reachable s -> reachable (run es s).
Proof.
  revert s. induction es as [|e es IH]; intros s H; [exact H|].
  apply IH. now constructor.
Defined.

Lemma configuring_iff (s : State) :
  timer_state s = Some Configuring <-> pc s = AtLoop /\ countdownStarted s = false.
Proof.
  unfold timer_state.
  destruct (pc s), (countdownStarted s); split;
    try discriminate; try (intros [? ?]; discriminate); auto.
Qed.

Lemma counting_iff (s : State) :
  timer_state s = Some Counting <-> pc s = AtLoop /\ countdownStarted s = true.
Proof.
  unfold timer_state.
  destruct (pc s), (countdownStarted s); split;
    try discriminate; try (intros [? ?]; discriminate); auto.
Qed.

Lemma relay_of_counting (s : State) :
  reachable s -> timer_state s = Some Counting -> relay s = true.
Proof.
  intros H Hs. apply reachable_inv in H. apply (inv_relay s H).
  now apply counting_iff.
Qed.

(** ** Relay safety *)

(** C1: in every state reachable from [setup()], RELAY_PIN is high if and
    only if the timer is Counting; it is low while Configuring, Finished
    and Aborted, the two busy-waits included. *)
Theorem relay_iff_counting (s : State) (H : reachable s) :
  (relay s = true <-> timer_state s = Some Counting)
  /\ (timer_state s = Some Configuring -> relay s = false)
  /\ (timer_state s = Some Finished -> relay s = false)
  /\ (timer_state s = Some Aborted -> relay s = false).
Proof.
  apply reachable_inv in H. destruct H as [Hr _ _ _ _ _ _ _].
  unfold timer_state in *.
  destruct (pc s) eqn:Hpc, (countdownStarted s) eqn:Hc, (relay s) eqn:Hrel;
    repeat split; intros; try reflexivity; try discriminate;
    try (exfalso; destruct Hr as [Hr1 Hr2];
         first [ destruct (Hr1 eq_refl); discriminate
               | specialize (Hr2 (conj eq_refl eq_refl)); discriminate ]).
Qed.

Lemma relay_iff_counting_witness :
  reachable just_started
  /\ relay just_started = true
  /\ timer_state just_started = Some Counting.
Proof.
  assert (R : reachable just_started) by (apply reachable_run, reach_setup).
  assert (C : timer_state just_started = Some Counting)
    by (vm_compute; reflexivity).
  destruct (relay_iff_counting just_started R) as ([_ A] & _).
  split; [exact R|]. split; [exact (A C)|exact C].
Defined.

(** ** What one pass does while Configuring *)

Lemma at_line165_frame (e : Env) (s : State) :
  at_line165 e s
  = set_encoderPos (encoderPos (at_line165 e s)) (set_rotating true s).
Proof. unfold at_line165. apply interrupts_frame. Qed.

Lemma loop_encoder_still (e : Env) (s : State) :
  lastReportedPos s = encoderPos s ->
  loop_encoder e s = interrupts (irq_draw e) (interrupts (irq_calc e) s).
Proof.
  intros H. unfold loop_encoder. rewrite H, Z.eqb_refl. reflexivity.
Qed.

Lemma interrupts_encoderPos_ext (l : list (bool * bool)) (a b : State) :
  encoderPos a = encoderPos b ->
  encoderPos (interrupts l a) = encoderPos (interrupts l b).
Proof.
  unfold interrupts. revert a b.
  induction l as [|[c d] l IH]; intros a b Hab; [exact Hab|].
  simpl. apply IH. unfold doEncoder. simpl.
  destruct (Bool.eqb c d); simpl; now rewrite Hab.
Qed.

Lemma loop_encoder_adjust (e : Env) (s : State) :
  countdownStarted s = false ->
  lastReportedPos s <> encoderPos s ->
  let pos := encoderPos (interrupts (irq_calc e) s) in
  let inc := if ULong.sub (millis (t_enc e)) (lastEncoderChange s) <? FAST_THRESHOLD
             then 10 else 1 in
  let t := constrain (Int16.wrap (total_seconds s + (pos - lastReportedPos s) * inc))
                     MIN_TIME MAX_TIME in
  let s' := loop_encoder e s in
  minutes s' = Z.quot t 60 /\ seconds s' = Z.rem t 60
  /\ total_seconds s' = t
  /\ eeprom s' = EEPROM.put EEPROM_ADDRESS t (eeprom s)
  /\ out s' = out s ++ [EvRender false (Z.quot t 60) (Z.rem t 60) MAX_TIME
                          (arduino_map t 0 MAX_TIME 0 SCREEN_WIDTH);
                        EvSave t]
  /\ lastEncoderChange s' = millis (t_enc e)
  /\ lastReportedPos s' = encoderPos s'.
Proof.
  intros Hc Hne pos inc t s'.
  assert (Ht : MIN_TIME <= t <= MAX_TIME)
    by (apply constrain_bounds; unfold MIN_TIME, MAX_TIME; lia).
  destruct (split_duration t ltac:(unfold MIN_TIME in *; lia)) as (Hq & Hr & Hqr).
  assert (Hw : Int16.add (Int16.mul (Z.quot t 60) 60) (Z.rem t 60) = t).
  { rewrite Int16_total, Hqr. apply Int16_wrap_small.
    unfold Int16.in_range, Int16.min_signed, Int16.max_signed, MIN_TIME, MAX_TIME in *.
    lia. }
  subst s'. unfold loop_encoder.
  apply Z.eqb_neq in Hne. rewrite Hne, Hc. cbn [negb].
  unfold saveLastConfiguration, updateDisplay.
  rewrite (interrupts_frame (irq_calc e) (set_lastEncoderChange _ s)).
  rewrite (interrupts_encoderPos_ext (irq_calc e)
             (set_lastEncoderChange (millis (t_enc e)) s) s eq_refl).
  fold pos. clearbody pos.
  fields. rewrite Int16_line176. fold (total_seconds s).
  fields. frame_irq. fields.
  fold inc. fold t. rewrite Hc, !Hw.
  unfold total_seconds. fields. rewrite <- app_assoc.
  repeat split; auto.
Qed.

Lemma loop_countdown_idle (e : Env) (s : State) :
  countdownStarted s = false -> loop_countdown e s = s.
Proof. intros H. unfold loop_countdown. now rewrite H. Qed.

(** With the button not accepted, a pass is its encoder part followed by
    its countdown part. *)
Lemma loop_not_accepted (e : Env) (s : State) :
  pc s = AtLoop -> accepted e s = false ->
  loop e s = loop_countdown e (loop_encoder e (at_line165 e s)).
Proof.
  intros Hpc Ha. unfold loop. fold (at_line165 e s).
  destruct (loop_encoder_control e (at_line165 e s)) as (Hp & _ & _ & Hb & _).
  assert (Hp0 : pc (at_line165 e s) = pc s)
    by (rewrite at_line165_frame; reflexivity).
  assert (Hb0 : lastButtonPress (at_line165 e s) = lastButtonPress s)
    by (rewrite at_line165_frame; reflexivity).
  set (s1 := loop_encoder e (at_line165 e s)) in *. clearbody s1.
  unfold loop_button. rewrite isButtonPressed_spec.
  unfold accepted in Ha. rewrite Hb, Hb0, Ha.
  now rewrite Hp, Hp0, Hpc.
Qed.

Lemma released_not_accepted (e : Env) (s : State) :
  released e -> accepted e s = false.
Proof. unfold released. intros H. unfold accepted. now rewrite H. Qed.

(** A pass while Configuring with the button released: the timer stays
    Configuring; if line 165 saw the position change, the duration is
    recomputed, clamped, split, shown and saved, otherwise it is left
    alone. *)
Lemma configuring_pass (e : Env) (s : State) :
  timer_state s = Some Configuring -> accepted e s = false ->
  let s' := step e s in
  timer_state s' = Some Configuring
  /\ (moved e s = true ->
      let t := constrain (Int16.wrap (total_seconds s + delta e s * increment e s))
                         MIN_TIME MAX_TIME in
      minutes s' = Z.quot t 60 /\ seconds s' = Z.rem t 60
      /\ total_seconds s' = t
      /\ eeprom s' = EEPROM.put EEPROM_ADDRESS t (eeprom s)
      /\ out s' = out s ++ [EvRender false (Z.quot t 60) (Z.rem t 60) MAX_TIME
                              (arduino_map t 0 MAX_TIME 0 SCREEN_WIDTH);
                            EvSave t]
      /\ lastEncoderChange s' = millis (t_enc e))
  /\ (moved e s = false ->
      minutes s' = minutes s /\ seconds s' = seconds s
      /\ eeprom s' = eeprom s /\ out s' = out s
      /\ lastEncoderChange s' = lastEncoderChange s).
Proof.
  intros Hs Ha s'. apply configuring_iff in Hs. destruct Hs as [Hpc Hc].
  subst s'. unfold step. rewrite Hpc.
  rewrite loop_not_accepted by assumption.
  destruct (loop_encoder_control e (at_line165 e s)) as (Hp & Hcs & _).
  assert (Hc0 : countdownStarted (at_line165 e s) = false)
    by (rewrite at_line165_frame; exact Hc).
  assert (Hp0 : pc (at_line165 e s) = AtLoop)
    by (rewrite at_line165_frame; exact Hpc).
  rewrite loop_countdown_idle by congruence.
  split; [apply configuring_iff; split; congruence|].
  unfold moved, delta, increment.
  assert (Hl : lastReportedPos (at_line165 e s) = lastReportedPos s)
    by (rewrite at_line165_frame; reflexivity).
  assert (Ht : total_seconds (at_line165 e s) = total_seconds s)
    by (rewrite at_line165_frame; reflexivity).
  assert (He : lastEncoderChange (at_line165 e s) = lastEncoderChange s)
    by (rewrite at_line165_frame; reflexivity).
  assert (Hrom : eeprom (at_line165 e s) = eeprom s)
    by (rewrite at_line165_frame; reflexivity).
  assert (Hout : out (at_line165 e s) = out s)
    by (rewrite at_line165_frame; reflexivity).
  split.
  - intros Hm. apply negb_true_iff, Z.eqb_neq in Hm.
    rewrite <- Hl in Hm.
    pose proof (loop_encoder_adjust e (at_line165 e s) Hc0 Hm) as H.
    cbv zeta in H. rewrite Hl, Ht, He, Hrom, Hout in H.
    destruct H as (H1 & H2 & H3 & H4 & H5 & H6 & _). auto 10.
  - intros Hm. apply negb_false_iff, Z.eqb_eq in Hm. rewrite <- Hl in Hm.
    rewrite loop_encoder_still by assumption.
    frame_irq. rewrite at_line165_frame. fields. auto.
Qed.

(** ** What one pass does while Counting *)

(** While the countdown runs, the encoder part of [loop()] touches the
    two position variables only. *)
Lemma loop_encoder_counting (e : Env) (s : State) :
  countdownStarted s = true ->
  loop_encoder e s
  = set_lastReportedPos (lastReportedPos (loop_encoder e s))
      (set_encoderPos (encoderPos (loop_encoder e s)) s).
Proof.
  intros Hc. unfold loop_encoder. rewrite Hc. cbn [negb].
  destruct (negb (lastReportedPos s =? encoderPos s));
    frame_irq; fields; destruct s; reflexivity.
Qed.

Lemma loop_split (e : Env) (s : State) :
  loop e s = loop_tail e (loop_encoder e (at_line165 e s)).
Proof. reflexivity. Qed.

Lemma loop_tail_counting (e : Env) (s : State) :
  timer_state s = Some Counting ->
  let s' := loop_tail e s in
  if accepted e s then
    timer_state s' = Some Aborted /\ relay s' = false
    /\ out s' = out s ++ [EvRelay LOW; EvScreen ScrCancelled; EvTone MelCancel]
    /\ minutes s' = minutes s /\ seconds s' = seconds s
    /\ lastButtonPress s' = millis (t_btn_stamp e)
  else if 1000 <=? ULong.sub (millis (t_tick e)) (lastCountdownUpdate s) then
    if (0 <? seconds s) || (0 <? minutes s) then
      timer_state s' = Some Counting /\ relay s' = relay s
      /\ (minutes s', seconds s') = decremented s
      /\ out s' = out s ++
           [EvRender true (minutes s') (seconds s') (initialTotalSeconds s)
              (arduino_map (Int16.add (Int16.mul (minutes s') 60) (seconds s'))
                           0 (initialTotalSeconds s) 0 SCREEN_WIDTH)]
      /\ lastCountdownUpdate s' = millis (t_tick_stamp e)
    else
      timer_state s' = Some Finished /\ relay s' = false
      /\ out s' = out s ++ [EvRelay LOW; EvScreen ScrFinished; EvTone MelAlarm]
      /\ minutes s' = minutes s /\ seconds s' = seconds s
  else
    timer_state s' = Some Counting /\ relay s' = relay s
    /\ out s' = out s /\ minutes s' = minutes s /\ seconds s' = seconds s
    /\ lastCountdownUpdate s' = lastCountdownUpdate s.
Proof.
  intros Hs s'. apply counting_iff in Hs. destruct Hs as [Hpc Hc].
  subst s'. unfold loop_tail, loop_button. rewrite isButtonPressed_spec.
  fold (accepted e s). destruct (accepted e s).
  - fields. rewrite Hc. cbn [negb]. unfold abortCountdown, timer_state. fields.
    rewrite <- !app_assoc. auto 10.
  - rewrite Hpc. unfold loop_countdown, timer_state. rewrite Hc.
    destruct (1000 <=? _); [|rewrite Hpc, Hc; auto 10].
    fields. destruct ((0 <? seconds s) || (0 <? minutes s)).
    + unfold updateDisplay, decremented.
      destruct (seconds s =? 0); fields; rewrite Hpc, Hc; auto 10.
    + unfold countdownFinished. fields. rewrite <- !app_assoc. auto 10.
Qed.

Lemma counting_pass (e : Env) (s : State) :
  timer_state s = Some Counting ->
  let s' := step e s in
  if accepted e s then
    timer_state s' = Some Aborted /\ relay s' = false
    /\ out s' = out s ++ [EvRelay LOW; EvScreen ScrCancelled; EvTone MelCancel]
    /\ minutes s' = minutes s /\ seconds s' = seconds s
    /\ lastButtonPress s' = millis (t_btn_stamp e)
  else if 1000 <=? ULong.sub (millis (t_tick e)) (lastCountdownUpdate s) then
    if (0 <? seconds s) || (0 <? minutes s) then
      timer_state s' = Some Counting /\ relay s' = relay s
      /\ (minutes s', seconds s') = decremented s
      /\ out s' = out s ++
           [EvRender true (minutes s') (seconds s') (initialTotalSeconds s)
              (arduino_map (Int16.add (Int16.mul (minutes s') 60) (seconds s'))
                           0 (initialTotalSeconds s) 0 SCREEN_WIDTH)]
      /\ lastCountdownUpdate s' = millis (t_tick_stamp e)
    else
      timer_state s' = Some Finished /\ relay s' = false
      /\ out s' = out s ++ [EvRelay LOW; EvScreen ScrFinished; EvTone MelAlarm]
      /\ minutes s' = minutes s /\ seconds s' = seconds s
  else
    timer_state s' = Some Counting /\ relay s' = relay s
    /\ out s' = out s /\ minutes s' = minutes s /\ seconds s' = seconds s
    /\ lastCountdownUpdate s' = lastCountdownUpdate s.
Proof.
  intros Hs. pose proof Hs as Hs0.
  apply counting_iff in Hs. destruct Hs as [Hpc Hc].
  unfold step. rewrite Hpc, loop_split.
  rewrite loop_encoder_counting by (rewrite at_line165_frame; exact Hc).
  set (p := encoderPos (loop_encoder e (at_line165 e s))).
  set (l := lastReportedPos (loop_encoder e (at_line165 e s))).
  clearbody p l. rewrite at_line165_frame.
  generalize (encoderPos (at_line165 e s)). intros p0.
  set (s0 := set_lastReportedPos l _).
  assert (H0 : timer_state s0 = Some Counting) by exact Hs0.
  apply (loop_tail_counting e) in H0.
  exact H0.
Qed.

(** An accepted press while Configuring starts the countdown. *)
Lemma loop_tail_start (e : Env) (s : State) :
  pc s = AtLoop -> countdownStarted s = false -> accepted e s = true ->
  let s' := loop_tail e s in
  countdownStarted s' = true
  /\ initialTotalSeconds s' = Int16.add (Int16.mul (minutes s) 60) (seconds s)
  /\ In (EvRelay HIGH) (out s').
Proof.
  intros Hpc Hc Ha s'. subst s'.
  unfold loop_tail, loop_button. rewrite isButtonPressed_spec.
  fold (accepted e s). rewrite Ha. fields. rewrite ?Hc, ?Hpc. cbn [negb].
  fields. rewrite ?Hpc.
  unfold loop_countdown. fields.
  destruct (1000 <=? _); fields;
    [destruct ((0 <? seconds s) || (0 <? minutes s));
     [unfold updateDisplay; destruct (seconds s =? 0)|unfold countdownFinished]|];
    fields; (split; [reflexivity|split; [reflexivity|]]);
    rewrite ?in_app_iff; cbn [In]; tauto.
Qed.

Lemma start_pass (e : Env) (s : State) :
  timer_state s = Some Configuring -> accepted e s = true ->
  countdownStarted (step e s) = true.
Proof.
  intros Hs Ha. apply configuring_iff in Hs. destruct Hs as [Hpc Hc].
  unfold step. rewrite Hpc, loop_split.
  destruct (loop_encoder_control e (at_line165 e s)) as (Hp & Hcs & _ & Hb & _).
  apply loop_tail_start.
  - rewrite Hp, at_line165_frame. exact Hpc.
  - rewrite Hcs, at_line165_frame. exact Hc.
  - unfold accepted in *. rewrite Hb, at_line165_frame. exact Ha.
Qed.

(** ** What one poll of a busy-wait does *)

Lemma wait_poll (e : Env) (s : State) :
  pc s = WaitFinished \/ pc s = WaitAborted ->
  let s' := step e s in
  if accepted e s then
    timer_state s' = Some Configuring /\ relay s' = relay s
    /\ minutes s' = minutes s /\ seconds s' = seconds s
    /\ encoderPos s' = lastReportedPos s /\ lastReportedPos s' = lastReportedPos s
    /\ out s' = out s ++
         [EvRender false (minutes s) (seconds s) MAX_TIME
            (arduino_map (Int16.add (Int16.mul (minutes s) 60) (seconds s))
                         0 MAX_TIME 0 SCREEN_WIDTH)]
    /\ lastButtonPress s' = millis (t_btn_stamp e)
  else
    timer_state s' = timer_state s /\ relay s' = relay s
    /\ minutes s' = minutes s /\ seconds s' = seconds s
    /\ encoderPos s' = encoderPos (interrupts (irq_top e) s)
    /\ lastReportedPos s' = lastReportedPos s
    /\ out s' = out s.
Proof.
  intros Hpc s'. subst s'. unfold step, accepted.
  pose proof (interrupts_frame (irq_top e) s) as F.
  set (p := encoderPos (interrupts (irq_top e) s)) in *. clearbody p.
  destruct Hpc as [Hpc|Hpc]; rewrite Hpc;
    unfold countdownFinished_poll, abortCountdown_poll;
    rewrite isButtonPressed_spec, F; fields;
    (destruct (andb _ _);
     [ unfold resetTimer, updateDisplay, loop_countdown, timer_state; fields; auto 10
     | unfold timer_state; fields; auto 10 ]).
Qed.

(** ** EEPROM *)

Lemma EEPROM_get_put (a v : Z) (m : EEPROM.t) :
  Int16.in_range v -> EEPROM.get a (EEPROM.put a v m) = v.
Proof.
  intros Hv. unfold EEPROM.get, EEPROM.put, EEPROM.write.
  rewrite Z.eqb_refl.
  replace (a =? a + 1) with false by (symmetry; apply Z.eqb_neq; lia).
  rewrite Z.eqb_refl.
  set (u := v mod 65536).
  assert (Hu : 0 <= u < 65536) by (apply Z.mod_pos_bound; lia).
  rewrite Z.shiftr_div_pow2, Z.shiftl_mul_pow2 by lia.
  change (2 ^ 8) with 256.
  rewrite !Z.mod_mod by lia.
  assert (Hd : 0 <= u / 256 < 256).
  { split; [apply Z.div_pos; lia|apply Z.div_lt_upper_bound; lia]. }
  rewrite (Z.mod_small (u / 256)) by lia.
  replace (u mod 256 + u / 256 * 256) with u
    by (pose proof (Z.div_mod u 256 ltac:(lia)); lia).
  subst u. unfold Int16.wrap, Int16.modulus.
  unfold Int16.in_range, Int16.min_signed, Int16.max_signed in Hv.
  rewrite Z.add_mod_idemp_l by lia.
  rewrite Z.mod_small by lia. lia.
Qed.

(** ** Duration bounds *)

(** C2, counterexample: after a 0:01 countdown has run to its end and
    been acknowledged, the timer is Configuring with a Duration of 0,
    below MIN_TIME. *)
Lemma duration_zero_after_finish :
  reachable after_full_countdown
  /\ timer_state after_full_countdown = Some Configuring
  /\ total_seconds after_full_countdown = 0
  /\ ~ (MIN_TIME <= total_seconds after_full_countdown <= MAX_TIME).
Proof.
  split; [apply reachable_run, reach_setup|].
  split; [vm_compute; reflexivity|].
  assert (E : total_seconds after_full_countdown = 0) by (vm_compute; reflexivity).
  split; [exact E|]. rewrite E. unfold MIN_TIME. lia.
Qed.

Lemma configuring_step_not_accepted (e : Env) (s : State) :
  timer_state s = Some Configuring ->
  timer_state (step e s) = Some Configuring ->
  accepted e s = false.
Proof.
  intros Hs Hs'. destruct (accepted e s) eqn:Ha; [|reflexivity].
  pose proof (start_pass e s Hs Ha) as Hc.
  apply configuring_iff in Hs'. destruct Hs' as [_ Hs']. congruence.
Qed.

(** C2, amended: in every reachable state the Duration shown while
    Configuring is within [0, MAX_TIME], the RemainingDuration while
    Counting is within [0, Duration-at-start], and Duration-at-start is at
    most MAX_TIME.  The lower bound MIN_TIME holds after [setup()], after
    every pass that adjusts the duration, and is kept by every pass that
    stays in Configuring. *)
Theorem duration_bounds (s : State) (e : Env) (H : reachable s) :
  (timer_state s = Some Configuring -> 0 <= total_seconds s <= MAX_TIME)
  /\ (timer_state s = Some Counting ->
      0 <= total_seconds s <= initialTotalSeconds s
      /\ initialTotalSeconds s <= MAX_TIME)
  /\ (timer_state s = Some Configuring ->
      timer_state (step e s) = Some Configuring ->
      MIN_TIME <= total_seconds s \/ moved e s = true ->
      MIN_TIME <= total_seconds (step e s) <= MAX_TIME)
  /\ (forall display_ok rom,
      s = setup display_ok rom -> timer_state s = Some Configuring ->
      MIN_TIME <= total_seconds s <= MAX_TIME).
Proof.
  pose proof (reachable_inv s H) as [_ Hsec Hmin Hcap Hinit _ _ _].
  unfold total_seconds in *.
  split; [intros _; lia|].
  split.
  { intros Hs. apply counting_iff in Hs. destruct Hs as [_ Hc].
    specialize (Hinit Hc). lia. }
  split.
  { intros Hs Hs' Hlow.
    pose proof (configuring_step_not_accepted e s Hs Hs') as Ha.
    destruct (configuring_pass e s Hs Ha) as (_ & Hmv & Hst).
    destruct (moved e s) eqn:Em.
    - destruct (Hmv eq_refl) as (_ & _ & Ht & _).
      unfold total_seconds in Ht. rewrite Ht.
      apply constrain_bounds. unfold MIN_TIME, MAX_TIME. lia.
    - destruct (Hst eq_refl) as (Hm' & Hs'' & _). rewrite Hm', Hs''.
      destruct Hlow as [Hlow|Hlow]; [lia|discriminate]. }
  intros [|] rom -> Hs.
  - pose proof (loadLastConfiguration_range (power_on rom)) as (Ht & _).
    unfold setup. cbn [negb]. fields. exact Ht.
  - discriminate.
Qed.

Lemma duration_bounds_witness :
  reachable just_started
  /\ timer_state just_started = Some Counting
  /\ 0 <= total_seconds just_started <= initialTotalSeconds just_started
  /\ initialTotalSeconds just_started <= MAX_TIME.
Proof.
  assert (R : reachable just_started) by (apply reachable_run, reach_setup).
  assert (C : timer_state just_started = Some Counting)
    by (vm_compute; reflexivity).
  destruct (duration_bounds just_started (idle 1500) R) as (_ & B & _).
  split; [exact R|]. split; [exact C|]. exact (B C).
Defined.

(** ** Adjusting the duration *)

Lemma run_app (es1 es2 : list Env) (s : State) :
  run (es1 ++ es2) s = run es2 (run es1 s).
Proof. unfold run. apply fold_left_app. Qed.

Lemma run_released_configuring (es : list Env) (s : State) :
  timer_state s = Some Configuring -> Forall released es ->
  timer_state (run es s) = Some Configuring.
Proof.
  revert s. induction es as [|e es IH]; intros s Hs Hb; [exact Hs|].
  inversion Hb as [|? ? He Hes]; subst.
  change (run (e :: es) s) with (run es (step e s)).
  apply IH; [|assumption].
  apply (configuring_pass e s Hs (released_not_accepted e s He)).
Qed.


(** ** Abort and acknowledge *)

Lemma aborted_pc (s : State) :
  timer_state s = Some Aborted -> pc s = WaitAborted.
Proof.
  unfold timer_state. destruct (pc s), (countdownStarted s);
    try discriminate; reflexivity.
Qed.

Lemma finished_pc (s : State) :
  timer_state s = Some Finished -> pc s = WaitFinished.
Proof.
  unfold timer_state. destruct (pc s), (countdownStarted s);
    try discriminate; reflexivity.
Qed.

(** C4, counterexample: a countdown started from 0:15 and aborted at 0:10
    comes back to Configuring at 0:10, not at the 0:15 it was started
    from. *)
Lemma abort_keeps_0_10 :
  reachable counting_at_0_10
  /\ timer_state counting_at_0_10 = Some Counting
  /\ total_seconds counting_at_0_10 = 10
  /\ initialTotalSeconds counting_at_0_10 = 15
  /\ timer_state (step (press 6500) counting_at_0_10) = Some Aborted
  /\ timer_state (run [press 6500; press 7000] counting_at_0_10) = Some Configuring
  /\ total_seconds (run [press 6500; press 7000] counting_at_0_10) = 10
  /\ total_seconds (run [press 6500; press 7000] counting_at_0_10)
     <> initialTotalSeconds counting_at_0_10.
Proof.
  split; [apply reachable_run, reach_setup|].
  repeat (split; [vm_compute; reflexivity|]).
  vm_compute. discriminate.
Qed.


(** ** The last second *)

(** C5, the code at the claim's input: Counting with one second left.
    The tick that comes 1000 ms later takes the remaining time to 0:00
    and redraws the screen; the timer is still Counting and the relay is
    still high, no alarm has sounded.  Only the tick after that one, a
    further 1000 ms later, enters Finished, writes the relay low and
    plays the alarm. *)
Theorem finish_one_tick_late (s : State) (e e' : Env)
  (Hr : reachable s)
  (Hs : timer_state s = Some Counting)
  (Hm : minutes s = 0) (Hsec : seconds s = 1)
  (Ha : accepted e s = false)
  (Ht : 1000 <= ULong.sub (millis (t_tick e)) (lastCountdownUpdate s))
  (Ha' : accepted e' (step e s) = false)
  (Ht' : 1000 <= ULong.sub (millis (t_tick e')) (millis (t_tick_stamp e))) :
  let s1 := step e s in
  let s2 := step e' s1 in
  timer_state s1 = Some Counting /\ relay s1 = true
  /\ minutes s1 = 0 /\ seconds s1 = 0
  /\ out s1 = out s ++ [EvRender true 0 0 (initialTotalSeconds s)
                          (arduino_map 0 0 (initialTotalSeconds s) 0 SCREEN_WIDTH)]
  /\ timer_state s2 = Some Finished /\ relay s2 = false
  /\ out s2 = out s1 ++ [EvRelay LOW; EvScreen ScrFinished; EvTone MelAlarm].
Proof.
  intros s1 s2.
  assert (Hrel : relay s = true).
  { apply (relay_of_counting s); assumption. }
  pose proof (counting_pass e s Hs) as P1. cbv zeta in P1.
  rewrite Ha in P1. apply Z.leb_le in Ht. rewrite Ht in P1.
  rewrite Hm, Hsec in P1. cbn [Z.ltb Z.compare orb] in P1.
  fold s1 in P1. destruct P1 as (Hst1 & Hr1 & Hd & Ho1 & Hl1).
  unfold decremented in Hd. rewrite Hm, Hsec in Hd.
  cbn [Z.eqb] in Hd. injection Hd as Hm1 Hs1.
  change (Int16.sub 1 1) with 0 in Hs1.
  rewrite Hm1, Hs1 in Ho1.
  change (Int16.add (Int16.mul 0 60) 0) with 0 in Ho1.
  pose proof (counting_pass e' s1 Hst1) as P2. cbv zeta in P2.
  fold s1 in Ha'. rewrite Ha' in P2. rewrite Hl1 in P2.
  apply Z.leb_le in Ht'. rewrite Ht' in P2.
  rewrite Hm1, Hs1 in P2. cbn [Z.ltb Z.compare orb] in P2.
  fold s2 in P2. destruct P2 as (Hst2 & Hr2 & Ho2 & _).
  repeat split; try assumption; congruence.
Qed.

Lemma finish_one_tick_late_witness :
  reachable counting_at_0_01
  /\ timer_state counting_at_0_01 = Some Counting
  /\ total_seconds counting_at_0_01 = 1
  /\ timer_state (step (idle 2000) counting_at_0_01) = Some Counting
  /\ relay (step (idle 2000) counting_at_0_01) = true
  /\ timer_state (step (idle 3000) (step (idle 2000) counting_at_0_01))
     = Some Finished.
Proof.
  assert (R : reachable counting_at_0_01) by (apply reachable_run, reach_setup).
  assert (Hs : timer_state counting_at_0_01 = Some Counting)
    by (vm_compute; reflexivity).
  assert (Hm : minutes counting_at_0_01 = 0) by (vm_compute; reflexivity).
  assert (Hsec : seconds counting_at_0_01 = 1) by (vm_compute; reflexivity).
  assert (Ha : accepted (idle 2000) counting_at_0_01 = false)
    by (vm_compute; reflexivity).
  assert (Ht : 1000 <= ULong.sub (millis (t_tick (idle 2000)))
                         (lastCountdownUpdate counting_at_0_01))
    by (vm_compute; discriminate).
  assert (Ha' : accepted (idle 3000) (step (idle 2000) counting_at_0_01) = false)
    by (vm_compute; reflexivity).
  assert (Ht' : 1000 <= ULong.sub (millis (t_tick (idle 3000)))
                          (millis (t_tick_stamp (idle 2000))))
    by (vm_compute; discriminate).
  destruct (finish_one_tick_late counting_at_0_01 (idle 2000) (idle 3000)
              R Hs Hm Hsec Ha Ht Ha' Ht') as (A & B & _ & _ & _ & C & _).
  split; [exact R|]. split; [exact Hs|].
  split; [vm_compute; reflexivity|].
  split; [exact A|]. split; [exact B|exact C].
Defined.

(** ** Configuration store *)

Lemma loadLastConfiguration_valid (s : State) :
  let v := EEPROM.get EEPROM_ADDRESS (eeprom s) in
  MIN_TIME <= v <= MAX_TIME ->
  minutes (loadLastConfiguration s) = Z.quot v 60
  /\ seconds (loadLastConfiguration s) = Z.rem v 60.
Proof.
  intros v Hv. unfold loadLastConfiguration. fold v.
  replace ((MIN_TIME <=? v) && (v <=? MAX_TIME)) with true.
  - fields. auto.
  - symmetry. apply andb_true_iff. split; apply Z.leb_le; lia.
Qed.

Lemma loadLastConfiguration_default (s : State) :
  let v := EEPROM.get EEPROM_ADDRESS (eeprom s) in
  ~ (MIN_TIME <= v <= MAX_TIME) ->
  minutes (loadLastConfiguration s) = 5
  /\ seconds (loadLastConfiguration s) = 0.
Proof.
  intros v Hv. unfold loadLastConfiguration. fold v.
  replace ((MIN_TIME <=? v) && (v <=? MAX_TIME)) with false.
  - fields. auto.
  - symmetry. apply andb_false_iff.
    destruct (Z.leb_spec MIN_TIME v); [right|left; reflexivity].
    apply Z.leb_gt. lia.
Qed.

Lemma saveLastConfiguration_stored (s : State) :
  EEPROM.get EEPROM_ADDRESS (eeprom (saveLastConfiguration s))
  = Int16.wrap (total_seconds s).
Proof.
  unfold saveLastConfiguration. fields. rewrite Int16_total.
  apply EEPROM_get_put, Int16_wrap_in_range.
Qed.

Lemma saveLastConfiguration_time (s : State) :
  minutes (saveLastConfiguration s) = minutes s
  /\ seconds (saveLastConfiguration s) = seconds s.
Proof. unfold saveLastConfiguration. fields. auto. Qed.

(** C6: for every x in [MIN_TIME, MAX_TIME], saving a duration of x and
    loading it again (in place, or through [setup()] after a power
    cycle) gives x back, split as x / 60 minutes and x % 60 seconds, the
    split it was saved from; when the stored value is outside
    [1, 1800], loading gives 5:00, that is 300 seconds. *)
Theorem save_load_roundtrip (s : State) (x : Z)
  (Hx : MIN_TIME <= x <= MAX_TIME) (Hs : total_seconds s = x) :
  let s' := loadLastConfiguration (saveLastConfiguration s) in
  total_seconds s' = x
  /\ minutes s' = Z.quot x 60 /\ seconds s' = Z.rem x 60
  /\ (0 <= seconds s < 60 -> minutes s' = minutes s /\ seconds s' = seconds s)
  /\ total_seconds (setup true (eeprom (saveLastConfiguration s))) = x
  /\ (forall s0,
        ~ (MIN_TIME <= EEPROM.get EEPROM_ADDRESS (eeprom s0) <= MAX_TIME) ->
        minutes (loadLastConfiguration s0) = 5
        /\ seconds (loadLastConfiguration s0) = 0
        /\ total_seconds (loadLastConfiguration s0) = 300)
  /\ (forall s0,
        ~ (MIN_TIME <= Int16.wrap (total_seconds s0) <= MAX_TIME) ->
        total_seconds (loadLastConfiguration (saveLastConfiguration s0)) = 300).
Proof.
  intros s'.
  assert (Hw : Int16.wrap (total_seconds s) = x).
  { rewrite Hs. apply Int16_wrap_small.
    unfold Int16.in_range, Int16.min_signed, Int16.max_signed,
      MIN_TIME, MAX_TIME in *. lia. }
  assert (Hget : EEPROM.get EEPROM_ADDRESS (eeprom (saveLastConfiguration s)) = x)
    by (rewrite saveLastConfiguration_stored; exact Hw).
  destruct (loadLastConfiguration_valid (saveLastConfiguration s)) as [Hm Hsec].
  { cbv zeta. rewrite Hget. exact Hx. }
  rewrite Hget in Hm, Hsec. fold s' in Hm, Hsec.
  destruct (split_duration x ltac:(unfold MIN_TIME in *; lia)) as (Hq & Hrem & Hsplit).
  assert (Hdef : forall s0,
             ~ (MIN_TIME <= EEPROM.get EEPROM_ADDRESS (eeprom s0) <= MAX_TIME) ->
             minutes (loadLastConfiguration s0) = 5
             /\ seconds (loadLastConfiguration s0) = 0
             /\ total_seconds (loadLastConfiguration s0) = 300).
  { intros s0 H0. destruct (loadLastConfiguration_default s0 H0) as [A B].
    unfold total_seconds. rewrite A, B. auto. }
  split; [unfold total_seconds; rewrite Hm, Hsec; exact Hsplit|].
  split; [exact Hm|]. split; [exact Hsec|].
  split.
  { intros Hcanon. rewrite Hm, Hsec. unfold total_seconds in Hs.
    unfold MIN_TIME, MAX_TIME in Hx.
    rewrite Z.quot_div_nonneg, Z.rem_mod_nonneg by lia.
    assert (Hmin : 0 <= minutes s) by lia.
    rewrite <- Hs.
    rewrite Z.div_add_l, Z.div_small, Z.add_0_r by lia.
    rewrite Z.add_comm, Z.mod_add, Z.mod_small by lia. auto. }
  split.
  { destruct (loadLastConfiguration_valid
                (power_on (eeprom (saveLastConfiguration s)))) as [Hm' Hsec'].
    { cbv zeta. unfold power_on. fields. rewrite Hget. exact Hx. }
    unfold power_on in Hm', Hsec'. fields. rewrite Hget in Hm', Hsec'.
    unfold setup, total_seconds. cbn [negb]. fields.
    unfold power_on. rewrite Hm', Hsec'. exact Hsplit. }
  split; [exact Hdef|].
  intros s0 H0. apply Hdef. now rewrite saveLastConfiguration_stored.
Qed.

Lemma save_load_roundtrip_witness :
  MIN_TIME <= 1795 <= MAX_TIME
  /\ total_seconds at_29_55 = 1795
  /\ minutes (loadLastConfiguration (saveLastConfiguration at_29_55)) = Z.quot 1795 60
  /\ seconds (loadLastConfiguration (saveLastConfiguration at_29_55)) = Z.rem 1795 60.
Proof.
  assert (Hx : MIN_TIME <= 1795 <= MAX_TIME) by (unfold MIN_TIME, MAX_TIME; lia).
  assert (Hs : total_seconds at_29_55 = 1795) by (vm_compute; reflexivity).
  split; [exact Hx|]. split; [exact Hs|].
  destruct (save_load_roundtrip at_29_55 1795 Hx Hs) as (_ & Hm & Hsec & _).
  split; [exact Hm|exact Hsec].
Defined.

(** ** Debounced button *)

(** C8, counterexample: the button is pressed once and held; it reads
    low at 1000 ms and still reads low at 1301 ms.  Both polls are
    accepted: the single press starts the countdown and then aborts it. *)
Lemma held_press_accepted_twice :
  fst (poll_all [(LOW, 1000); (LOW, 1301)]
                (setup true (EEPROM.holding EEPROM_ADDRESS 5)))
  = [true; true]
  /\ timer_state (run [press 1000; press 1301]
                      (setup true (EEPROM.holding EEPROM_ADDRESS 5)))
     = Some Aborted.
Proof. split; vm_compute; reflexivity. Qed.

Lemma poll_all_rejected (ps : list (bool * Z)) (s : State) :
  Forall (fun b => b = false) (fst (poll_all ps s)) ->
  snd (poll_all ps s) = s.
Proof.
  revert s. induction ps as [|[lv t] ps IH]; intros s H; [reflexivity|].
  cbn [poll_all] in *. rewrite isButtonPressed_spec in *.
  destruct (andb _ _).
  - destruct (poll_all ps _). cbn [fst] in H.
    inversion H; discriminate.
  - specialize (IH s). destruct (poll_all ps s). cbn [fst snd] in *.
    inversion H; subst. auto.
Qed.

(** C8, amended: [isButtonPressed()] returns true exactly when the pin
    reads low and more than DEBOUNCE_DELAY ms (in [unsigned long]
    arithmetic) have passed since the last accepted poll; it then stamps
    [lastButtonPress] with the clock and changes nothing else, and a
    rejected poll changes nothing at all.  Hence, however often the
    button is polled, an accepted poll and the next accepted poll are
    more than DEBOUNCE_DELAY ms apart; a press that is held longer is
    accepted again. *)
Theorem isButtonPressed_contract (s : State) (level : bool) (t_test t_stamp : Z) :
  let r := isButtonPressed level t_test t_stamp s in
  (fst r = true <->
     level = LOW
     /\ DEBOUNCE_DELAY < ULong.sub (millis t_test) (lastButtonPress s))
  /\ (fst r = true -> snd r = set_lastButtonPress (millis t_stamp) s)
  /\ (fst r = false -> snd r = s)
  /\ (forall ps level' t_test' t_stamp',
        fst r = true ->
        Forall (fun b => b = false) (fst (poll_all ps (snd r))) ->
        fst (isButtonPressed level' t_test' t_stamp'
               (snd (poll_all ps (snd r)))) = true ->
        DEBOUNCE_DELAY < ULong.sub (millis t_test') (millis t_stamp)).
Proof.
  intros r.
  assert (Hacc : forall lv t1 t2 st,
             fst (isButtonPressed lv t1 t2 st) = true <->
             lv = LOW /\ DEBOUNCE_DELAY < ULong.sub (millis t1) (lastButtonPress st)).
  { intros lv t1 t2 st. rewrite isButtonPressed_spec. cbn [fst].
    rewrite andb_true_iff, Z.ltb_lt. unfold LOW.
    destruct lv; cbn [Bool.eqb]; intuition discriminate. }
  split; [apply Hacc|].
  assert (Hyes : fst r = true -> snd r = set_lastButtonPress (millis t_stamp) s).
  { subst r. rewrite isButtonPressed_spec. cbn [fst snd].
    intros ->. reflexivity. }
  split; [exact Hyes|].
  split.
  { subst r. rewrite isButtonPressed_spec. cbn [fst snd].
    intros ->. reflexivity. }
  intros ps lv' t1' t2' Ha Hrej Hb.
  rewrite (poll_all_rejected ps (snd r) Hrej) in Hb.
  rewrite (Hyes Ha) in Hb.
  apply Hacc in Hb. destruct Hb as [_ Hb]. exact Hb.
Qed.

(** ** The encoder outside Configuring *)

Lemma interrupts_app (a b : list (bool * bool)) (s : State) :
  interrupts (a ++ b) s = interrupts b (interrupts a s).
Proof. unfold interrupts. apply fold_left_app. Qed.

Lemma accepted_quiet (e : Env) (s : State) :
  accepted (quiet e) s = accepted e s.
Proof. reflexivity. Qed.

(** While Counting, a pass writes [encoderPos] in the interrupt handler
    only. *)
Lemma loop_tail_encoderPos (e : Env) (s : State) :
  countdownStarted s = true ->
  encoderPos (loop_tail e s) = encoderPos s.
Proof.
  intros Hc. unfold loop_tail, loop_button. rewrite isButtonPressed_spec.
  destruct (andb _ _); fields; rewrite ?Hc; cbn [negb].
  - unfold abortCountdown. fields. reflexivity.
  - destruct (pc s); try reflexivity.
    unfold loop_countdown. rewrite Hc.
    destruct (1000 <=? _); [|reflexivity]. fields.
    destruct ((0 <? seconds s) || (0 <? minutes s)).
    + unfold updateDisplay. destruct (seconds s =? 0); reflexivity.
    + reflexivity.
Qed.

Lemma counting_pass_encoderPos (e : Env) (s : State) :
  timer_state s = Some Counting -> Int16.in_range (encoderPos s) ->
  encoderPos (step e s)
  = Int16.wrap (encoderPos s + net (irq_top e ++ irq_calc e ++ irq_draw e)).
Proof.
  intros Hs Hr. apply counting_iff in Hs. destruct Hs as [Hpc Hc].
  unfold step. rewrite Hpc, loop_split.
  assert (Hc0 : countdownStarted (at_line165 e s) = true)
    by (rewrite at_line165_frame; exact Hc).
  rewrite loop_tail_encoderPos
    by (destruct (loop_encoder_control e (at_line165 e s)) as (_ & H & _);
        congruence).
  assert (He : encoderPos (loop_encoder e (at_line165 e s))
               = encoderPos (interrupts (irq_draw e)
                               (interrupts (irq_calc e) (at_line165 e s)))).
  { unfold loop_encoder. rewrite Hc0. cbn [negb].
    destruct (negb (lastReportedPos (at_line165 e s) =? encoderPos (at_line165 e s)));
      [|reflexivity].
    fields. reflexivity. }
  rewrite He. unfold at_line165.
  rewrite <- !interrupts_app.
  rewrite interrupts_encoderPos by exact Hr.
  rewrite <- ?app_assoc. reflexivity.
Qed.

(** C9: outside Configuring the edges of the encoder have no influence
    on minutes and seconds: a pass (or poll) gives the same time, and the
    same timer state, as it would with the encoder still.  While
    Counting the edges still accumulate in [encoderPos]; during a
    terminal wait they accumulate too, and the accepted press that
    returns to Configuring sets [encoderPos] back to [lastReportedPos],
    which the wait has not moved, so that the next pass sees no change
    unless the encoder moves again. *)
Theorem encoder_ignored_outside_configuring (s : State) (e : Env)
  (Hr : reachable s) (Hs : timer_state s <> Some Configuring) :
  minutes (step e s) = minutes (step (quiet e) s)
  /\ seconds (step e s) = seconds (step (quiet e) s)
  /\ timer_state (step e s) = timer_state (step (quiet e) s)
  /\ (timer_state s = Some Counting ->
      encoderPos (step e s)
      = Int16.wrap (encoderPos s + net (irq_top e ++ irq_calc e ++ irq_draw e)))
  /\ (timer_state s = Some Finished \/ timer_state s = Some Aborted ->
      if accepted e s then
        timer_state (step e s) = Some Configuring
        /\ encoderPos (step e s) = lastReportedPos (step e s)
        /\ lastReportedPos (step e s) = lastReportedPos s
        /\ (forall e', irq_top e' = [] -> moved e' (step e s) = false)
      else
        timer_state (step e s) = timer_state s
        /\ encoderPos (step e s) = Int16.wrap (encoderPos s + net (irq_top e))
        /\ lastReportedPos (step e s) = lastReportedPos s).
Proof.
  pose proof (reachable_inv s Hr) as I.
  pose proof (inv_enc s I) as Henc.
  assert (Hwait : pc s = WaitFinished \/ pc s = WaitAborted ->
                  minutes (step e s) = minutes (step (quiet e) s)
                  /\ seconds (step e s) = seconds (step (quiet e) s)
                  /\ timer_state (step e s) = timer_state (step (quiet e) s)).
  { intros Hpc.
    pose proof (wait_poll e s Hpc) as P.
    pose proof (wait_poll (quiet e) s Hpc) as Q.
    cbv zeta in P, Q. rewrite accepted_quiet in Q.
    destruct (accepted e s).
    - destruct P as (P1 & _ & P2 & P3 & _), Q as (Q1 & _ & Q2 & Q3 & _).
      repeat split; congruence.
    - destruct P as (P1 & _ & P2 & P3 & _), Q as (Q1 & _ & Q2 & Q3 & _).
      repeat split; congruence. }
  assert (Hfirst : minutes (step e s) = minutes (step (quiet e) s)
                   /\ seconds (step e s) = seconds (step (quiet e) s)
                   /\ timer_state (step e s) = timer_state (step (quiet e) s)).
  { destruct (pc s) eqn:Hpc.
    - unfold step. rewrite Hpc.
      rewrite (interrupts_frame (irq_top e) s).
      rewrite (interrupts_frame (irq_top (quiet e)) s).
      unfold timer_state. fields. auto.
    - assert (Hc : timer_state s = Some Counting).
      { unfold timer_state in *. rewrite Hpc in *.
        destruct (countdownStarted s); [reflexivity|contradiction]. }
      pose proof (counting_pass e s Hc) as P.
      pose proof (counting_pass (quiet e) s Hc) as Q.
      cbv zeta in P, Q. rewrite accepted_quiet in Q.
      change (t_tick (quiet e)) with (t_tick e) in Q.
      destruct (accepted e s).
      + destruct P as (P1 & _ & _ & P2 & P3 & _), Q as (Q1 & _ & _ & Q2 & Q3 & _).
        repeat split; congruence.
      + destruct (1000 <=? _).
        * destruct ((0 <? seconds s) || (0 <? minutes s)).
          -- destruct P as (P1 & _ & P2 & _), Q as (Q1 & _ & Q2 & _).
             rewrite <- Q2 in P2. injection P2 as A B.
             repeat split; congruence.
          -- destruct P as (P1 & _ & _ & P2 & P3), Q as (Q1 & _ & _ & Q2 & Q3).
             repeat split; congruence.
        * destruct P as (P1 & _ & _ & P2 & P3 & _), Q as (Q1 & _ & _ & Q2 & Q3 & _).
          repeat split; congruence.
    - apply Hwait. now left.
    - apply Hwait. now right. }
  destruct Hfirst as (A & B & C).
  split; [exact A|]. split; [exact B|]. split; [exact C|].
  split; [intros Hc; now apply counting_pass_encoderPos|].
  intros Hw.
  assert (Hpc : pc s = WaitFinished \/ pc s = WaitAborted).
  { destruct Hw as [Hw|Hw]; [left; now apply finished_pc|right; now apply aborted_pc]. }
  pose proof (wait_poll e s Hpc) as P. cbv zeta in P.
  destruct (accepted e s).
  - destruct P as (P1 & _ & _ & _ & P2 & P3 & _).
    split; [exact P1|]. split; [congruence|]. split; [exact P3|].
    intros e' He'. unfold moved, at_line165. rewrite He'.
    cbn [interrupts fold_left]. fields.
    apply negb_false_iff, Z.eqb_eq. congruence.
  - destruct P as (P1 & _ & _ & _ & P2 & P3 & _).
    rewrite interrupts_encoderPos in P2 by exact Henc.
    repeat split; assumption.
Qed.

Lemma encoder_ignored_outside_configuring_witness :
  reachable counting_at_0_10
  /\ timer_state counting_at_0_10 <> Some Configuring
  /\ seconds (step (turn [cw; cw; cw] 6100) counting_at_0_10)
     = seconds (step (quiet (turn [cw; cw; cw] 6100)) counting_at_0_10).
Proof.
  assert (R : reachable counting_at_0_10) by (apply reachable_run, reach_setup).
  assert (Hs : timer_state counting_at_0_10 <> Some Configuring)
    by (vm_compute; discriminate).
  split; [exact R|]. split; [exact Hs|].
  destruct (encoder_ignored_outside_configuring counting_at_0_10
              (turn [cw; cw; cw] 6100) R Hs) as (_ & B & _).
  exact B.
Defined.

(** ** The progress bar while Counting *)

(** C10: every [updateDisplay()] that took the Counting branch handed
    map() an [initialTotalSeconds] of at least 1, so the bar width was
    defined.  A countdown can nevertheless be started from 0:00, once a
    previous one has run to its end; from such a state (Counting with
    [initialTotalSeconds = 0]) no pass adds a Counting-mode display
    update: it waits, aborts, or goes straight to [countdownFinished()]. *)
Theorem progress_bar_defined (s : State) (H : reachable s) :
  (forall m sec d p,
      In (EvRender true m sec d p) (out s) -> 1 <= d /\ p <> None)
  /\ (forall e,
      timer_state s = Some Counting -> initialTotalSeconds s = 0 ->
      forall m sec d p,
        In (EvRender true m sec d p) (out (step e s)) ->
        In (EvRender true m sec d p) (out s))
  /\ (exists s0,
      reachable s0 /\ timer_state s0 = Some Counting
      /\ initialTotalSeconds s0 = 0).
Proof.
  pose proof (reachable_inv s H) as I.
  split; [apply (inv_render s I)|].
  split.
  - intros e Hs Hz m sec d p Hin.
    pose proof Hs as Hc. apply counting_iff in Hc. destruct Hc as [_ Hc].
    pose proof (inv_init s I Hc) as Hi.
    pose proof (inv_secs s I) as Hsec. pose proof (inv_mins s I) as Hmin.
    unfold total_seconds in Hi.
    assert (Hs0 : seconds s = 0) by lia.
    assert (Hm0 : minutes s = 0) by lia.
    pose proof (counting_pass e s Hs) as P. cbv zeta in P.
    rewrite Hs0, Hm0 in P. cbn [Z.ltb Z.compare orb] in P.
    destruct (accepted e s).
    + destruct P as (_ & _ & Ho & _). rewrite Ho in Hin.
      apply in_app_or in Hin. destruct Hin as [Hin|Hin]; [exact Hin|].
      simpl in Hin. destruct Hin as [Hin|[Hin|[Hin|[]]]]; discriminate.
    + destruct (1000 <=? _).
      * destruct P as (_ & _ & Ho & _). rewrite Ho in Hin.
        apply in_app_or in Hin. destruct Hin as [Hin|Hin]; [exact Hin|].
        simpl in Hin. destruct Hin as [Hin|[Hin|[Hin|[]]]]; discriminate.
      * destruct P as (_ & _ & Ho & _). now rewrite Ho in Hin.
  - exists (step (press 5000) after_full_countdown).
    split; [apply reach_step, reachable_run, reach_setup|].
    split; vm_compute; reflexivity.
Qed.

Lemma progress_bar_defined_witness :
  reachable counting_at_0_10
  /\ (forall m sec d p,
        In (EvRender true m sec d p) (out counting_at_0_10) ->
        1 <= d /\ p <> None).
Proof.
  assert (R : reachable counting_at_0_10) by (apply reachable_run, reach_setup).
  split; [exact R|].
  destruct (progress_bar_defined counting_at_0_10 R) as (A & _).
  exact A.
Defined.

(** ** The scenarios of the specification, run on the model *)

(** Scenario A: a stored value of 2000 is invalid, 5:00 is loaded. *)
Example scenario_A_invalid_store :
  minutes (setup true (EEPROM.holding EEPROM_ADDRESS 2000)) = 5
  /\ seconds (setup true (EEPROM.holding EEPROM_ADDRESS 2000)) = 0.
Proof. split; vm_compute; reflexivity. Qed.

(** A factory-fresh EEPROM reads -1, which is invalid too. *)
Example erased_store_is_invalid :
  EEPROM.get EEPROM_ADDRESS EEPROM.erased = -1
  /\ total_seconds (setup true EEPROM.erased) = 300.
Proof. split; vm_compute; reflexivity. Qed.

(** Scenario B: from 0:05 a slow notch gives 0:06, a fast one 0:16. *)
Example scenario_B_slow_then_fast :
  total_seconds (setup true (EEPROM.holding EEPROM_ADDRESS 5)) = 5
  /\ total_seconds at_0_06 = 6
  /\ total_seconds (step (turn [cw] 1030) at_0_06) = 16.
Proof. repeat split; vm_compute; reflexivity. Qed.

(** Scenario C: from 29:55 a fast notch is clamped to 30:00. *)
Example scenario_C_clamped_at_max :
  total_seconds at_29_55 = 1795
  /\ minutes (step (turn [cw] 5030) at_29_55) = 30
  /\ seconds (step (turn [cw] 5030) at_29_55) = 0.
Proof. repeat split; vm_compute; reflexivity. Qed.

(** Downwards the clamp stops at 0:01. *)
Example clamped_at_min :
  total_seconds (step (turn [ccw; ccw; ccw] 1030) at_0_06) = 1.
Proof. vm_compute. reflexivity. Qed.

(** When [display.begin()] fails, nothing ever happens. *)
Example halted_for_good (es : list Env) (rom : EEPROM.t) :
  pc (run es (setup false rom)) = Halted
  /\ relay (run es (setup false rom)) = false.
Proof.
  assert (H : pc (setup false rom) = Halted /\ relay (setup false rom) = false)
    by (split; reflexivity).
  revert H. generalize (setup false rom). induction es as [|e es IH]; intros s [Hp Hr].
  - split; assumption.
  - change (run (e :: es) s) with (run es (step e s)). apply IH.
    unfold step. rewrite Hp. rewrite interrupts_frame. fields. split; assumption.
Qed.

(** * Further properties of the sketch *)

(** ** The interrupt handler *)

Lemma net_app (a b : list (bool * bool)) : net (a ++ b) = net a + net b.
Proof.
  induction a as [|x a IH]; [reflexivity|].
  change (net ((x :: a) ++ b)) with (notch x + net (a ++ b)).
  change (net (x :: a)) with (notch x + net a). lia.
Qed.

Lemma net_mirror (l : list (bool * bool)) : net (map mirror l) = - net l.
Proof.
  induction l as [|[c d] l IH]; [reflexivity|].
  change (net (map mirror ((c, d) :: l)))
    with (notch (mirror (c, d)) + net (map mirror l)).
  change (net ((c, d) :: l)) with (notch (c, d) + net l).
  rewrite IH. unfold notch, mirror. cbn [fst snd].
  destruct c, d; cbn [negb Bool.eqb]; lia.
Qed.

Lemma net_bound (l : list (bool * bool)) :
  - Z.of_nat (List.length l) <= net l <= Z.of_nat (List.length l).
Proof.
  induction l as [|x l IH]; [cbn; lia|].
  change (net (x :: l)) with (notch x + net l).
  change (List.length (x :: l)) with (S (List.length l)).
  unfold notch. destruct (Bool.eqb (fst x) (snd x)); lia.
Qed.


(** ** The pass that starts a countdown *)

Lemma unpressed_at_line165 (e : Env) (s : State) :
  at_line165 (unpressed e) s = at_line165 e s.
Proof. reflexivity. Qed.

Lemma loop_encoder_unpressed (e : Env) (s : State) :
  loop_encoder (unpressed e) s = loop_encoder e s.
Proof. reflexivity. Qed.

Lemma configuring_unpressed (e : Env) (s : State) :
  timer_state s = Some Configuring ->
  step (unpressed e) s = loop_encoder e (at_line165 e s)
  /\ timer_state (step (unpressed e) s) = Some Configuring
  /\ lastButtonPress (step (unpressed e) s) = lastButtonPress s.
Proof.
  intros Hs. pose proof Hs as Hc. apply configuring_iff in Hc.
  destruct Hc as [Hpc Hc].
  assert (Ha : accepted (unpressed e) s = false) by reflexivity.
  assert (E : step (unpressed e) s = loop_encoder e (at_line165 e s)).
  { unfold step. rewrite Hpc, loop_not_accepted by assumption.
    rewrite unpressed_at_line165, loop_encoder_unpressed.
    apply loop_countdown_idle.
    destruct (loop_encoder_control e (at_line165 e s)) as (_ & H & _).
    rewrite H, at_line165_frame. exact Hc. }
  split; [exact E|].
  split; [apply (configuring_pass (unpressed e) s Hs Ha)|].
  rewrite E.
  destruct (loop_encoder_control e (at_line165 e s)) as (_ & _ & _ & H & _).
  rewrite H, at_line165_frame. reflexivity.
Qed.

(** A pass is its released twin followed by lines 189-218. *)
Lemma configuring_step_split (e : Env) (s : State) :
  timer_state s = Some Configuring ->
  step e s = loop_tail e (step (unpressed e) s).
Proof.
  intros Hs. destruct (configuring_unpressed e s Hs) as (E & _).
  rewrite E. apply configuring_iff in Hs. destruct Hs as [Hpc _].
  unfold step. rewrite Hpc. apply loop_split.
Qed.

(** Lines 189-218 when the press is accepted while Configuring. *)
Lemma loop_tail_start_full (e : Env) (s : State) :
  timer_state s = Some Configuring -> accepted e s = true ->
  let init := Int16.add (Int16.mul (minutes s) 60) (seconds s) in
  let s' := loop_tail e s in
  initialTotalSeconds s' = init
  /\ lastButtonPress s' = millis (t_btn_stamp e)
  /\ eeprom s' = eeprom s
  /\ encoderPos s' = encoderPos s /\ lastReportedPos s' = lastReportedPos s
  /\ if 1000 <=? ULong.sub (millis (t_tick e)) (millis (t_start e)) then
       if (0 <? seconds s) || (0 <? minutes s) then
         timer_state s' = Some Counting /\ relay s' = true
         /\ (minutes s', seconds s') = decremented s
         /\ out s' = out s ++
              [EvRelay HIGH;
               EvRender true (minutes s') (seconds s') init
                 (arduino_map (Int16.add (Int16.mul (minutes s') 60) (seconds s'))
                              0 init 0 SCREEN_WIDTH)]
         /\ lastCountdownUpdate s' = millis (t_tick_stamp e)
       else
         timer_state s' = Some Finished /\ relay s' = false
         /\ out s' = out s ++ [EvRelay HIGH; EvRelay LOW;
                                EvScreen ScrFinished; EvTone MelAlarm]
         /\ minutes s' = minutes s /\ seconds s' = seconds s
     else
       timer_state s' = Some Counting /\ relay s' = true
       /\ out s' = out s ++ [EvRelay HIGH]
       /\ minutes s' = minutes s /\ seconds s' = seconds s
       /\ lastCountdownUpdate s' = millis (t_start e).
Proof.
  intros Hs Ha init s'. apply configuring_iff in Hs. destruct Hs as [Hpc Hc].
  subst s' init. unfold loop_tail, loop_button. rewrite isButtonPressed_spec.
  fold (accepted e s). rewrite Ha. fields. rewrite Hc. cbn [negb]. fields.
  rewrite Hpc. unfold loop_countdown, timer_state. fields.
  destruct (1000 <=? _); fields; rewrite ?Hpc; [|repeat split; reflexivity].
  destruct ((0 <? seconds s) || (0 <? minutes s)).
  - unfold updateDisplay, decremented.
    destruct (seconds s =? 0); fields; rewrite ?Hpc, <- ?app_assoc;
      repeat split; reflexivity.
  - unfold countdownFinished, LOW, HIGH. fields.
    rewrite <- !app_assoc. repeat split; reflexivity.
Qed.

Lemma accepted_unpressed_state (e : Env) (s : State) :
  timer_state s = Some Configuring ->
  accepted e (step (unpressed e) s) = accepted e s.
Proof.
  intros Hs. destruct (configuring_unpressed e s Hs) as (_ & _ & H).
  unfold accepted. now rewrite H.
Qed.

Lemma reachable_total (s : State) :
  reachable s ->
  0 <= seconds s <= 59 /\ 0 <= minutes s <= 30
  /\ 0 <= total_seconds s <= MAX_TIME
  /\ Int16.add (Int16.mul (minutes s) 60) (seconds s) = total_seconds s.
Proof.
  intros H. pose proof (reachable_inv s H) as [_ Hsec Hmin Hcap _ _ _ _].
  unfold total_seconds in *. rewrite Int16_total.
  rewrite Int16_wrap_small
    by (unfold Int16.in_range, Int16.min_signed, Int16.max_signed, MAX_TIME in *; lia).
  lia.
Qed.

(** What an accepted press while Configuring leaves behind. *)
Lemma start_pass_snapshot (s : State) (e : Env)
  (Hr : reachable s)
  (Hs : timer_state s = Some Configuring)
  (Ha : accepted e s = true) :
  let s' := step e s in
  initialTotalSeconds s' = total_seconds (step (unpressed e) s)
  /\ (moved e s = false -> initialTotalSeconds s' = total_seconds s)
  /\ 0 <= initialTotalSeconds s' <= MAX_TIME
  /\ In (EvRelay HIGH) (out s')
  /\ (ULong.sub (millis (t_tick e)) (millis (t_start e)) < 1000 ->
      timer_state s' = Some Counting /\ relay s' = true
      /\ total_seconds s' = initialTotalSeconds s'
      /\ lastCountdownUpdate s' = millis (t_start e)).
Proof.
  intros s'. subst s'.
  destruct (configuring_unpressed e s Hs) as (_ & Hs1 & _).
  assert (Hr1 : reachable (step (unpressed e) s)) by now constructor.
  destruct (reachable_total _ Hr1) as (_ & _ & Ht1 & Hw1).
  rewrite configuring_step_split by exact Hs.
  pose proof (loop_tail_start_full e (step (unpressed e) s) Hs1) as P.
  rewrite accepted_unpressed_state in P by exact Hs.
  specialize (P Ha). cbv zeta in P. rewrite Hw1 in P.
  set (s1 := step (unpressed e) s) in *.
  destruct P as (Hi & _ & _ & _ & _ & P).
  split; [exact Hi|]. split.
  { intros Hm. rewrite Hi. subst s1.
    assert (Hacc : accepted (unpressed e) s = false) by reflexivity.
    destruct (configuring_pass (unpressed e) s Hs Hacc) as (_ & _ & Hst).
    destruct (Hst Hm) as (A & B & _). unfold total_seconds. now rewrite A, B. }
  split; [rewrite Hi; exact Ht1|].
  split.
  { destruct (1000 <=? _);
      [destruct ((0 <? seconds s1) || (0 <? minutes s1));
       [destruct P as (_ & _ & _ & P & _)|destruct P as (_ & _ & P & _)]
      |destruct P as (_ & _ & P & _)];
      rewrite P, in_app_iff; cbn [In]; tauto. }
  intros Hlt. apply Z.ltb_lt in Hlt. rewrite Z.ltb_antisym in Hlt.
  apply negb_true_iff in Hlt. rewrite Hlt in P.
  destruct P as (A & B & _ & C & D & E).
  repeat split; try assumption.
  unfold total_seconds at 1. rewrite C, D, Hi. reflexivity.
Qed.

(** X2: the snapshot taken when a countdown starts.  An accepted press
    while Configuring sets [initialTotalSeconds] to the duration as the
    same pass has just adjusted it (the duration before the pass when the
    encoder did not move), a value within [0, MAX_TIME]; the relay is
    written high; and unless 1000 ms pass between lines 195 and 204 the
    timer is Counting with that full duration left and the relay high. *)
Theorem start_snapshot (s : State) (e : Env)
  (Hr : reachable s)
  (Hs : timer_state s = Some Configuring)
  (Ha : accepted e s = true) :
  let s' := step e s in
  initialTotalSeconds s' = total_seconds (step (unpressed e) s)
  /\ (moved e s = false -> initialTotalSeconds s' = total_seconds s)
  /\ 0 <= initialTotalSeconds s' <= MAX_TIME
  /\ In (EvRelay HIGH) (out s')
  /\ (ULong.sub (millis (t_tick e)) (millis (t_start e)) < 1000 ->
      timer_state s' = Some Counting /\ relay s' = true
      /\ total_seconds s' = initialTotalSeconds s'
      /\ lastCountdownUpdate s' = millis (t_start e)).
Proof. exact (start_pass_snapshot s e Hr Hs Ha). Qed.

Lemma start_snapshot_witness :
  reachable at_0_06
  /\ timer_state at_0_06 = Some Configuring
  /\ accepted (press 2000) at_0_06 = true
  /\ initialTotalSeconds (step (press 2000) at_0_06)
     = total_seconds (step (unpressed (press 2000)) at_0_06).
Proof.
  assert (R : reachable at_0_06) by (apply reachable_run, reach_setup).
  assert (Hs : timer_state at_0_06 = Some Configuring) by (vm_compute; reflexivity).
  assert (Ha : accepted (press 2000) at_0_06 = true) by (vm_compute; reflexivity).
  split; [exact R|]. split; [exact Hs|]. split; [exact Ha|].
  destruct (start_snapshot at_0_06 (press 2000) R Hs Ha) as (A & _).
  exact A.
Defined.

(** ** The countdown *)

Lemma decremented_total (s : State) :
  0 <= seconds s <= 59 -> 0 <= minutes s <= 30 -> 0 < total_seconds s ->
  let (m, sec) := decremented s in
  m * 60 + sec = total_seconds s - 1 /\ 0 <= sec <= 59 /\ 0 <= m <= 30.
Proof.
  intros Hsec Hmin Hpos. unfold decremented, total_seconds in *.
  destruct (seconds s =? 0) eqn:E;
    [apply Z.eqb_eq in E|apply Z.eqb_neq in E];
    unfold Int16.sub;
    rewrite Int16_wrap_small
      by (unfold Int16.in_range, Int16.min_signed, Int16.max_signed; lia);
    lia.
Qed.

Lemma positive_total (s : State) :
  0 <= seconds s -> 0 <= minutes s ->
  (0 <? seconds s) || (0 <? minutes s) = true <-> 0 < total_seconds s.
Proof.
  intros Hsec Hmin. unfold total_seconds.
  rewrite orb_true_iff, !Z.ltb_lt. lia.
Qed.

(** What one pass does to the remaining time. *)
Lemma counting_tick (s : State) (e : Env)
  (Hr : reachable s) (Hs : timer_state s = Some Counting) :
  let s' := step e s in
  let due := 1000 <=? ULong.sub (millis (t_tick e)) (lastCountdownUpdate s) in
  total_seconds s' <= total_seconds s
  /\ (accepted e s = false -> due = true -> 0 < total_seconds s ->
      total_seconds s' = total_seconds s - 1
      /\ 0 <= seconds s' <= 59
      /\ (seconds s = 0 -> seconds s' = 59 /\ minutes s' = minutes s - 1)
      /\ timer_state s' = Some Counting /\ relay s' = true)
  /\ (accepted e s = false -> due = false ->
      total_seconds s' = total_seconds s /\ timer_state s' = Some Counting)
  /\ (timer_state s' = Some Finished ->
      total_seconds s = 0 /\ total_seconds s' = 0).
Proof.
  intros s' due. subst s' due.
  destruct (reachable_total s Hr) as (Hsec & Hmin & Htot & _).
  pose proof (relay_of_counting s Hr Hs) as Hrel.
  pose proof (counting_pass e s Hs) as P. cbv zeta in P.
  pose proof (decremented_total s Hsec Hmin) as Hdec.
  destruct (accepted e s).
  { destruct P as (A & _ & _ & B & C & _).
    unfold total_seconds at 1 3 5 7 9. rewrite B, C. fold (total_seconds s).
    split; [lia|]. split; [intros H; discriminate|].
    split; [intros H; discriminate|].
    intros H. rewrite A in H. discriminate. }
  destruct (1000 <=? _).
  - destruct ((0 <? seconds s) || (0 <? minutes s)) eqn:Epos.
    + assert (Epos' : 0 < total_seconds s)
        by (apply (positive_total s); [lia|lia|exact Epos]).
      specialize (Hdec Epos').
      destruct P as (A & B & C & _).
      destruct (decremented s) as [m sec] eqn:Ed.
      injection C as Cm Cs. destruct Hdec as (D1 & D2 & D3).
      assert (T : total_seconds (step e s) = total_seconds s - 1)
        by (unfold total_seconds at 1; rewrite Cm, Cs; exact D1).
      split; [lia|]. split.
      { intros _ _ _. split; [exact T|]. split; [rewrite Cs; exact D2|].
        split; [|split; [exact A|congruence]].
        intros Hz. unfold decremented in Ed. rewrite Hz in Ed.
        cbn [Z.eqb] in Ed. injection Ed as Em Es.
        unfold Int16.sub in Em.
        rewrite Int16_wrap_small in Em
          by (unfold Int16.in_range, Int16.min_signed, Int16.max_signed; lia).
        split; congruence. }
      split; [intros _ H; discriminate|].
      intros H. rewrite A in H. discriminate.
    + assert (Hz : total_seconds s = 0).
      { destruct (Z.eq_dec (total_seconds s) 0) as [|Hn]; [assumption|].
        assert (Hp : 0 < total_seconds s) by lia.
        apply (positive_total s) in Hp; [congruence|lia|lia]. }
      destruct P as (A & _ & _ & B & C).
      assert (T : total_seconds (step e s) = total_seconds s)
        by (unfold total_seconds; now rewrite B, C).
      split; [lia|]. split; [intros _ _ Hp; lia|].
      split; [intros _ H; discriminate|].
      intros _. split; [exact Hz|]. now rewrite T.
  - destruct P as (A & _ & _ & B & C & _).
    assert (T : total_seconds (step e s) = total_seconds s)
      by (unfold total_seconds; now rewrite B, C).
    split; [lia|]. split; [intros _ H; discriminate|].
    split; [intros _ _; split; assumption|].
    intros H. rewrite A in H. discriminate.
Qed.

(** X3: while Counting, a pass never increases the remaining time.  A
    pass with the button not accepted that comes 1000 ms or more after
    the last tick takes exactly one second off a remaining time above
    zero, borrowing from the minutes when the seconds are at 0, and the
    timer stays Counting with the relay high; a pass that comes sooner
    leaves the remaining time alone.  Finished is only entered from a
    remaining time of exactly 0:00. *)
Theorem tick_takes_one_second (s : State) (e : Env)
  (Hr : reachable s) (Hs : timer_state s = Some Counting) :
  let s' := step e s in
  let due := 1000 <=? ULong.sub (millis (t_tick e)) (lastCountdownUpdate s) in
  total_seconds s' <= total_seconds s
  /\ (accepted e s = false -> due = true -> 0 < total_seconds s ->
      total_seconds s' = total_seconds s - 1
      /\ 0 <= seconds s' <= 59
      /\ (seconds s = 0 -> seconds s' = 59 /\ minutes s' = minutes s - 1)
      /\ timer_state s' = Some Counting /\ relay s' = true)
  /\ (accepted e s = false -> due = false ->
      total_seconds s' = total_seconds s /\ timer_state s' = Some Counting)
  /\ (timer_state s' = Some Finished ->
      total_seconds s = 0 /\ total_seconds s' = 0).
Proof. exact (counting_tick s e Hr Hs). Qed.

Lemma tick_takes_one_second_witness :
  reachable counting_at_0_10
  /\ timer_state counting_at_0_10 = Some Counting
  /\ total_seconds (step (idle 7000) counting_at_0_10)
     <= total_seconds counting_at_0_10.
Proof.
  assert (R : reachable counting_at_0_10) by (apply reachable_run, reach_setup).
  assert (Hs : timer_state counting_at_0_10 = Some Counting)
    by (vm_compute; reflexivity).
  split; [exact R|]. split; [exact Hs|].
  destruct (tick_takes_one_second counting_at_0_10 (idle 7000) R Hs) as (A & _).
  exact A.
Defined.

(** X4: a countdown runs out.  From Counting with N seconds left, N + 1
    passes that each come 1000 ms or more after the previous tick, with
    the button never accepted, end in Finished with the relay low and the
    alarm played; after any smaller number k of them the timer is still
    Counting, the relay is still high and N - k seconds are left. *)
Theorem countdown_runs_out (es : list Env) (s : State)
  (Hr : reachable s) (Hs : timer_state s = Some Counting)
  (Ht : ticking es s)
  (Hn : Z.of_nat (List.length es) = total_seconds s + 1) :
  timer_state (run es s) = Some Finished
  /\ relay (run es s) = false
  /\ In (EvTone MelAlarm) (out (run es s))
  /\ forall es1 es2, es = es1 ++ es2 -> es2 <> [] ->
       timer_state (run es1 s) = Some Counting
       /\ relay (run es1 s) = true
       /\ total_seconds (run es1 s) = total_seconds s - Z.of_nat (List.length es1).
Proof.
  revert s Hr Hs Ht Hn. induction es as [|e es IH]; intros s Hr Hs Ht Hn.
  { destruct (reachable_total s Hr) as (_ & _ & Htot & _). cbn in Hn. lia. }
  destruct Ht as (Ha & Hdue & Ht).
  destruct (reachable_total s Hr) as (Hsec & Hmin & Htot & _).
  pose proof (relay_of_counting s Hr Hs) as Hrel.
  change (List.length (e :: es)) with (S (List.length es)) in Hn.
  change (run (e :: es) s) with (run es (step e s)).
  assert (Hr' : reachable (step e s)) by now constructor.
  destruct (Z.eq_dec (total_seconds s) 0) as [Hz|Hnz].
  - (* the last pass: 0:00 left, the tick finishes *)
    assert (Hes : es = []) by (destruct es; [reflexivity|cbn in Hn; lia]).
    subst es. cbn [run fold_left].
    pose proof (counting_pass e s Hs) as P. cbv zeta in P.
    rewrite Ha in P. apply Z.leb_le in Hdue. rewrite Hdue in P.
    assert (Epos : (0 <? seconds s) || (0 <? minutes s) = false).
    { destruct ((0 <? seconds s) || (0 <? minutes s)) eqn:E; [|reflexivity].
      apply positive_total in E; lia. }
    rewrite Epos in P. destruct P as (A & B & C & _).
    split; [exact A|]. split; [exact B|].
    split; [rewrite C, in_app_iff; cbn [In]; tauto|].
    intros es1 es2 Hsplit Hne.
    destruct es1 as [|x es1].
    + cbn [run fold_left List.length]. repeat split; try assumption. cbn. lia.
    + exfalso. destruct es1; [|discriminate].
      cbn in Hsplit. injection Hsplit as _ Hsplit. congruence.
  - (* a tick with time left *)
    destruct (counting_tick s e Hr Hs) as (_ & Htick & _).
    apply Z.leb_le in Hdue.
    destruct (Htick Ha Hdue ltac:(lia)) as (T & _ & _ & Hs' & Hrel').
    apply Z.leb_le in Hdue.
    destruct (IH (step e s) Hr' Hs' Ht ltac:(lia)) as (A & B & C & D).
    split; [exact A|]. split; [exact B|]. split; [exact C|].
    intros es1 es2 Hsplit Hne.
    destruct es1 as [|x es1].
    + cbn [run fold_left List.length]. repeat split; try assumption. cbn. lia.
    + cbn in Hsplit. injection Hsplit as <- Hsplit.
      change (run (e :: es1) s) with (run es1 (step e s)).
      destruct (D es1 es2 Hsplit Hne) as (D1 & D2 & D3).
      split; [exact D1|]. split; [exact D2|].
      rewrite D3, T. change (List.length (e :: es1)) with (S (List.length es1)). lia.
Qed.

Lemma countdown_runs_out_witness :
  reachable counting_at_0_01
  /\ timer_state counting_at_0_01 = Some Counting
  /\ ticking [idle 2000; idle 3000] counting_at_0_01
  /\ Z.of_nat (List.length [idle 2000; idle 3000])
     = total_seconds counting_at_0_01 + 1
  /\ timer_state (run [idle 2000; idle 3000] counting_at_0_01) = Some Finished.
Proof.
  assert (R : reachable counting_at_0_01) by (apply reachable_run, reach_setup).
  assert (Hs : timer_state counting_at_0_01 = Some Counting)
    by (vm_compute; reflexivity).
  assert (Ht : ticking [idle 2000; idle 3000] counting_at_0_01).
  { cbn [ticking]. repeat split; try (vm_compute; reflexivity);
      vm_compute; discriminate. }
  assert (Hn : Z.of_nat (List.length [idle 2000; idle 3000])
               = total_seconds counting_at_0_01 + 1)
    by (vm_compute; reflexivity).
  split; [exact R|]. split; [exact Hs|]. split; [exact Ht|]. split; [exact Hn|].
  destruct (countdown_runs_out [idle 2000; idle 3000] counting_at_0_01 R Hs Ht Hn)
    as (A & _).
  exact A.
Defined.

(** ** The state machine *)

(** The transitions of one step, by whether the press was accepted. *)
Lemma step_transitions (s : State) (e : Env) :
  match timer_state s with
  | None => timer_state (step e s) = None
  | Some Configuring =>
      if accepted e s
      then timer_state (step e s) = Some Counting
           \/ timer_state (step e s) = Some Finished
      else timer_state (step e s) = Some Configuring
  | Some Counting =>
      if accepted e s
      then timer_state (step e s) = Some Aborted
      else timer_state (step e s) = Some Counting
           \/ timer_state (step e s) = Some Finished
  | Some Finished =>
      if accepted e s
      then timer_state (step e s) = Some Configuring
      else timer_state (step e s) = Some Finished
  | Some Aborted =>
      if accepted e s
      then timer_state (step e s) = Some Configuring
      else timer_state (step e s) = Some Aborted
  end.
Proof.
  destruct (timer_state s) as [[| | |]|] eqn:Hs.
  - destruct (accepted e s) eqn:Ha.
    + rewrite configuring_step_split by exact Hs.
      destruct (configuring_unpressed e s Hs) as (_ & Hs1 & _).
      pose proof (loop_tail_start_full e (step (unpressed e) s) Hs1) as P.
      rewrite accepted_unpressed_state in P by exact Hs.
      specialize (P Ha). cbv zeta in P.
      destruct P as (_ & _ & _ & _ & _ & P).
      destruct (1000 <=? _);
        [destruct ((0 <? _) || (0 <? _))|]; destruct P as (P & _); auto.
    + apply (configuring_pass e s Hs Ha).
  - pose proof (counting_pass e s Hs) as P. cbv zeta in P.
    destruct (accepted e s); [apply P|].
    destruct (1000 <=? _);
      [destruct ((0 <? _) || (0 <? _))|]; destruct P as (P & _); auto.
  - pose proof (wait_poll e s (or_introl (finished_pc s Hs))) as P.
    cbv zeta in P. destruct (accepted e s); destruct P as (P & _);
      [exact P|congruence].
  - pose proof (wait_poll e s (or_intror (aborted_pc s Hs))) as P.
    cbv zeta in P. destruct (accepted e s); destruct P as (P & _);
      [exact P|congruence].
  - unfold timer_state in *. destruct (pc s) eqn:Hpc; try discriminate.
    unfold step. rewrite Hpc, interrupts_frame. fields. now rewrite Hpc.
Qed.

(** X5: the transitions of the timer.  Configuring is left only by an
    accepted press, towards Counting (or straight to Finished when the
    first tick is already due and nothing is left).  Counting goes to
    Aborted on an accepted press and otherwise stays or goes to Finished.
    Finished and Aborted are left only by an accepted press, and always
    towards Configuring: the acknowledging press never starts a new
    countdown.  A halted sketch stays halted. *)
Theorem timer_transitions (s : State) (e : Env) :
  match timer_state s with
  | None => timer_state (step e s) = None
  | Some Configuring =>
      if accepted e s
      then timer_state (step e s) = Some Counting
           \/ timer_state (step e s) = Some Finished
      else timer_state (step e s) = Some Configuring
  | Some Counting =>
      if accepted e s
      then timer_state (step e s) = Some Aborted
      else timer_state (step e s) = Some Counting
           \/ timer_state (step e s) = Some Finished
  | Some Finished =>
      if accepted e s
      then timer_state (step e s) = Some Configuring
      else timer_state (step e s) = Some Finished
  | Some Aborted =>
      if accepted e s
      then timer_state (step e s) = Some Configuring
      else timer_state (step e s) = Some Aborted
  end.
Proof. exact (step_transitions s e). Qed.

(** ** The configuration store *)

Lemma loop_tail_eeprom (e : Env) (s : State) :
  eeprom (loop_tail e s) = eeprom s.
Proof.
  unfold loop_tail, loop_button. rewrite isButtonPressed_spec.
  destruct (andb _ _); fields.
  - destruct (negb (countdownStarted s)); fields.
    + destruct (pc s); try reflexivity.
      unfold loop_countdown. fields.
      destruct (1000 <=? _); [|reflexivity]. fields.
      destruct ((0 <? seconds s) || (0 <? minutes s)).
      * unfold updateDisplay. destruct (seconds s =? 0); reflexivity.
      * reflexivity.
    + reflexivity.
  - destruct (pc s); try reflexivity.
    unfold loop_countdown. destruct (countdownStarted s); [|reflexivity].
    destruct (1000 <=? _); [|reflexivity]. fields.
    destruct ((0 <? seconds s) || (0 <? minutes s)).
    + unfold updateDisplay. destruct (seconds s =? 0); reflexivity.
    + reflexivity.
Qed.

Lemma step_eeprom_unpressed (e : Env) (s : State) :
  eeprom (step e s) = eeprom (step (unpressed e) s).
Proof.
  unfold step. destruct (pc s) eqn:Hpc.
  - reflexivity.
  - rewrite !loop_split, !loop_tail_eeprom. reflexivity.
  - unfold countdownFinished_poll. rewrite !isButtonPressed_spec.
    rewrite (interrupts_frame (irq_top e) s), (interrupts_frame (irq_top (unpressed e)) s).
    fields. destruct (andb _ _); reflexivity.
  - unfold abortCountdown_poll. rewrite !isButtonPressed_spec.
    rewrite (interrupts_frame (irq_top e) s), (interrupts_frame (irq_top (unpressed e)) s).
    fields. destruct (andb _ _); reflexivity.
Qed.

Lemma step_eeprom_frame (e : Env) (s : State) :
  timer_state s <> Some Configuring \/ moved e s = false ->
  eeprom (step e s) = eeprom s.
Proof.
  intros H. rewrite step_eeprom_unpressed.
  destruct (timer_state s) as [[| | |]|] eqn:Hs.
  - destruct H as [H|H]; [congruence|].
    assert (Ha : accepted (unpressed e) s = false) by reflexivity.
    destruct (configuring_pass (unpressed e) s Hs Ha) as (_ & _ & Hst).
    now destruct (Hst H) as (_ & _ & E & _).
  - unfold step. apply counting_iff in Hs. destruct Hs as [Hpc Hc].
    rewrite Hpc, loop_split, loop_tail_eeprom.
    rewrite loop_encoder_counting by (rewrite at_line165_frame; exact Hc).
    rewrite at_line165_frame. reflexivity.
  - unfold step. rewrite (finished_pc s Hs).
    unfold countdownFinished_poll. rewrite isButtonPressed_spec.
    rewrite interrupts_frame. fields. destruct (andb _ _); reflexivity.
  - unfold step. rewrite (aborted_pc s Hs).
    unfold abortCountdown_poll. rewrite isButtonPressed_spec.
    rewrite interrupts_frame. fields. destruct (andb _ _); reflexivity.
  - unfold timer_state in Hs. destruct (pc s) eqn:Hpc; try discriminate.
    unfold step. rewrite Hpc, interrupts_frame. reflexivity.
Qed.

(** Which steps write the EEPROM, and what. *)
Lemma step_eeprom_write (s : State) (e : Env) :
  (timer_state s <> Some Configuring \/ moved e s = false ->
   eeprom (step e s) = eeprom s)
  /\ (timer_state s = Some Configuring -> moved e s = true ->
      let t := total_seconds (step (unpressed e) s) in
      eeprom (step e s) = EEPROM.put EEPROM_ADDRESS t (eeprom s)
      /\ EEPROM.get EEPROM_ADDRESS (eeprom (step e s)) = t
      /\ MIN_TIME <= t <= MAX_TIME).
Proof.
  split; [apply step_eeprom_frame|].
  intros Hs Hm t.
  assert (Ha : accepted (unpressed e) s = false) by reflexivity.
  destruct (configuring_pass (unpressed e) s Hs Ha) as (_ & Hmv & _).
  destruct (Hmv Hm) as (_ & _ & Ht & Hrom & _).
  fold t in Ht.
  assert (Hr : MIN_TIME <= t <= MAX_TIME).
  { rewrite Ht. apply constrain_bounds. unfold MIN_TIME, MAX_TIME. lia. }
  rewrite step_eeprom_unpressed, Hrom, <- Ht.
  split; [reflexivity|]. split; [|exact Hr].
  apply EEPROM_get_put.
  unfold Int16.in_range, Int16.min_signed, Int16.max_signed, MIN_TIME, MAX_TIME in *.
  lia.
Qed.

(** X6: the EEPROM is written by an adjustment and by nothing else.  A
    pass or poll outside Configuring, and a Configuring pass that sees no
    change of position, leave every cell as it was: ticks, abort, finish
    and acknowledge never save.  A Configuring pass that sees the
    position changed stores the duration it has just computed, a value
    within [MIN_TIME, MAX_TIME], also when the same pass goes on to start
    the countdown. *)
Theorem eeprom_written_by_adjustment_only (s : State) (e : Env) :
  (timer_state s <> Some Configuring \/ moved e s = false ->
   eeprom (step e s) = eeprom s)
  /\ (timer_state s = Some Configuring -> moved e s = true ->
      let t := total_seconds (step (unpressed e) s) in
      eeprom (step e s) = EEPROM.put EEPROM_ADDRESS t (eeprom s)
      /\ EEPROM.get EEPROM_ADDRESS (eeprom (step e s)) = t
      /\ MIN_TIME <= t <= MAX_TIME).
Proof. exact (step_eeprom_write s e). Qed.

Lemma EEPROM_put_other (a v a' : Z) (m : EEPROM.t) :
  a' <> a -> a' <> a + 1 -> EEPROM.put a v m a' = m a'.
Proof.
  intros H1 H2. unfold EEPROM.put, EEPROM.write.
  apply Z.eqb_neq in H1, H2. now rewrite H2, H1.
Qed.

Lemma EEPROM_put_bytes (a v : Z) (m : EEPROM.t) :
  0 <= EEPROM.put a v m a < 256 /\ 0 <= EEPROM.put a v m (a + 1) < 256.
Proof.
  unfold EEPROM.put, EEPROM.write.
  rewrite Z.eqb_refl.
  replace (a =? a + 1) with false by (symmetry; apply Z.eqb_neq; lia).
  rewrite Z.eqb_refl.
  split; apply Z.mod_pos_bound; lia.
Qed.

(** X7: whatever the sketch is fed after [setup()], it never writes an
    EEPROM cell other than the two at EEPROM_ADDRESS, and as soon as it
    has written them they hold two bytes that read back as a duration
    within [MIN_TIME, MAX_TIME]: a later [setup()] never has to fall back
    on the default because of what the sketch itself stored. *)
Theorem eeprom_stays_valid (es : list Env) (display_ok : bool) (rom : EEPROM.t) :
  let s := run es (setup display_ok rom) in
  (forall a, a <> EEPROM_ADDRESS -> a <> EEPROM_ADDRESS + 1 -> eeprom s a = rom a)
  /\ (eeprom s = rom
      \/ (MIN_TIME <= EEPROM.get EEPROM_ADDRESS (eeprom s) <= MAX_TIME
          /\ 0 <= eeprom s EEPROM_ADDRESS < 256
          /\ 0 <= eeprom s (EEPROM_ADDRESS + 1) < 256
          /\ total_seconds (setup true (eeprom s))
             = EEPROM.get EEPROM_ADDRESS (eeprom s))).
Proof.
  cbv zeta.
  assert (H0 : eeprom (setup display_ok rom) = rom).
  { unfold setup. destruct display_ok; cbn [negb]; fields;
      [rewrite loadLastConfiguration_frame|]; reflexivity. }
  set (P := fun st : State =>
    (forall a, a <> EEPROM_ADDRESS -> a <> EEPROM_ADDRESS + 1 -> eeprom st a = rom a)
    /\ (eeprom st = rom
        \/ (MIN_TIME <= EEPROM.get EEPROM_ADDRESS (eeprom st) <= MAX_TIME
            /\ 0 <= eeprom st EEPROM_ADDRESS < 256
            /\ 0 <= eeprom st (EEPROM_ADDRESS + 1) < 256
            /\ total_seconds (setup true (eeprom st))
               = EEPROM.get EEPROM_ADDRESS (eeprom st)))).
  assert (Hinit : P (setup display_ok rom)).
  { unfold P. split; [intros; now rewrite H0|left; exact H0]. }
  assert (Hstep : forall e st, P st -> P (step e st)).
  { unfold P. intros e st [Hcells Hval].
    destruct (step_eeprom_write st e) as [Hsame Hput].
    destruct (timer_state st) as [[| | |]|] eqn:Hs;
      try (rewrite Hsame by (left; congruence); split; assumption).
    destruct (moved e st) eqn:Hm;
      [|rewrite Hsame by (right; reflexivity); split; assumption].
    destruct (Hput eq_refl eq_refl) as (Hrom & Hget & Hr).
    split.
    - intros a Ha1 Ha2. rewrite Hrom, EEPROM_put_other by assumption. now apply Hcells.
    - right. split; [rewrite Hget; exact Hr|].
      destruct (EEPROM_put_bytes EEPROM_ADDRESS
                  (total_seconds (step (unpressed e) st)) (eeprom st)) as [B0 B1].
      rewrite <- Hrom in B0, B1.
      split; [exact B0|]. split; [exact B1|].
      destruct (loadLastConfiguration_valid (power_on (eeprom (step e st))))
        as [Lm Ls].
      { cbv zeta. unfold power_on. fields. rewrite Hget. exact Hr. }
      unfold power_on in Lm, Ls. fields. rewrite Hget in Lm, Ls.
      unfold setup, total_seconds at 1. cbn [negb]. fields.
      unfold power_on. rewrite Lm, Ls, Hget.
      apply (split_duration (total_seconds (step (unpressed e) st))).
      unfold MIN_TIME in Hr. lia. }
  clear H0. revert Hinit. generalize (setup display_ok rom).
  induction es as [|e es IH]; intros st Hst; [exact Hst|].
  change (run (e :: es) st) with (run es (step e st)).
  apply IH. now apply Hstep.
Qed.

(** ** The clock *)

Lemma ULong_elapsed (t0 d : Z) :
  0 <= d < ULong.modulus -> ULong.sub (millis (t0 + d)) (millis t0) = d.
Proof.
  intros Hd. unfold ULong.sub, millis, ULong.wrap, ULong.modulus in *.
  rewrite <- Zminus_mod.
  replace (t0 + d - t0) with d by lia.
  apply Z.mod_small. lia.
Qed.

(** X8: the three time comparisons of the sketch are made on differences
    of [unsigned long] readings, so they see the time that has really
    passed (as long as it is below 2^32 ms) also when [millis()] has
    rolled over in between: the debounce accepts exactly after more than
    DEBOUNCE_DELAY ms, the countdown ticks exactly after 1000 ms or more,
    and a rotation is fast exactly below FAST_THRESHOLD ms. *)
Theorem clock_rollover_harmless (s : State) (e : Env) (t0 d : Z)
  (Hd : 0 <= d < ULong.modulus) :
  (forall level t_stamp,
      lastButtonPress s = millis t0 ->
      (fst (isButtonPressed level (t0 + d) t_stamp s) = true
       <-> level = LOW /\ DEBOUNCE_DELAY < d))
  /\ (timer_state s = Some Counting ->
      lastCountdownUpdate s = millis t0 -> t_tick e = t0 + d ->
      accepted e s = false ->
      (d < 1000 ->
         timer_state (step e s) = Some Counting
         /\ minutes (step e s) = minutes s /\ seconds (step e s) = seconds s
         /\ lastCountdownUpdate (step e s) = millis t0)
      /\ (1000 <= d ->
         timer_state (step e s) = Some Finished
         \/ (minutes (step e s), seconds (step e s)) = decremented s))
  /\ (lastEncoderChange s = millis t0 -> t_enc e = t0 + d ->
      increment e s = if d <? FAST_THRESHOLD then 10 else 1).
Proof.
  pose proof (ULong_elapsed t0 d Hd) as E.
  split; [|split].
  - intros level t_stamp Hl. rewrite isButtonPressed_spec. cbn [fst].
    rewrite Hl, E, andb_true_iff, Z.ltb_lt. unfold LOW.
    destruct level; cbn [Bool.eqb]; intuition discriminate.
  - intros Hs Hl Ht Ha.
    pose proof (counting_pass e s Hs) as P. cbv zeta in P.
    rewrite Ha, Hl, Ht, E in P.
    split; intros Hc.
    + apply Z.leb_gt in Hc. rewrite Hc in P.
      destruct P as (A & _ & _ & B & C & D). auto.
    + apply Z.leb_le in Hc. rewrite Hc in P.
      destruct ((0 <? seconds s) || (0 <? minutes s)).
      * right. apply P.
      * left. apply P.
  - intros Hl Ht. unfold increment. now rewrite Hl, Ht, E.
Qed.

Lemma clock_rollover_harmless_witness :
  0 <= 301 < ULong.modulus
  /\ lastButtonPress (set_lastButtonPress (millis 4294967195) at_0_06)
     = millis 4294967195
  /\ millis (4294967195 + 301) = 200
  /\ fst (isButtonPressed LOW (4294967195 + 301) 0
            (set_lastButtonPress (millis 4294967195) at_0_06)) = true.
Proof.
  assert (Hd : 0 <= 301 < ULong.modulus) by (unfold ULong.modulus; lia).
  split; [exact Hd|]. split; [reflexivity|]. split; [vm_compute; reflexivity|].
  destruct (clock_rollover_harmless
              (set_lastButtonPress (millis 4294967195) at_0_06)
              (idle 0) 4294967195 301 Hd) as (A & _).
  apply (A LOW 0 eq_refl).
  split; [reflexivity|unfold DEBOUNCE_DELAY; lia].
Defined.

(** ** The progress bar *)

Lemma bar_ok_render (b : bool) (m sec d x : Z) :
  x = m * 60 + sec -> 0 <= x <= d -> 1 <= d <= MAX_TIME ->
  (b = false -> d = MAX_TIME) ->
  bar_ok (EvRender b m sec d (arduino_map x 0 d 0 SCREEN_WIDTH)).
Proof.
  intros Hx Hr Hd Hb. cbn [bar_ok]. rewrite <- Hx.
  split; [exact Hr|]. split; [exact Hd|]. split; [exact Hb|].
  unfold arduino_map. rewrite !Z.sub_0_r, Z.add_0_r.
  replace (d =? 0) with false by (symmetry; apply Z.eqb_neq; lia).
  unfold SCREEN_WIDTH. rewrite Z.quot_div_nonneg by lia. reflexivity.
Qed.

Lemma bar_ok_render_int (b : bool) (m sec d : Z) :
  0 <= sec <= 59 -> 0 <= m <= 30 -> m * 60 + sec <= d -> 1 <= d <= MAX_TIME ->
  (b = false -> d = MAX_TIME) ->
  bar_ok (EvRender b m sec d
            (arduino_map (Int16.add (Int16.mul m 60) sec) 0 d 0 SCREEN_WIDTH)).
Proof.
  intros Hsec Hm Hle Hd Hb.
  rewrite Int16_total, Int16_wrap_small
    by (unfold Int16.in_range, Int16.min_signed, Int16.max_signed; lia).
  apply bar_ok_render; [reflexivity|lia|assumption|assumption].
Qed.

(** Every event that one step adds keeps the bar within the screen. *)
Lemma step_adds_good_bars (s : State) (e : Env) :
  reachable s ->
  exists l, out (step e s) = out s ++ l /\ forall ev, In ev l -> bar_ok ev.
Proof.
  intros Hr.
  assert (Hcfg : forall e0 st, reachable st -> timer_state st = Some Configuring ->
            accepted e0 st = false ->
            exists l, out (step e0 st) = out st ++ l
                      /\ forall ev, In ev l -> bar_ok ev).
  { intros e0 st Hrst Hs Ha.
    destruct (configuring_pass e0 st Hs Ha) as (_ & Hmv & Hst).
    destruct (moved e0 st).
    - destruct (Hmv eq_refl) as (_ & _ & _ & _ & Ho & _).
      eexists. split; [exact Ho|].
      match type of Ho with
      | context [constrain ?x MIN_TIME MAX_TIME] =>
          pose proof (constrain_bounds x MIN_TIME MAX_TIME
                        ltac:(unfold MIN_TIME, MAX_TIME; lia)) as Hc;
          set (t := constrain x MIN_TIME MAX_TIME) in *; clearbody t
      end.
      destruct (split_duration t ltac:(unfold MIN_TIME in *; lia)) as (Hq & Hrem & Hsp).
      intros ev [<-|[<-|[]]]; [|exact I].
      apply bar_ok_render; auto; unfold MIN_TIME, MAX_TIME in *; lia.
    - destruct (Hst eq_refl) as (_ & _ & _ & Ho & _).
      exists []. rewrite app_nil_r. split; [exact Ho|]. intros ev []. }
  assert (Htick : forall st m' s' init,
            0 <= seconds st <= 59 -> 0 <= minutes st <= 30 ->
            total_seconds st <= init -> init <= MAX_TIME ->
            (0 <? seconds st) || (0 <? minutes st) = true ->
            (m', s') = decremented st ->
            bar_ok (EvRender true m' s' init
                      (arduino_map (Int16.add (Int16.mul m' 60) s') 0 init 0
                                   SCREEN_WIDTH))).
  { intros st m' s' init Hsec Hmin Hle Hcap Epos Hd.
    apply (positive_total st) in Epos; [|lia|lia].
    pose proof (decremented_total st Hsec Hmin Epos) as D.
    rewrite <- Hd in D. destruct D as (D1 & D2 & D3).
    apply bar_ok_render_int; try assumption; try lia; discriminate. }
  pose proof (reachable_inv s Hr) as Iv.
  destruct (reachable_total s Hr) as (Hsec & Hmin & Htot & _).
  destruct (timer_state s) as [[| | |]|] eqn:Hs.
  - (* Configuring *)
    destruct (accepted e s) eqn:Ha; [|now apply Hcfg].
    assert (Ha0 : accepted (unpressed e) s = false) by reflexivity.
    destruct (Hcfg (unpressed e) s Hr Hs Ha0) as (l1 & Ho1 & Hl1).
    destruct (configuring_unpressed e s Hs) as (_ & Hs1 & _).
    assert (Hr1 : reachable (step (unpressed e) s)) by now constructor.
    destruct (reachable_total _ Hr1) as (Hsec1 & Hmin1 & Htot1 & Hw1).
    rewrite configuring_step_split by exact Hs.
    pose proof (loop_tail_start_full e (step (unpressed e) s) Hs1) as P.
    rewrite accepted_unpressed_state in P by exact Hs.
    specialize (P Ha). cbv zeta in P. rewrite Hw1 in P.
    set (s1 := step (unpressed e) s) in *.
    destruct P as (_ & _ & _ & _ & _ & P).
    destruct (1000 <=? _);
      [destruct ((0 <? seconds s1) || (0 <? minutes s1)) eqn:Epos|].
    + destruct P as (_ & _ & Hd & Ho & _).
      eexists. split; [rewrite Ho, Ho1, <- app_assoc; reflexivity|].
      intros ev Hin. apply in_app_or in Hin. destruct Hin as [Hin|Hin]; [auto|].
      destruct Hin as [<-|[<-|[]]]; [exact I|].
      apply (Htick s1); try assumption; lia.
    + destruct P as (_ & _ & Ho & _).
      eexists. split; [rewrite Ho, Ho1, <- app_assoc; reflexivity|].
      intros ev Hin. apply in_app_or in Hin. destruct Hin as [Hin|Hin]; [auto|].
      destruct Hin as [<-|[<-|[<-|[<-|[]]]]]; exact I.
    + destruct P as (_ & _ & Ho & _).
      eexists. split; [rewrite Ho, Ho1, <- app_assoc; reflexivity|].
      intros ev Hin. apply in_app_or in Hin. destruct Hin as [Hin|Hin]; [auto|].
      destruct Hin as [<-|[]]; exact I.
  - (* Counting *)
    pose proof Hs as Hc. apply counting_iff in Hc. destruct Hc as [_ Hc].
    pose proof (inv_init s Iv Hc) as Hinit.
    pose proof (counting_pass e s Hs) as P. cbv zeta in P.
    destruct (accepted e s).
    + destruct P as (_ & _ & Ho & _). eexists. split; [exact Ho|].
      intros ev [<-|[<-|[<-|[]]]]; exact I.
    + destruct (1000 <=? _);
        [destruct ((0 <? seconds s) || (0 <? minutes s)) eqn:Epos|].
      * destruct P as (_ & _ & Hd & Ho & _). eexists. split; [exact Ho|].
        intros ev [<-|[]]. apply (Htick s); try assumption; lia.
      * destruct P as (_ & _ & Ho & _). eexists. split; [exact Ho|].
        intros ev [<-|[<-|[<-|[]]]]; exact I.
      * destruct P as (_ & _ & Ho & _). exists []. rewrite app_nil_r.
        split; [exact Ho|]. intros ev [].
  - (* Finished *)
    pose proof (wait_poll e s (or_introl (finished_pc s Hs))) as P.
    cbv zeta in P. destruct (accepted e s).
    + destruct P as (_ & _ & _ & _ & _ & _ & Ho & _).
      eexists. split; [exact Ho|]. intros ev [<-|[]].
      apply bar_ok_render_int; auto; unfold total_seconds, MAX_TIME in *; lia.
    + destruct P as (_ & _ & _ & _ & _ & _ & Ho).
      exists []. rewrite app_nil_r. split; [exact Ho|]. intros ev [].
  - (* Aborted *)
    pose proof (wait_poll e s (or_intror (aborted_pc s Hs))) as P.
    cbv zeta in P. destruct (accepted e s).
    + destruct P as (_ & _ & _ & _ & _ & _ & Ho & _).
      eexists. split; [exact Ho|]. intros ev [<-|[]].
      apply bar_ok_render_int; auto; unfold total_seconds, MAX_TIME in *; lia.
    + destruct P as (_ & _ & _ & _ & _ & _ & Ho).
      exists []. rewrite app_nil_r. split; [exact Ho|]. intros ev [].
  - (* Halted *)
    unfold timer_state in Hs. destruct (pc s) eqn:Hpc; try discriminate.
    exists []. rewrite app_nil_r. split; [|intros ev []].
    unfold step. rewrite Hpc, interrupts_frame. reflexivity.
Qed.

Lemma reachable_bars (s : State) :
  reachable s -> forall ev, In ev (out s) -> bar_ok ev.
Proof.
  induction 1 as [ok rom|e s Hr IH].
  - unfold setup. destruct ok; cbn [negb]; fields.
    + rewrite loadLastConfiguration_frame. fields. unfold power_on. fields.
      intros ev [<-|[<-|[]]]; exact I.
    + intros ev [].
  - destruct (step_adds_good_bars s e Hr) as (l & Ho & Hl).
    rewrite Ho. intros ev Hin. apply in_app_or in Hin.
    destruct Hin; auto.
Qed.

(** X9: the progress bar always fits the screen.  Every display update
    of every run drew a bar whose width is the time shown, scaled by
    SCREEN_WIDTH over the [in_max] of that update (MAX_TIME while
    Configuring, the duration at start while Counting): a width between 0
    and SCREEN_WIDTH, full exactly when the time shown equals [in_max],
    empty at 0:00. *)
Theorem progress_bar_fits (s : State) (Hr : reachable s) :
  forall started m sec d p,
    In (EvRender started m sec d p) (out s) ->
    exists w,
      p = Some w
      /\ w = (m * 60 + sec) * SCREEN_WIDTH / d
      /\ 0 <= w <= SCREEN_WIDTH
      /\ (w = SCREEN_WIDTH <-> m * 60 + sec = d)
      /\ (m * 60 + sec = 0 -> w = 0)
      /\ (started = false -> d = MAX_TIME).
Proof.
  intros started m sec d p Hin.
  pose proof (reachable_bars s Hr _ Hin) as (Hx & Hd & Hb & Hp).
  set (x := m * 60 + sec) in *. clearbody x.
  exists (x * SCREEN_WIDTH / d). unfold SCREEN_WIDTH in *.
  split; [exact Hp|]. split; [reflexivity|].
  assert (Hlo : 0 <= x * 128 / d) by (apply Z.div_pos; lia).
  assert (Hhi : x * 128 / d <= 128).
  { apply Z.div_le_upper_bound; [lia|]. nia. }
  split; [lia|]. split; [|split; [|exact Hb]].
  - split.
    + intros Hw.
      assert (Hm : d * (x * 128 / d) <= x * 128) by (apply Z.mul_div_le; lia).
      rewrite Hw in Hm. nia.
    + intros ->. replace (d * 128) with (128 * d) by lia.
      apply Z.div_mul. lia.
  - intros ->. reflexivity.
Qed.

Lemma progress_bar_fits_witness :
  reachable counting_at_0_10
  /\ In (EvRender true 0 10 15 (Some 85)) (out counting_at_0_10)
  /\ exists w, Some 85 = Some w /\ w = (0 * 60 + 10) * SCREEN_WIDTH / 15.
Proof.
  assert (R : reachable counting_at_0_10) by (apply reachable_run, reach_setup).
  assert (Hin : In (EvRender true 0 10 15 (Some 85)) (out counting_at_0_10)).
  { vm_compute. do 7 right. left. reflexivity. }
  split; [exact R|]. split; [exact Hin|].
  destruct (progress_bar_fits counting_at_0_10 R true 0 10 15 (Some 85) Hin)
    as (w & A & B & _).
  exists w. split; assumption.
Defined.

(** ** The time on the display *)

Lemma shown_whole_below_100 (m sec : Z) :
  0 <= m <= 99 -> 0 <= sec <= 99 -> shown_whole m sec = true.
Proof.
  intros Hm Hsec.
  assert (Hall : forallb (fun a => forallb (fun b => shown_whole a b)
                                     (map Z.of_nat (seq 0 100)))
                         (map Z.of_nat (seq 0 100)) = true)
    by (vm_compute; reflexivity).
  assert (Hin : forall z, 0 <= z <= 99 -> In z (map Z.of_nat (seq 0 100))).
  { intros z Hz. rewrite <- (Z2Nat.id z) by lia.
    apply in_map, in_seq. lia. }
  rewrite forallb_forall in Hall. specialize (Hall m (Hin m Hm)).
  rewrite forallb_forall in Hall. exact (Hall sec (Hin sec Hsec)).
Qed.

(** X10: the six bytes of [timeStr] are enough.  In every reachable
    state [snprintf] stores the whole of [MM:SS], five characters with
    nothing cut off, and the characters read back as the minutes and
    seconds of the state. *)
Theorem time_string_fits (s : State) (Hr : reachable s) :
  timeStr s
  = String.append (printf_02d (minutes s))
                  (String.String char_colon (printf_02d (seconds s)))
  /\ String.length (timeStr s) = 5%nat
  /\ read_time (timeStr s) = Some (minutes s, seconds s).
Proof.
  destruct (reachable_total s Hr) as (Hsec & Hmin & _).
  pose proof (shown_whole_below_100 (minutes s) (seconds s)
                ltac:(lia) ltac:(lia)) as H.
  unfold shown_whole in H. fold (timeStr s) in H.
  apply andb_true_iff in H. destruct H as [H H3].
  apply andb_true_iff in H. destruct H as [H1 H2].
  apply String.eqb_eq in H1. apply Nat.eqb_eq in H2.
  split; [exact H1|]. split; [exact H2|].
  destruct (read_time (timeStr s)) as [[m' sec']|]; [|discriminate].
  apply andb_true_iff in H3. destruct H3 as [A B].
  apply Z.eqb_eq in A, B. now subst.
Qed.

Lemma time_string_fits_witness :
  reachable counting_at_0_10
  /\ read_time (timeStr counting_at_0_10)
     = Some (minutes counting_at_0_10, seconds counting_at_0_10).
Proof.
  assert (R : reachable counting_at_0_10) by (apply reachable_run, reach_setup).
  split; [exact R|].
  destruct (time_string_fits counting_at_0_10 R) as (_ & _ & A).
  exact A.
Defined.

(** ** A failed display *)

(** X11: when [display.begin()] fails, [setup()] never returns: whatever
    happens afterwards, the relay stays low, no countdown starts, nothing
    is drawn or played, the stored configuration is not even loaded and
    the EEPROM is not written. *)
Theorem display_failure_halts (es : list Env) (rom : EEPROM.t) :
  let s := run es (setup false rom) in
  pc s = Halted /\ timer_state s = None
  /\ relay s = false /\ countdownStarted s = false
  /\ out s = [] /\ minutes s = 0 /\ seconds s = 0
  /\ eeprom s = rom.
Proof.
  cbv zeta.
  assert (H : forall st,
             pc st = Halted /\ relay st = false /\ countdownStarted st = false
             /\ out st = [] /\ minutes st = 0 /\ seconds st = 0 /\ eeprom st = rom ->
             pc (run es st) = Halted /\ relay (run es st) = false
             /\ countdownStarted (run es st) = false
             /\ out (run es st) = [] /\ minutes (run es st) = 0
             /\ seconds (run es st) = 0 /\ eeprom (run es st) = rom).
  { induction es as [|e es IH]; intros st Hst; [exact Hst|].
    change (run (e :: es) st) with (run es (step e st)). apply IH.
    destruct Hst as (Hp & Hst). unfold step. rewrite Hp, interrupts_frame.
    fields. split; assumption. }
  destruct (H (setup false rom)) as (A & B & C & D & E & F & G).
  { unfold setup, power_on. cbn. repeat split; reflexivity. }
  unfold timer_state. rewrite A. repeat split; assumption.
Qed.

(** ** The debounce window in the machine *)

Lemma loop_tail_lastButtonPress (e : Env) (s : State) :
  lastButtonPress (loop_tail e s)
  = if accepted e s then millis (t_btn_stamp e) else lastButtonPress s.
Proof.
  unfold loop_tail, loop_button. rewrite isButtonPressed_spec.
  fold (accepted e s). destruct (accepted e s); fields.
  - destruct (negb (countdownStarted s)); fields.
    + destruct (pc s); try reflexivity.
      unfold loop_countdown. fields.
      destruct (1000 <=? _); [|reflexivity]. fields.
      destruct ((0 <? seconds s) || (0 <? minutes s)).
      * unfold updateDisplay. destruct (seconds s =? 0); reflexivity.
      * reflexivity.
    + reflexivity.
  - destruct (pc s); try reflexivity.
    unfold loop_countdown. destruct (countdownStarted s); [|reflexivity].
    destruct (1000 <=? _); [|reflexivity]. fields.
    destruct ((0 <? seconds s) || (0 <? minutes s)).
    + unfold updateDisplay. destruct (seconds s =? 0); reflexivity.
    + reflexivity.
Qed.

Lemma step_lastButtonPress (e : Env) (s : State) :
  pc s <> Halted ->
  lastButtonPress (step e s)
  = if accepted e s then millis (t_btn_stamp e) else lastButtonPress s.
Proof.
  intros Hpc. unfold step. destruct (pc s) eqn:E; [congruence| | |].
  - rewrite loop_split, loop_tail_lastButtonPress.
    destruct (loop_encoder_control e (at_line165 e s)) as (_ & _ & _ & Hb & _).
    unfold accepted. rewrite Hb, at_line165_frame. reflexivity.
  - unfold countdownFinished_poll, accepted. rewrite isButtonPressed_spec.
    rewrite interrupts_frame. fields. destruct (andb _ _); reflexivity.
  - unfold abortCountdown_poll, accepted. rewrite isButtonPressed_spec.
    rewrite interrupts_frame. fields. destruct (andb _ _); reflexivity.
Qed.

Lemma timer_state_pc (s : State) : timer_state s <> None <-> pc s <> Halted.
Proof.
  unfold timer_state. destruct (pc s); split; intros H; congruence.
Qed.

(** X12: the debounce window, over any number of passes.  After a step
    in which the press was accepted, no pass or poll whose button reading
    comes within DEBOUNCE_DELAY ms of that acceptance is accepted; as
    long as all readings stay within that window, the timer stays in the
    state the press has led to, except that a running countdown may
    still run out.  Readings that come later are outside this
    statement. *)
Theorem debounce_window (s : State) (e : Env) (es : list Env)
  (Hs : timer_state s <> None)
  (Ha : accepted e s = true)
  (Hw : Forall (fun e' => ULong.sub (millis (t_btn e')) (millis (t_btn_stamp e))
                          <= DEBOUNCE_DELAY) es) :
  lastButtonPress (run es (step e s)) = millis (t_btn_stamp e)
  /\ (forall es1 e2 es2, es = es1 ++ e2 :: es2 ->
        accepted e2 (run es1 (step e s)) = false)
  /\ (timer_state (run es (step e s)) = timer_state (step e s)
      \/ (timer_state (step e s) = Some Counting
          /\ timer_state (run es (step e s)) = Some Finished)).
Proof.
  assert (H1 : lastButtonPress (step e s) = millis (t_btn_stamp e)).
  { rewrite step_lastButtonPress by now apply timer_state_pc. now rewrite Ha. }
  assert (H0 : timer_state (step e s) <> None).
  { pose proof (step_transitions s e) as T.
    destruct (timer_state s) as [[| | |]|]; [| | | |congruence];
      rewrite Ha in T; try destruct T as [T|T]; congruence. }
  set (T0 := millis (t_btn_stamp e)) in *.
  assert (G : forall es0 st,
             Forall (fun e' => ULong.sub (millis (t_btn e')) T0 <= DEBOUNCE_DELAY) es0 ->
             timer_state st <> None -> lastButtonPress st = T0 ->
             lastButtonPress (run es0 st) = T0
             /\ (forall es1 e2 es2, es0 = es1 ++ e2 :: es2 ->
                   accepted e2 (run es1 st) = false)
             /\ (timer_state (run es0 st) = timer_state st
                 \/ (timer_state st = Some Counting
                     /\ timer_state (run es0 st) = Some Finished))).
  { clear. intros es0. induction es0 as [|x es0 IH]; intros st Hw Hst Hl.
    - split; [exact Hl|]. split; [|left; reflexivity].
      intros [|? ?] ? ? H; discriminate.
    - inversion Hw as [|? ? He Hes]; subst.
      assert (Hrej : accepted x st = false).
      { unfold accepted. rewrite Hl.
        apply Z.ltb_ge in He. rewrite He. apply andb_false_r. }
      assert (Hl' : lastButtonPress (step x st) = lastButtonPress st).
      { rewrite step_lastButtonPress by now apply timer_state_pc.
        now rewrite Hrej. }
      pose proof (step_transitions st x) as T. rewrite Hrej in T.
      assert (Hst' : timer_state (step x st) <> None).
      { destruct (timer_state st) as [[| | |]|]; [| | | |congruence];
          try destruct T as [T|T]; congruence. }
      change (run (x :: es0) st) with (run es0 (step x st)).
      destruct (IH (step x st) Hes Hst' ltac:(congruence)) as (A & B & C).
      split; [exact A|]. split.
      + intros [|y es1] e2 es2 Hsplit.
        * injection Hsplit as <- _. exact Hrej.
        * injection Hsplit as <- Hsplit.
          change (run (x :: es1) st) with (run es1 (step x st)).
          now apply (B es1 e2 es2).
      + destruct (timer_state st) as [[| | |]|] eqn:Est; [| | | |congruence].
        * rewrite T in C. destruct C as [C|[C _]]; [now left|discriminate].
        * destruct T as [T|T]; rewrite T in C.
          -- destruct C as [C|[_ C]]; [now left|right; auto].
          -- destruct C as [C|[C _]]; [right; auto|discriminate].
        * rewrite T in C. destruct C as [C|[C _]]; [now left|discriminate].
        * rewrite T in C. destruct C as [C|[C _]]; [now left|discriminate]. }
  exact (G es (step e s) Hw H0 H1).
Qed.

Lemma debounce_window_witness :
  timer_state at_0_06 <> None
  /\ accepted (press 2000) at_0_06 = true
  /\ Forall (fun e' => ULong.sub (millis (t_btn e')) (millis (t_btn_stamp (press 2000)))
                       <= DEBOUNCE_DELAY) [press 2100; press 2300]
  /\ timer_state (run [press 2100; press 2300] (step (press 2000) at_0_06))
     = Some Counting.
Proof.
  assert (Hs : timer_state at_0_06 <> None) by (vm_compute; discriminate).
  assert (Ha : accepted (press 2000) at_0_06 = true) by (vm_compute; reflexivity).
  assert (Hw : Forall (fun e' => ULong.sub (millis (t_btn e'))
                                   (millis (t_btn_stamp (press 2000)))
                                 <= DEBOUNCE_DELAY) [press 2100; press 2300]).
  { repeat constructor; vm_compute; discriminate. }
  split; [exact Hs|]. split; [exact Ha|]. split; [exact Hw|].
  assert (Hc : timer_state (step (press 2000) at_0_06) = Some Counting)
    by (vm_compute; reflexivity).
  destruct (debounce_window at_0_06 (press 2000) [press 2100; press 2300] Hs Ha Hw)
    as (_ & _ & [A|[_ A]]).
  - rewrite A. exact Hc.
  - exfalso. revert A. vm_compute. discriminate.
Defined.

(** ** Holding the button through the cancel melody *)

(** X13: [playCancel()] keeps the sketch inside delay() for longer than
    DEBOUNCE_DELAY, so by the first poll of the wait in [abortCountdown()]
    the debounce window of the aborting press is over: if the button then
    reads low, because it is still held or pressed again, the poll is
    accepted and the timer is back in Configuring. *)
Theorem held_button_skips_aborted (s : State) (e1 e2 : Env) (d : Z)
  (Hs : timer_state s = Some Counting)
  (Ha : accepted e1 s = true)
  (Ht : t_btn e2 = t_btn_stamp e1 + d)
  (Hd : blocking_time (play MelCancel) <= d < ULong.modulus)
  (Hlow : sw e2 = LOW) :
  timer_state (step e1 s) = Some Aborted
  /\ In (EvTone MelCancel) (out (step e1 s))
  /\ DEBOUNCE_DELAY < blocking_time (play MelCancel)
  /\ accepted e2 (step e1 s) = true
  /\ timer_state (step e2 (step e1 s)) = Some Configuring.
Proof.
  pose proof (counting_pass e1 s Hs) as P. cbv zeta in P. rewrite Ha in P.
  destruct P as (A & _ & Ho & _ & _ & Hl).
  assert (Hb : DEBOUNCE_DELAY < blocking_time (play MelCancel))
    by (vm_compute; reflexivity).
  assert (Hacc : accepted e2 (step e1 s) = true).
  { unfold accepted. rewrite Hlow, Hl, Ht, ULong_elapsed.
    - apply andb_true_iff. split; [reflexivity|apply Z.ltb_lt; lia].
    - split; [|apply Hd].
      assert (0 <= blocking_time (play MelCancel)) by (vm_compute; discriminate).
      lia. }
  split; [exact A|]. split; [rewrite Ho, in_app_iff; cbn [In]; tauto|].
  split; [exact Hb|]. split; [exact Hacc|].
  pose proof (wait_poll e2 (step e1 s) (or_intror (aborted_pc _ A))) as Q.
  cbv zeta in Q. rewrite Hacc in Q. apply Q.
Qed.

Lemma held_button_skips_aborted_witness :
  timer_state counting_at_0_10 = Some Counting
  /\ accepted (press 6500) counting_at_0_10 = true
  /\ t_btn (press 7700) = t_btn_stamp (press 6500) + 1200
  /\ blocking_time (play MelCancel) <= 1200 < ULong.modulus
  /\ sw (press 7700) = LOW
  /\ timer_state (step (press 7700) (step (press 6500) counting_at_0_10))
     = Some Configuring.
Proof.
  assert (Hs : timer_state counting_at_0_10 = Some Counting)
    by (vm_compute; reflexivity).
  assert (Ha : accepted (press 6500) counting_at_0_10 = true)
    by (vm_compute; reflexivity).
  assert (Ht : t_btn (press 7700) = t_btn_stamp (press 6500) + 1200) by reflexivity.
  assert (Hd : blocking_time (play MelCancel) <= 1200 < ULong.modulus)
    by (vm_compute; split; [discriminate|reflexivity]).
  assert (Hlow : sw (press 7700) = LOW) by reflexivity.
  split; [exact Hs|]. split; [exact Ha|]. split; [exact Ht|].
  split; [exact Hd|]. split; [exact Hlow|].
  destruct (held_button_skips_aborted counting_at_0_10 (press 6500) (press 7700)
              1200 Hs Ha Ht Hd Hlow) as (_ & _ & _ & _ & A).
  exact A.
Defined.

(** * Sequences of passes *)

Lemma all_rejected_app (a b : list Env) (s : State) :
  all_rejected (a ++ b) s <-> all_rejected a s /\ all_rejected b (run a s).
Proof.
  revert s. induction a as [|x a IH]; intros s.
  - cbn. tauto.
  - change (run (x :: a) s) with (run a (step x s)).
    cbn [app all_rejected]. rewrite IH. tauto.
Qed.

Lemma run_snoc (es : list Env) (e : Env) (s : State) :
  run (es ++ [e]) s = step e (run es s).
Proof. now rewrite run_app. Qed.

Lemma run_rejected_configuring (es : list Env) (s : State) :
  timer_state s = Some Configuring -> all_rejected es s ->
  timer_state (run es s) = Some Configuring.
Proof.
  revert s. induction es as [|e es IH]; intros s Hs Hw; [exact Hs|].
  destruct Hw as [Ha Hw].
  change (run (e :: es) s) with (run es (step e s)).
  apply IH; [|assumption]. apply (configuring_pass e s Hs Ha).
Qed.

(** While a busy-wait rejects, nothing but the encoder counter moves. *)
Lemma run_rejected_waiting (es : list Env) (s : State) :
  pc s = WaitFinished \/ pc s = WaitAborted -> all_rejected es s ->
  pc (run es s) = pc s /\ timer_state (run es s) = timer_state s
  /\ relay (run es s) = relay s
  /\ minutes (run es s) = minutes s /\ seconds (run es s) = seconds s
  /\ lastReportedPos (run es s) = lastReportedPos s
  /\ out (run es s) = out s.
Proof.
  revert s. induction es as [|e es IH]; intros s Hpc Hw; [auto 10|].
  destruct Hw as [Ha Hw].
  change (run (e :: es) s) with (run es (step e s)).
  pose proof (wait_poll e s Hpc) as P. cbv zeta in P. rewrite Ha in P.
  destruct P as (A & B & C & D & _ & E & F).
  assert (Hpc' : pc (step e s) = pc s).
  { unfold timer_state in A.
    destruct Hpc as [H|H]; rewrite H in *;
      destruct (pc (step e s)); try reflexivity; try discriminate;
      destruct (countdownStarted (step e s)); discriminate. }
  destruct (IH (step e s) ltac:(rewrite Hpc'; exact Hpc) Hw)
    as (I1 & I2 & I3 & I4 & I5 & I6 & I7).
  repeat split; congruence.
Qed.

(** While Configuring passes reject and see no change, the duration and
    the display log stay as they are. *)
Lemma run_still_configuring (es : list Env) (s : State) :
  timer_state s = Some Configuring -> all_still es s ->
  timer_state (run es s) = Some Configuring
  /\ minutes (run es s) = minutes s /\ seconds (run es s) = seconds s
  /\ out (run es s) = out s.
Proof.
  revert s. induction es as [|e es IH]; intros s Hs Hw; [auto|].
  destruct Hw as (Ha & Hm & Hw).
  change (run (e :: es) s) with (run es (step e s)).
  destruct (configuring_pass e s Hs Ha) as (Hs' & _ & Hst).
  destruct (Hst Hm) as (A & B & _ & C & _).
  destruct (IH (step e s) Hs' Hw) as (I1 & I2 & I3 & I4).
  repeat split; congruence.
Qed.

(** * Adjusting the duration *)

Lemma loop_tail_lastEncoderChange (e : Env) (s : State) :
  lastEncoderChange (loop_tail e s) = lastEncoderChange s.
Proof.
  unfold loop_tail, loop_button. rewrite isButtonPressed_spec.
  destruct (andb _ _); fields.
  - destruct (negb (countdownStarted s)); fields.
    + destruct (pc s); try reflexivity.
      unfold loop_countdown. fields.
      destruct (1000 <=? _); [|reflexivity]. fields.
      destruct ((0 <? seconds s) || (0 <? minutes s)).
      * unfold updateDisplay. destruct (seconds s =? 0); reflexivity.
      * reflexivity.
    + reflexivity.
  - destruct (pc s); try reflexivity.
    unfold loop_countdown. destruct (countdownStarted s); [|reflexivity].
    destruct (1000 <=? _); [|reflexivity]. fields.
    destruct ((0 <? seconds s) || (0 <? minutes s)).
    + unfold updateDisplay. destruct (seconds s =? 0); reflexivity.
    + reflexivity.
Qed.

(** A Configuring pass that sees the position changed, whatever the
    button does: the duration is recomputed, clamped, split and saved;
    if the press of the same pass is accepted, the countdown starts from
    that duration. *)
Lemma adjusting_pass (e : Env) (s : State) :
  timer_state s = Some Configuring -> moved e s = true ->
  let t := constrain (Int16.wrap (total_seconds s + delta e s * increment e s))
                     MIN_TIME MAX_TIME in
  MIN_TIME <= t <= MAX_TIME
  /\ eeprom (step e s) = EEPROM.put EEPROM_ADDRESS t (eeprom s)
  /\ EEPROM.get EEPROM_ADDRESS (eeprom (step e s)) = t
  /\ In (EvSave t) (out (step e s))
  /\ lastEncoderChange (step e s) = millis (t_enc e)
  /\ (accepted e s = false ->
      timer_state (step e s) = Some Configuring
      /\ total_seconds (step e s) = t
      /\ minutes (step e s) = Z.quot t 60 /\ seconds (step e s) = Z.rem t 60)
  /\ (accepted e s = true ->
      timer_state (step e s) <> Some Configuring
      /\ initialTotalSeconds (step e s) = t).
Proof.
  intros Hs Hm t.
  assert (Hr : MIN_TIME <= t <= MAX_TIME)
    by (apply constrain_bounds; unfold MIN_TIME, MAX_TIME; lia).
  assert (Hin : Int16.in_range t)
    by (unfold Int16.in_range, Int16.min_signed, Int16.max_signed,
          MIN_TIME, MAX_TIME in *; lia).
  assert (Ha0 : accepted (unpressed e) s = false) by reflexivity.
  destruct (configuring_pass (unpressed e) s Hs Ha0) as (Hs1 & Hmv & _).
  destruct (Hmv Hm) as (Hq & Hrem & Ht & Hrom & Hout & Hlec).
  change (delta (unpressed e) s) with (delta e s) in *.
  change (increment (unpressed e) s) with (increment e s) in *.
  change (t_enc (unpressed e)) with (t_enc e) in *.
  fold t in Hq, Hrem, Ht, Hrom, Hout.
  set (s1 := step (unpressed e) s) in *.
  assert (E : step e s = loop_tail e s1) by (now apply configuring_step_split).
  assert (Hacc : accepted e s1 = accepted e s)
    by (now apply accepted_unpressed_state).
  split; [exact Hr|].
  split; [rewrite E, loop_tail_eeprom; exact Hrom|].
  split; [rewrite E, loop_tail_eeprom, Hrom; now apply EEPROM_get_put|].
  assert (Hsave : In (EvSave t) (out s1))
    by (rewrite Hout, in_app_iff; cbn [In]; tauto).
  split.
  { rewrite E. destruct (accepted e s) eqn:Ha.
    - pose proof (loop_tail_start_full e s1 Hs1) as P.
      rewrite Hacc in P. specialize (P eq_refl). cbv zeta in P.
      destruct P as (_ & _ & _ & _ & _ & P).
      destruct (1000 <=? _);
        [destruct ((0 <? seconds s1) || (0 <? minutes s1));
         [destruct P as (_ & _ & _ & P & _)|destruct P as (_ & _ & P & _)]
        |destruct P as (_ & _ & P & _)];
        rewrite P, in_app_iff; now left.
    - destruct (configuring_pass e s Hs Ha) as (_ & Hmv' & _).
      destruct (Hmv' Hm) as (_ & _ & _ & _ & Hout' & _).
      fold t in Hout'. rewrite <- E, Hout', in_app_iff. cbn [In]. tauto. }
  split; [rewrite E, loop_tail_lastEncoderChange; exact Hlec|].
  split.
  - intros Ha. destruct (configuring_pass e s Hs Ha) as (Hs' & Hmv' & _).
    destruct (Hmv' Hm) as (Hq' & Hrem' & Ht' & _). auto.
  - intros Ha.
    split.
    + intros Hc. apply configuring_iff in Hc. destruct Hc as [_ Hc].
      rewrite (start_pass e s Hs Ha) in Hc. discriminate.
    + rewrite E.
      pose proof (loop_tail_start_full e s1 Hs1) as P.
      rewrite Hacc in P. specialize (P Ha). cbv zeta in P.
      destruct P as (P & _). rewrite P, Int16_total.
      fold (total_seconds s1). rewrite Ht. now apply Int16_wrap_small.
Qed.

(** C3, counterexample: Configuring at 0:06, one fast pass serves 3277
    upward edges.  The claim's sum is 6 + 3277 * 10 = 32776, which the
    clamp would take to 30:00; the 16-bit sum of line 176 is negative and
    the pass ends at 0:01. *)
Lemma adjustment_wraps_around :
  reachable at_0_06
  /\ timer_state at_0_06 = Some Configuring
  /\ total_seconds at_0_06 = 6
  /\ moved spin_3277 at_0_06 = true
  /\ delta spin_3277 at_0_06 = 3277
  /\ increment spin_3277 at_0_06 = 10
  /\ constrain (total_seconds at_0_06
                + delta spin_3277 at_0_06 * increment spin_3277 at_0_06)
               MIN_TIME MAX_TIME = 1800
  /\ total_seconds (step spin_3277 at_0_06) = 1
  /\ total_seconds (step spin_3277 at_0_06)
     <> constrain (total_seconds at_0_06
                   + delta spin_3277 at_0_06 * increment spin_3277 at_0_06)
                  MIN_TIME MAX_TIME.
Proof.
  split; [apply reachable_run, reach_setup|].
  repeat (split; [vm_compute; reflexivity|]).
  vm_compute. discriminate.
Qed.

(** C3, amended: while Configuring, whatever edges the encoder delivers
    and whether the button is up or down, every pass that sees the
    position changed computes [total + delta * increment] in the 16-bit
    [int] arithmetic of line 176 (the exact sum whenever that lies within
    the range of an [int], its two's-complement wrap otherwise), clamps
    it to [MIN_TIME, MAX_TIME], splits it into minutes and seconds and
    writes it to the EEPROM.  The resulting duration is within [1, 1800]
    for every delta; it is the Duration when the pass stays in
    Configuring and the duration the countdown starts from when the press
    of the same pass is accepted; and a Duration within [1, 1800] never
    leaves that range while the timer is Configuring. *)
Theorem adjustments_clamped (s : State) (es : list Env)
  (Hs : timer_state s = Some Configuring) (Hb : all_rejected es s) :
  timer_state (run es s) = Some Configuring
  /\ (forall es1 e es2, es = es1 ++ e :: es2 ->
      let s1 := run es1 s in
      let s2 := step e s1 in
      let exact := total_seconds s1 + delta e s1 * increment e s1 in
      (moved e s1 = true ->
         total_seconds s2 = constrain (Int16.wrap exact) MIN_TIME MAX_TIME
         /\ (Int16.in_range exact ->
             total_seconds s2 = constrain exact MIN_TIME MAX_TIME)
         /\ minutes s2 = Z.quot (total_seconds s2) 60
         /\ seconds s2 = Z.rem (total_seconds s2) 60
         /\ EEPROM.get EEPROM_ADDRESS (eeprom s2) = total_seconds s2
         /\ In (EvSave (total_seconds s2)) (out s2)
         /\ MIN_TIME <= total_seconds s2 <= MAX_TIME)
      /\ (moved e s1 = false -> total_seconds s2 = total_seconds s1)
      /\ (MIN_TIME <= total_seconds s1 <= MAX_TIME ->
          MIN_TIME <= total_seconds s2 <= MAX_TIME))
  /\ (forall e,
      let s1 := run es s in
      let exact := total_seconds s1 + delta e s1 * increment e s1 in
      let t := constrain (Int16.wrap exact) MIN_TIME MAX_TIME in
      moved e s1 = true ->
      MIN_TIME <= t <= MAX_TIME
      /\ (Int16.in_range exact -> t = constrain exact MIN_TIME MAX_TIME)
      /\ EEPROM.get EEPROM_ADDRESS (eeprom (step e s1)) = t
      /\ In (EvSave t) (out (step e s1))
      /\ (accepted e s1 = false ->
          timer_state (step e s1) = Some Configuring
          /\ total_seconds (step e s1) = t
          /\ minutes (step e s1) = Z.quot t 60
          /\ seconds (step e s1) = Z.rem t 60)
      /\ (accepted e s1 = true ->
          timer_state (step e s1) <> Some Configuring
          /\ initialTotalSeconds (step e s1) = t)).
Proof.
  assert (Hany : forall e s1, timer_state s1 = Some Configuring ->
            let exact := total_seconds s1 + delta e s1 * increment e s1 in
            let t := constrain (Int16.wrap exact) MIN_TIME MAX_TIME in
            moved e s1 = true ->
            MIN_TIME <= t <= MAX_TIME
            /\ (Int16.in_range exact -> t = constrain exact MIN_TIME MAX_TIME)
            /\ EEPROM.get EEPROM_ADDRESS (eeprom (step e s1)) = t
            /\ In (EvSave t) (out (step e s1))
            /\ (accepted e s1 = false ->
                timer_state (step e s1) = Some Configuring
                /\ total_seconds (step e s1) = t
                /\ minutes (step e s1) = Z.quot t 60
                /\ seconds (step e s1) = Z.rem t 60)
            /\ (accepted e s1 = true ->
                timer_state (step e s1) <> Some Configuring
                /\ initialTotalSeconds (step e s1) = t)).
  { intros e s1 Hs1 exact t Hm.
    destruct (adjusting_pass e s1 Hs1 Hm) as (A & _ & B & C & _ & D & E).
    fold exact in A, B, C, D, E. fold t in A, B, C, D, E.
    split; [exact A|]. split; [|auto].
    intros Hx. unfold t. now rewrite Int16_wrap_small. }
  split; [now apply run_rejected_configuring|].
  split.
  - intros es1 e es2 -> s1 s2 exact.
    apply all_rejected_app in Hb. destruct Hb as [Hb1 [Ha _]].
    assert (Hs1 : timer_state s1 = Some Configuring)
      by now apply run_rejected_configuring.
    fold s1 in Ha.
    destruct (configuring_pass e s1 Hs1 Ha) as (_ & _ & Hst).
    fold s2 in Hst.
    assert (Hmoved : moved e s1 = true ->
              total_seconds s2 = constrain (Int16.wrap exact) MIN_TIME MAX_TIME
              /\ MIN_TIME <= total_seconds s2 <= MAX_TIME).
    { intros Hm. destruct (Hany e s1 Hs1 Hm) as (A & _ & _ & _ & D & _).
      destruct (D Ha) as (_ & Ht & _). fold s2 in Ht.
      split; [exact Ht|]. rewrite Ht. exact A. }
    split; [|split].
    + intros Hm. destruct (Hmoved Hm) as [Ht Hr].
      destruct (Hany e s1 Hs1 Hm) as (_ & Hx & Hget & Hsave & D & _).
      destruct (D Ha) as (_ & _ & Hq & Hrem). fold s2 in Hget, Hsave, Hq, Hrem.
      fold exact in Hx, Hget, Hsave, Hq, Hrem.
      rewrite Ht.
      split; [reflexivity|]. split; [exact Hx|].
      split; [exact Hq|]. split; [exact Hrem|].
      split; [exact Hget|]. split; [exact Hsave|].
      rewrite <- Ht. exact Hr.
    + intros Hm. destruct (Hst Hm) as (Hq & Hrem & _).
      unfold total_seconds. now rewrite Hq, Hrem.
    + intros Hr. destruct (moved e s1) eqn:Em.
      * now apply Hmoved.
      * destruct (Hst eq_refl) as (Hq & Hrem & _).
        unfold total_seconds in *. now rewrite Hq, Hrem.
  - intros e. apply Hany. now apply run_rejected_configuring.
Qed.

Lemma adjustments_clamped_witness :
  timer_state at_29_55 = Some Configuring
  /\ all_rejected [turn [cw] 5030] at_29_55
  /\ total_seconds at_29_55 = 1795
  /\ total_seconds (step (turn [cw] 5030) at_29_55) = 1800.
Proof.
  assert (Hs : timer_state at_29_55 = Some Configuring)
    by (vm_compute; reflexivity).
  assert (Hb : all_rejected [turn [cw] 5030] at_29_55)
    by (split; [vm_compute; reflexivity|exact I]).
  split; [exact Hs|]. split; [exact Hb|].
  split; [vm_compute; reflexivity|].
  destruct (adjustments_clamped at_29_55 [turn [cw] 5030] Hs Hb) as (_ & H & _).
  specialize (H [] (turn [cw] 5030) [] eq_refl). cbv zeta in H.
  change (run [] at_29_55) with at_29_55 in H.
  destruct H as (Hm & _).
  destruct Hm as (Ht & _); [vm_compute; reflexivity|].
  rewrite Ht. vm_compute. reflexivity.
Defined.

(** * Fast and slow rotation *)



(** * Abort and acknowledge, with any wait in between *)

(** C4, amended: an accepted press while Counting leads to Aborted, with
    the relay written low before anything else.  However many polls of
    the wait are rejected, the timer stays Aborted with the relay low and
    the time untouched; the next accepted press leads back to
    Configuring with the relay still low, the encoder position
    resynchronised, and minutes and seconds exactly as the abort left
    them: the remaining time, not the duration the countdown was started
    from. *)
Theorem abort_then_acknowledge (s : State) (e1 : Env) (ps : list Env) (e2 : Env)
  (Hs : timer_state s = Some Counting)
  (H1 : accepted e1 s = true)
  (Hw : all_rejected ps (step e1 s))
  (H2 : accepted e2 (run ps (step e1 s)) = true) :
  let s1 := step e1 s in
  let s2 := step e2 (run ps s1) in
  timer_state s1 = Some Aborted /\ relay s1 = false
  /\ out s1 = out s ++ [EvRelay LOW; EvScreen ScrCancelled; EvTone MelCancel]
  /\ minutes s1 = minutes s /\ seconds s1 = seconds s
  /\ (forall ps1 ps2, ps = ps1 ++ ps2 ->
        timer_state (run ps1 s1) = Some Aborted
        /\ relay (run ps1 s1) = false
        /\ minutes (run ps1 s1) = minutes s
        /\ seconds (run ps1 s1) = seconds s
        /\ out (run ps1 s1) = out s1)
  /\ timer_state s2 = Some Configuring /\ relay s2 = false
  /\ minutes s2 = minutes s /\ seconds s2 = seconds s
  /\ encoderPos s2 = lastReportedPos s2.
Proof.
  intros s1 s2.
  pose proof (counting_pass e1 s Hs) as P1. cbv zeta in P1.
  rewrite H1 in P1. fold s1 in P1.
  destruct P1 as (Hst1 & Hr1 & Ho1 & Hm1 & Hsec1 & _).
  pose proof (aborted_pc s1 Hst1) as Hpc1.
  assert (Hpre : forall ps1 ps2, ps = ps1 ++ ps2 ->
            pc (run ps1 s1) = WaitAborted
            /\ timer_state (run ps1 s1) = Some Aborted
            /\ relay (run ps1 s1) = false
            /\ minutes (run ps1 s1) = minutes s
            /\ seconds (run ps1 s1) = seconds s
            /\ out (run ps1 s1) = out s1).
  { intros ps1 ps2 ->. fold s1 in Hw. apply all_rejected_app in Hw.
    destruct Hw as [Hw _].
    destruct (run_rejected_waiting ps1 s1 (or_intror Hpc1) Hw)
      as (A & B & C & D & E & _ & F).
    repeat split; congruence. }
  destruct (Hpre ps [] (eq_sym (app_nil_r ps))) as (Hpc & Hst & Hr & Hm & Hsec & _).
  pose proof (wait_poll e2 (run ps s1) (or_intror Hpc)) as P2.
  cbv zeta in P2. fold s1 in H2. rewrite H2 in P2. fold s2 in P2.
  destruct P2 as (Hst2 & Hr2 & Hm2 & Hsec2 & He2 & Hl2 & _).
  split; [exact Hst1|]. split; [exact Hr1|]. split; [exact Ho1|].
  split; [exact Hm1|]. split; [exact Hsec1|].
  split; [intros ps1 ps2 Hp; now destruct (Hpre ps1 ps2 Hp) as (_ & H)|].
  repeat split; congruence.
Qed.

Lemma abort_then_acknowledge_witness :
  timer_state counting_at_0_10 = Some Counting
  /\ accepted (press 6500) counting_at_0_10 = true
  /\ all_rejected [idle 7700; idle 7800; idle 7900]
       (step (press 6500) counting_at_0_10)
  /\ accepted (press 9000)
       (run [idle 7700; idle 7800; idle 7900] (step (press 6500) counting_at_0_10))
     = true
  /\ seconds (step (press 9000)
                (run [idle 7700; idle 7800; idle 7900]
                     (step (press 6500) counting_at_0_10)))
     = seconds counting_at_0_10.
Proof.
  assert (Hs : timer_state counting_at_0_10 = Some Counting)
    by (vm_compute; reflexivity).
  assert (H1 : accepted (press 6500) counting_at_0_10 = true)
    by (vm_compute; reflexivity).
  assert (Hw : all_rejected [idle 7700; idle 7800; idle 7900]
                 (step (press 6500) counting_at_0_10)).
  { cbn [all_rejected]. repeat split; vm_compute; reflexivity. }
  assert (H2 : accepted (press 9000)
                 (run [idle 7700; idle 7800; idle 7900]
                      (step (press 6500) counting_at_0_10)) = true)
    by (vm_compute; reflexivity).
  split; [exact Hs|]. split; [exact H1|]. split; [exact Hw|]. split; [exact H2|].
  destruct (abort_then_acknowledge counting_at_0_10 (press 6500)
              [idle 7700; idle 7800; idle 7900] (press 9000) Hs H1 Hw H2)
    as (_ & _ & _ & _ & _ & _ & _ & _ & _ & B & _).
  exact B.
Defined.

(** * The interrupt handler, any order *)

Lemma net_permutation (l l' : list (bool * bool)) :
  Permutation.Permutation l l' -> net l = net l'.
Proof.
  induction 1 as [|x l l' _ IH|x y l|l l' l'' _ IH1 _ IH2].
  - reflexivity.
  - change (net (x :: l)) with (notch x + net l).
    change (net (x :: l')) with (notch x + net l'). lia.
  - change (net (y :: x :: l)) with (notch y + (notch x + net l)).
    change (net (x :: y :: l)) with (notch x + (notch y + net l)). lia.
  - congruence.
Qed.

(** X1: [doEncoder()] writes [encoderPos] and nothing else; a burst of
    edges moves the counter by its net rotation (at most one step per
    edge), modulo the 16 bits of an [int]; any later burst of the
    opposite net rotation brings the counter back to where it was, in
    particular the mirrored edges of the burst served in any order. *)
Theorem doEncoder_burst (l : list (bool * bool)) (s : State)
  (Hs : Int16.in_range (encoderPos s)) :
  interrupts l s = set_encoderPos (Int16.wrap (encoderPos s + net l)) s
  /\ - Z.of_nat (List.length l) <= net l <= Z.of_nat (List.length l)
  /\ (forall back, net back = - net l ->
        encoderPos (interrupts back (interrupts l s)) = encoderPos s)
  /\ (forall l', Permutation.Permutation l l' ->
        encoderPos (interrupts (map mirror l') (interrupts l s)) = encoderPos s)
  /\ encoderPos (interrupts (map mirror l) (interrupts l s)) = encoderPos s
  /\ encoderPos (interrupts (map mirror (rev l)) (interrupts l s)) = encoderPos s.
Proof.
  assert (Hback : forall back, net back = - net l ->
            encoderPos (interrupts back (interrupts l s)) = encoderPos s).
  { intros back Hb.
    rewrite <- interrupts_app, interrupts_encoderPos by exact Hs.
    rewrite net_app, Hb.
    replace (encoderPos s + (net l + - net l)) with (encoderPos s) by lia.
    now apply Int16_wrap_small. }
  assert (Hperm : forall l', Permutation.Permutation l l' ->
            encoderPos (interrupts (map mirror l') (interrupts l s)) = encoderPos s).
  { intros l' Hp. apply Hback. rewrite net_mirror.
    now rewrite (net_permutation l l' Hp). }
  split; [|split; [apply net_bound|split; [exact Hback|split; [exact Hperm|split]]]].
  - rewrite interrupts_frame. f_equal. now apply interrupts_encoderPos.
  - apply Hperm. apply Permutation.Permutation_refl.
  - apply Hperm. apply Permutation.Permutation_rev.
Qed.

Lemma doEncoder_burst_witness :
  Int16.in_range (encoderPos counting_at_0_10)
  /\ encoderPos (interrupts (map mirror [ccw; cw; cw])
                   (interrupts [cw; cw; ccw] counting_at_0_10))
     = encoderPos counting_at_0_10.
Proof.
  assert (Hs : Int16.in_range (encoderPos counting_at_0_10))
    by (vm_compute; split; discriminate).
  split; [exact Hs|].
  destruct (doEncoder_burst [cw; cw; ccw] counting_at_0_10 Hs)
    as (_ & _ & _ & B & _).
  apply (B [ccw; cw; cw]).
  apply Permutation.Permutation_rev.
Defined.

(** * Abort, acknowledge, start again *)

(** X14: an abort works as a pause.  After a countdown has been aborted,
    however many polls of the wait are rejected before the abort is
    acknowledged, and however many passes then go by in Configuring with
    nothing accepted and the encoder left alone, the next accepted press
    (again with the encoder left alone) starts a countdown of exactly the
    time that was left at the abort: that time becomes the new
    [initialTotalSeconds], against which the progress bar is drawn, and
    the pass writes the relay high. *)
Theorem abort_then_resume (s : State) (e1 : Env) (ps : list Env) (e2 : Env)
  (qs : list Env) (e3 : Env)
  (Hr : reachable s)
  (Hs : timer_state s = Some Counting)
  (H1 : accepted e1 s = true)
  (Hw1 : all_rejected ps (step e1 s))
  (H2 : accepted e2 (run ps (step e1 s)) = true)
  (Hw2 : all_still qs (step e2 (run ps (step e1 s))))
  (H3 : accepted e3 (run qs (step e2 (run ps (step e1 s)))) = true)
  (Hm : moved e3 (run qs (step e2 (run ps (step e1 s)))) = false) :
  let s2 := run qs (step e2 (run ps (step e1 s))) in
  let s3 := step e3 s2 in
  timer_state s2 = Some Configuring
  /\ total_seconds s2 = total_seconds s
  /\ initialTotalSeconds s3 = total_seconds s
  /\ (exists rest, out s3 = out s2 ++ EvRelay HIGH :: rest)
  /\ (ULong.sub (millis (t_tick e3)) (millis (t_start e3)) < 1000 ->
      timer_state s3 = Some Counting /\ relay s3 = true
      /\ total_seconds s3 = total_seconds s
      /\ out s3 = out s2 ++ [EvRelay HIGH]).
Proof.
  intros s2 s3.
  pose proof (counting_pass e1 s Hs) as P1. cbv zeta in P1. rewrite H1 in P1.
  destruct P1 as (A1 & _ & _ & M1 & S1 & _).
  pose proof (aborted_pc _ A1) as Hpc1.
  destruct (run_rejected_waiting ps (step e1 s) (or_intror Hpc1) Hw1)
    as (Hpc & _ & _ & Mp & Sp & _).
  assert (Hpc2 : pc (run ps (step e1 s)) = WaitAborted) by congruence.
  pose proof (wait_poll e2 (run ps (step e1 s)) (or_intror Hpc2)) as P2.
  cbv zeta in P2. rewrite H2 in P2.
  destruct P2 as (A2 & _ & M2 & S2 & _).
  destruct (run_still_configuring qs _ A2 Hw2) as (Aq & Mq & Sq & _).
  fold s2 in Aq, Mq, Sq, H3, Hm.
  assert (R2 : reachable s2).
  { unfold s2. apply reachable_run. constructor. apply reachable_run.
    constructor. exact Hr. }
  assert (T2 : total_seconds s2 = total_seconds s)
    by (unfold total_seconds; congruence).
  destruct (reachable_total s2 R2) as (_ & _ & _ & Hw).
  (* the pass that starts again *)
  assert (Ha0 : accepted (unpressed e3) s2 = false) by reflexivity.
  destruct (configuring_pass (unpressed e3) s2 Aq Ha0) as (Hs1 & _ & Hst).
  destruct (Hst Hm) as (Mu & Su & _ & Ou & _).
  pose proof (loop_tail_start_full e3 (step (unpressed e3) s2) Hs1) as P.
  rewrite accepted_unpressed_state in P by exact Aq.
  specialize (P H3). cbv zeta in P.
  rewrite <- configuring_step_split in P by exact Aq. fold s3 in P.
  rewrite Mu, Su, Ou, Hw in P.
  destruct P as (Hi & _ & _ & _ & _ & P).
  split; [exact Aq|]. split; [exact T2|].
  split; [rewrite Hi; exact T2|].
  split.
  { destruct (1000 <=? _);
      [destruct ((0 <? seconds s2) || (0 <? minutes s2));
       [destruct P as (_ & _ & _ & P & _)|destruct P as (_ & _ & P & _)]
      |destruct P as (_ & _ & P & _)];
      rewrite P; eexists; reflexivity. }
  intros Hlt. apply Z.ltb_lt in Hlt. rewrite Z.ltb_antisym in Hlt.
  apply negb_true_iff in Hlt. rewrite Hlt in P.
  destruct P as (B1 & B2 & B3 & B4 & B5 & _).
  split; [exact B1|]. split; [exact B2|]. split; [|exact B3].
  unfold total_seconds at 1. rewrite B4, B5. exact T2.
Qed.

Lemma abort_then_resume_witness :
  reachable counting_at_0_10
  /\ timer_state counting_at_0_10 = Some Counting
  /\ accepted (press 6500) counting_at_0_10 = true
  /\ all_rejected [idle 7700; idle 7800] (step (press 6500) counting_at_0_10)
  /\ accepted (press 8000)
       (run [idle 7700; idle 7800] (step (press 6500) counting_at_0_10)) = true
  /\ all_still [idle 8100; press 8200]
       (step (press 8000)
          (run [idle 7700; idle 7800] (step (press 6500) counting_at_0_10)))
  /\ initialTotalSeconds
       (step (press 9000)
          (run [idle 8100; press 8200]
             (step (press 8000)
                (run [idle 7700; idle 7800]
                   (step (press 6500) counting_at_0_10)))))
     = total_seconds counting_at_0_10.
Proof.
  assert (R : reachable counting_at_0_10) by (apply reachable_run, reach_setup).
  assert (Hs : timer_state counting_at_0_10 = Some Counting)
    by (vm_compute; reflexivity).
  assert (H1 : accepted (press 6500) counting_at_0_10 = true)
    by (vm_compute; reflexivity).
  assert (Hw1 : all_rejected [idle 7700; idle 7800]
                  (step (press 6500) counting_at_0_10)).
  { cbn [all_rejected]. repeat split; vm_compute; reflexivity. }
  assert (H2 : accepted (press 8000)
                 (run [idle 7700; idle 7800]
                      (step (press 6500) counting_at_0_10)) = true)
    by (vm_compute; reflexivity).
  assert (Hw2 : all_still [idle 8100; press 8200]
                  (step (press 8000)
                     (run [idle 7700; idle 7800]
                        (step (press 6500) counting_at_0_10)))).
  { cbn [all_still]. repeat split; vm_compute; reflexivity. }
  assert (H3 : accepted (press 9000)
                 (run [idle 8100; press 8200]
                    (step (press 8000)
                       (run [idle 7700; idle 7800]
                          (step (press 6500) counting_at_0_10)))) = true)
    by (vm_compute; reflexivity).
  assert (Hm : moved (press 9000)
                 (run [idle 8100; press 8200]
                    (step (press 8000)
                       (run [idle 7700; idle 7800]
                          (step (press 6500) counting_at_0_10)))) = false)
    by (vm_compute; reflexivity).
  split; [exact R|]. split; [exact Hs|]. split; [exact H1|]. split; [exact Hw1|].
  split; [exact H2|]. split; [exact Hw2|].
  destruct (abort_then_resume counting_at_0_10 (press 6500) [idle 7700; idle 7800]
              (press 8000) [idle 8100; press 8200] (press 9000)
              R Hs H1 Hw1 H2 Hw2 H3 Hm) as (_ & _ & A & _).
  exact A.
Defined.
